(** * Property-report backend: investment calculators and page layout

    A shallow embedding of [calculator-logic.js], of the PDF composer
    ([pdf-generator.js]) and of the HTTP handlers ([server.js]).

    - JavaScript numbers are IEEE 754 binary64 values, modelled by the
      Standard Library's executable specification of floating-point
      arithmetic ([SpecFloat], precision 53, emax 1024): rounding,
      overflow, infinities, signed zeros and NaN behave as they do in the
      JavaScript engine.
    - JavaScript strings are modelled by their UTF-8 encoding.
    - The built-in functions the code calls ([parseFloat], [parseInt],
      [String], [Math.floor], [Math.max], [toLocaleString]) follow
      ECMA-262 and ECMA-402, with correctly rounded conversions.
    - Objects used as field mappings, and the result objects, are finite
      maps; the values of input fields are the scalar values of JSON and
      [undefined].
    - The rendering backend is a list of pages holding the drawing commands
      issued on each.  Text that runs below the bottom margin makes the
      backend start a page: the number of pages each template starts is a
      parameter of the page sequence.
    - What belongs to the host is a parameter: whether a file exists and
      whether the backend can decode it, and the names of the temporary
      files; [path.basename] is the POSIX one. *)

From stdpp Require Import gmap strings list.
From Stdlib Require Import ZArith SpecFloat Decimal Ascii String.

Local Open Scope string_scope.
Local Open Scope Z_scope.

(** ** JavaScript numbers *)

Module Num.

Definition number : Type := spec_float.

Definition prec : Z := 53.
Definition emax : Z := 1024.

Definition add : number -> number -> number := SFadd prec emax.
Definition sub : number -> number -> number := SFsub prec emax.
Definition mul : number -> number -> number := SFmul prec emax.
Definition div : number -> number -> number := SFdiv prec emax.
Definition ltb : number -> number -> bool := SFltb.
Definition leb : number -> number -> bool := SFleb.
Definition eqb : number -> number -> bool := SFeqb.
(** [a > b] and [a >= b] are [b < a] and [b <= a]. *)
Definition gtb (a b : number) : bool := SFltb b a.
Definition geb (a b : number) : bool := SFleb b a.

Definition NaN : number := S754_nan.
Definition Infinity : number := S754_infinity false.
Definition zero : number := S754_zero false.

Definition isNaN (x : number) : bool :=
  match x with S754_nan => true | _ => false end.

Definition isFinite (x : number) : bool :=
  match x with
  | S754_zero _ | S754_finite _ _ _ => true
  | S754_infinity _ | S754_nan => false
  end.

Definition is_zero (x : number) : bool :=
  match x with S754_zero _ => true | _ => false end.

(** The Number value of a mathematical integer (round to nearest, ties to
    even; overflow gives an infinity). *)
Definition of_Z (z : Z) : number := binary_normalize prec emax z 0 false.

(** The Number value of the decimal [m * 10^e10] with sign [neg]:
    correctly rounded, as for numeric literals and string conversion. *)
Definition of_decimal (neg : bool) (m e10 : Z) : number :=
  match m with
  | Z0 => S754_zero neg
  | Zpos p =>
      if 0 <=? e10
      then binary_round prec emax neg (Z.to_pos (Zpos p * 10 ^ e10)) 0
      else
        let '(q, e, l) :=
          SFdiv_core_binary prec emax (Zpos p) 0 (10 ^ (- e10)) 0 in
        binary_round_aux prec emax neg q e l
  | Zneg _ => S754_nan
  end.

(** Exact rational value [num / den] of a positive finite number. *)
Definition ratio (m : positive) (e : Z) : Z * Z :=
  if 0 <=? e then (Zpos m * 2 ^ e, 1) else (Zpos m, 2 ^ (- e)).

(** Nearest integer to the magnitude [m * 2^e], ties away from zero. *)
Definition nearest_int (m : positive) (e : Z) : Z :=
  let '(num, den) := ratio m e in
  let q := num / den in
  if den <=? 2 * (num mod den) then q + 1 else q.

(** [Math.floor]. *)
Definition floor (x : number) : number :=
  match x with
  | S754_finite s m e =>
      let '(num, den) := ratio m e in
      let q := num / den in
      if s then
        of_decimal true (if num mod den =? 0 then q else q + 1) 0
      else of_decimal false q 0
  | _ => x
  end.

(** [Math.max] and [Math.min] of two arguments. *)
Definition max (a b : number) : number :=
  match a, b with
  | S754_nan, _ | _, S754_nan => S754_nan
  | S754_zero sa, S754_zero sb => S754_zero (sa && sb)
  | _, _ => if SFltb a b then b else a
  end.

Definition min (a b : number) : number :=
  match a, b with
  | S754_nan, _ | _, S754_nan => S754_nan
  | S754_zero sa, S754_zero sb => S754_zero (sa || sb)
  | _, _ => if SFltb b a then b else a
  end.

(** Numeric literals: [5.8], [0.75], [100] denote the binary64 value
    nearest to the decimal, as in JavaScript source text. *)
Definition lit_of_number (n : Number.number) : option number :=
  match n with
  | Number.Decimal (Decimal.Decimal i f) =>
      let neg := match i with Pos _ => false | Neg _ => true end in
      let k := Z.of_nat (Decimal.nb_digits f) in
      Some (of_decimal neg (Z.abs (Z.of_int i) * 10 ^ k + Z.of_uint f) (- k))
  | Number.Decimal (Decimal.DecimalExp i f e) =>
      let neg := match i with Pos _ => false | Neg _ => true end in
      let k := Z.of_nat (Decimal.nb_digits f) in
      Some (of_decimal neg (Z.abs (Z.of_int i) * 10 ^ k + Z.of_uint f)
              (Z.of_int e - k))
  | Number.Hexadecimal _ => None
  end.

Definition lit_to_number (x : number) : option Number.number := None.

End Num.

Abbreviation number := Num.number.

Declare Scope num_scope.
Delimit Scope num_scope with num.
Bind Scope num_scope with Num.number.
Number Notation spec_float Num.lit_of_number Num.lit_to_number : num_scope.
Infix "+" := Num.add : num_scope.
Infix "-" := Num.sub : num_scope.
Infix "*" := Num.mul : num_scope.
Infix "/" := Num.div : num_scope.
Infix "<?" := Num.ltb : num_scope.
Infix "<=?" := Num.leb : num_scope.
Infix ">?" := Num.gtb : num_scope.
Infix ">=?" := Num.geb : num_scope.

(** JavaScript truthiness of a number, and [x || d] on numbers. *)
Definition truthy_num (x : number) : bool :=
  negb (Num.is_zero x || Num.isNaN x).

Definition or_num (x d : number) : number := if truthy_num x then x else d.


(** ** JavaScript strings *)

Definition byte (a : ascii) : Z := Z.of_N (Ascii.N_of_ascii a).

(** The first three bytes of a string ([-1] past its end). *)
Definition head3 (s : string) : Z * Z * Z :=
  match s with
  | EmptyString => (-1, -1, -1)
  | String a EmptyString => (byte a, -1, -1)
  | String a (String b EmptyString) => (byte a, byte b, -1)
  | String a (String b (String c _)) => (byte a, byte b, byte c)
  end.

Definition is_ascii_ws (c : Z) : bool :=
  (c =? 9) || (c =? 10) || (c =? 11) || (c =? 12) || (c =? 13) || (c =? 32).

(** Number of bytes of the white-space or line-terminator code point that
    starts [s] (the class [\s], which is also what [parseFloat] and
    [parseInt] skip), [0] when there is none: TAB, LF, VT, FF, CR, SP,
    U+00A0, U+1680, U+2000..U+200A, U+2028, U+2029, U+202F, U+205F, U+3000,
    U+FEFF. *)
Definition ws_len (s : string) : nat :=
  let '(a, b, c) := head3 s in
  if is_ascii_ws a then 1%nat
  else if (a =? 194) && (b =? 160) then 2%nat
  else if (a =? 225) && (b =? 154) && (c =? 128) then 3%nat
  else if (a =? 226) && (b =? 128)
          && (((128 <=? c) && (c <=? 138)) || (c =? 168) || (c =? 169)
              || (c =? 175)) then 3%nat
  else if (a =? 226) && (b =? 129) && (c =? 159) then 3%nat
  else if (a =? 227) && (b =? 128) && (c =? 128) then 3%nat
  else if (a =? 239) && (b =? 187) && (c =? 191) then 3%nat
  else 0%nat.

(** Bytes matched at the head of [s] by the class [[£,\s]]: the pound sign
    U+00A3 is the two bytes 194 163. *)
Definition currency_class_len (s : string) : nat :=
  let '(a, b, _) := head3 s in
  if a =? 44 then 1%nat
  else if (a =? 194) && (b =? 163) then 2%nat
  else ws_len s.

(** [s.replace(/[£,\s]/g, '')]; [skip] counts the bytes of a matched code
    point still to be dropped. *)
Fixpoint replace_currency_aux (skip : nat) (s : string) : string :=
  match s with
  | EmptyString => EmptyString
  | String a s' =>
      match skip with
      | S k => replace_currency_aux k s'
      | O =>
          match currency_class_len s with
          | O => String a (replace_currency_aux 0 s')
          | S k => replace_currency_aux k s'
          end
      end
  end.

Definition replace_currency (s : string) : string := replace_currency_aux 0 s.

(** Leading white space removed (TrimString at the start). *)
Fixpoint trim_start_aux (skip : nat) (s : string) : string :=
  match s with
  | EmptyString => EmptyString
  | String a s' =>
      match skip with
      | S k => trim_start_aux k s'
      | O =>
          match ws_len s with
          | O => s
          | S k => trim_start_aux k s'
          end
      end
  end.

Definition trim_start (s : string) : string := trim_start_aux 0 s.

Fixpoint drop_prefix (p s : string) : option string :=
  match p, s with
  | EmptyString, _ => Some s
  | String a p', String b s' =>
      if Ascii.eqb a b then drop_prefix p' s' else None
  | String _ _, EmptyString => None
  end.

Definition digit_val (a : ascii) : option Z :=
  let c := byte a in
  if (48 <=? c) && (c <=? 57) then Some (c - 48) else None.

Definition hex_digit_val (a : ascii) : option Z :=
  let c := byte a in
  if (48 <=? c) && (c <=? 57) then Some (c - 48)
  else if (97 <=? c) && (c <=? 102) then Some (c - 87)
  else if (65 <=? c) && (c <=? 70) then Some (c - 55)
  else None.

(** Longest run of digits in radix [r] at the head of [s]: accumulated
    value, number of digits, and the rest of the string. *)
Fixpoint take_digits_with (dv : ascii -> option Z) (r : Z)
    (s : string) (acc : Z) (n : nat) : Z * nat * string :=
  match s with
  | EmptyString => (acc, n, s)
  | String a s' =>
      match dv a with
      | Some d => take_digits_with dv r s' (acc * r + d) (S n)
      | None => (acc, n, s)
      end
  end.

Definition take_digits := take_digits_with digit_val 10.

Definition take_sign (s : string) : bool * string :=
  match s with
  | String "-" r => (true, r)
  | String "+" r => (false, r)
  | _ => (false, s)
  end.

(** The value of an optional exponent part at the head of [s]: [e] or [E],
    an optional sign and at least one digit; [0] when there is none. *)
Definition exponent_part (s : string) : Z :=
  match s with
  | String c r =>
      if (byte c =? 101) || (byte c =? 69) then
        let '(eneg, r') := take_sign r in
        let '(ev, ne, _) := take_digits r' 0 0 in
        match ne with
        | O => 0
        | S _ => if eneg then - ev else ev
        end
      else 0
  | EmptyString => 0
  end.

(** [parseFloat] of a string: skip leading white space, read the longest
    prefix that is a decimal literal (sign, [Infinity], digits, fraction,
    exponent), and round its value to a Number; [NaN] when no prefix is a
    literal. *)
Definition parseFloat_str (s : string) : number :=
  let '(neg, s1) := take_sign (trim_start s) in
  match drop_prefix "Infinity" s1 with
  | Some _ => S754_infinity neg
  | None =>
      let '(ip, ni, r1) := take_digits s1 0 0 in
      let '(mant, nf, r2) :=
        match r1 with
        | String "." r => take_digits r ip 0
        | _ => (ip, O, r1)
        end in
      match ni, nf with
      | O, O => Num.NaN
      | _, _ => Num.of_decimal neg mant (exponent_part r2 - Z.of_nat nf)
      end
  end.

(** [parseInt] of a string with no radix argument: radix 16 after a [0x]
    or [0X] prefix, else radix 10. *)
Definition parseInt_str (s : string) : number :=
  let '(neg, s1) := take_sign (trim_start s) in
  let '(v, n, _) :=
    match s1 with
    | String "0" (String x r) =>
        if (byte x =? 120) || (byte x =? 88)
        then take_digits_with hex_digit_val 16 r 0 0
        else take_digits s1 0 0
    | _ => take_digits s1 0 0
    end in
  match n with
  | O => Num.NaN
  | S _ => Num.of_decimal neg v 0
  end.

(** *** Number to string *)

Definition digit_char (d : Z) : ascii := Ascii.ascii_of_N (Z.to_N (48 + d)).

Fixpoint digits_fuel (fuel : nat) (n : Z) (acc : string) : string :=
  match fuel with
  | O => acc
  | S f =>
      let acc' := String (digit_char (n mod 10)) acc in
      if n <? 10 then acc' else digits_fuel f (n / 10) acc'
  end.

(** The decimal digits of a non-negative integer. *)
Definition digits_of_Z (n : Z) : string :=
  digits_fuel (S (Z.to_nat (Z.log2 n))) n "".

Definition ndigits (n : Z) : Z := Z.of_nat (String.length (digits_of_Z n)).

Fixpoint zeros (n : nat) : string :=
  match n with
  | O => ""
  | S k => String "0" (zeros k)
  end.

Definition same_number (a b : number) : bool :=
  match a, b with
  | S754_zero s, S754_zero t => Bool.eqb s t
  | S754_infinity s, S754_infinity t => Bool.eqb s t
  | S754_nan, S754_nan => true
  | S754_finite s m e, S754_finite t n f =>
      Bool.eqb s t && (m =? n)%positive && (e =? f)
  | _, _ => false
  end.

(** The integer [n] with [10^(n-1) <= num/den < 10^n]. *)
Definition decimal_exponent (num den : Z) : Z :=
  if den <=? num then ndigits (num / den)
  else 1 - ndigits ((den + num - 1) / num - 1).

(** Shortest digits: the least [k >= 1] and an integer [s] of [k] digits
    with [s * 10^(n-k)] rounding to [x]; of two such [s] the one nearer to
    [x].  Returns [(s, n)]. *)
Fixpoint shortest_digits (fuel : nat) (x : number) (num den n k : Z)
    : Z * Z :=
  match fuel with
  | O => (0, n)
  | S f =>
      let scale := n - k in
      let '(N, D) :=
        if 0 <=? scale then (num, den * 10 ^ scale)
        else (num * 10 ^ (- scale), den) in
      let lo := N / D in
      let r := N mod D in
      let hi := lo + 1 in
      let lo_ok := same_number (Num.of_decimal false lo scale) x in
      let hi_ok := same_number (Num.of_decimal false hi scale) x in
      let prefer_lo := (2 * r <? D) || ((2 * r =? D) && Z.even lo) in
      let pick (s : Z) := if s =? 10 ^ k then (1, n + 1) else (s, n) in
      if lo_ok && (prefer_lo || negb hi_ok) then pick lo
      else if hi_ok then pick hi
      else shortest_digits f x num den n (k + 1)
  end.

(** [Number::toString] in radix 10. *)
Definition numberToString (x : number) : string :=
  match x with
  | S754_nan => "NaN"
  | S754_zero _ => "0"
  | S754_infinity s => if s then "-Infinity" else "Infinity"
  | S754_finite sg m e =>
      let '(num, den) := Num.ratio m e in
      let '(s, n) :=
        shortest_digits 17 (S754_finite false m e) num den
          (decimal_exponent num den) 1 in
      let ds := digits_of_Z s in
      let k := Z.of_nat (String.length ds) in
      let body :=
        if (k <=? n) && (n <=? 21) then ds ++ zeros (Z.to_nat (n - k))
        else if (0 <? n) && (n <=? 21) then
          substring 0 (Z.to_nat n) ds ++ "."
            ++ substring (Z.to_nat n) (Z.to_nat (k - n)) ds
        else if (-6 <? n) && (n <=? 0) then
          "0." ++ zeros (Z.to_nat (- n)) ++ ds
        else
          let ex := n - 1 in
          let es := (if ex <? 0 then "-" else "+") ++ digits_of_Z (Z.abs ex) in
          if k =? 1 then ds ++ "e" ++ es
          else substring 0 1 ds ++ "."
                 ++ substring 1 (Z.to_nat (k - 1)) ds ++ "e" ++ es in
      if sg then "-" ++ body else body
  end.

(** ** JavaScript values held by the field mappings *)

(** The scalar values: [undefined] (also what an absent field reads as),
    [null], booleans, numbers and strings. *)
Inductive value : Type :=
| VUndefined
| VNull
| VBool (b : bool)
| VNum (x : number)
| VStr (s : string).

(** [ToString]. *)
Definition to_String (v : value) : string :=
  match v with
  | VUndefined => "undefined"
  | VNull => "null"
  | VBool true => "true"
  | VBool false => "false"
  | VNum x => numberToString x
  | VStr s => s
  end.

(** [ToBoolean]. *)
Definition truthy (v : value) : bool :=
  match v with
  | VUndefined | VNull => false
  | VBool b => b
  | VNum x => truthy_num x
  | VStr s => negb (String.eqb s "")
  end.

(** [a || b] on values. *)
Definition or_val (a b : value) : value := if truthy a then a else b.

Definition parseFloat (v : value) : number := parseFloat_str (to_String v).
Definition parseInt (v : value) : number := parseInt_str (to_String v).

(** A field mapping (a plain object); reading an absent field gives
    [undefined]. *)
Definition get (data : gmap string value) (k : string) : value :=
  default VUndefined (data !! k).

(** Object literals with number-valued fields (result mappings). *)
Definition obj (l : list (string * number)) : gmap string number :=
  list_to_map l.

(** [v === 'literal']: strict equality with a string literal. *)
Definition is_str (v : value) (s : string) : bool :=
  match v with
  | VStr t => String.eqb t s
  | _ => false
  end.

Local Open Scope num_scope.

(** ** calculator-logic.js *)

Module Calc.

(** [parseCurrency(value)]. *)
Definition parseCurrency (v : value) : number :=
  if negb (truthy v) then 0
  else
    let cleaned := replace_currency (to_String v) in
    or_num (parseFloat_str cleaned) 0.

(** Thousands separators: a comma before every group of three digits
    counted from the right. *)
Fixpoint group3 (s : string) : string :=
  match s with
  | EmptyString => EmptyString
  | String a s' =>
      let n := String.length s' in
      if (0 <? n)%nat && (n mod 3 =? 0)%nat
      then String a (String "," (group3 s'))
      else String a (group3 s')
  end.

(** [value.toLocaleString('en-GB', { minimumFractionDigits: 0,
    maximumFractionDigits: 0 })] on a Number: the decimal digits of the
    nearest integer (ties away from zero), grouped in thousands; a minus
    sign when the sign bit is set. *)
Definition toLocaleString_whole (x : number) : string :=
  match x with
  | S754_nan => "NaN"
  | S754_infinity s => if s then "-∞" else "∞"
  | S754_zero s => if s then "-0" else "0"
  | S754_finite s m e =>
      let body := group3 (digits_of_Z (Num.nearest_int m e)) in
      if s then "-" ++ body else body
  end.

(** [formatCurrency(value)]. *)
Definition formatCurrency (x : number) : string :=
  "£" ++ toLocaleString_whole x.

(** Standard Buy to Let calculator. *)
Definition calculateStandardBTL (data : gmap string value)
    : gmap string number :=
  let purchasePrice := parseCurrency (get data "purchase_price") in
  let depositPercent := or_num (parseFloat (get data "deposit_percent")) 20 in
  let monthlyRent := parseCurrency (get data "monthly_rent") in
  let mortgageRate := or_num (parseFloat (get data "mortgage_rate")) 5.8 in
  let depositAmount := purchasePrice * (depositPercent / 100) in
  let annualRent := monthlyRent * 12 in
  let rentalYield :=
    if purchasePrice >? 0 then (annualRent / purchasePrice) * 100 else 0 in
  let stampDuty := parseCurrency (get data "stamp_duty") in
  let surveyCost := parseCurrency (get data "survey_cost") in
  let legalFees := parseCurrency (get data "legal_fees") in
  let loanSetup := parseCurrency (get data "loan_setup") in
  let totalPurchaseCosts := stampDuty + surveyCost + legalFees + loanSetup in
  let totalInvestment := depositAmount + totalPurchaseCosts in
  let mortgageAmount := purchasePrice - depositAmount in
  let annualMortgageInterest := mortgageAmount * (mortgageRate / 100) in
  let councilTax := parseCurrency (get data "council_tax") in
  let repairs := parseCurrency (get data "repairs_maintenance") in
  let utilities := parseCurrency (get data "utilities") in
  let water := parseCurrency (get data "water") in
  let broadband := parseCurrency (get data "broadband_tv") in
  let insurance := parseCurrency (get data "insurance") in
  let totalAnnualExpenses :=
    annualMortgageInterest + councilTax + repairs + utilities + water
    + broadband + insurance in
  let annualProfit := annualRent - totalAnnualExpenses in
  let monthlyProfit := annualProfit / 12 in
  let roi :=
    if totalInvestment >? 0 then (annualProfit / totalInvestment) * 100
    else 0 in
  obj [("purchasePrice", purchasePrice); ("depositAmount", depositAmount);
       ("mortgageAmount", mortgageAmount);
       ("totalInvestment", totalInvestment); ("annualRent", annualRent);
       ("monthlyRent", monthlyRent); ("rentalYield", rentalYield);
       ("totalAnnualExpenses", totalAnnualExpenses);
       ("annualProfit", annualProfit); ("monthlyProfit", monthlyProfit);
       ("roi", roi)].

(** Buy Refurbish Refinance calculator. *)
Definition calculateBRR (data : gmap string value) : gmap string number :=
  let purchasePrice := parseCurrency (get data "purchase_price") in
  let refurbCost := parseCurrency (get data "refurb_cost") in
  let afterRefurbValue := parseCurrency (get data "after_refurb_value") in
  let depositPercent := or_num (parseFloat (get data "deposit_percent")) 20 in
  let mortgageRate := or_num (parseFloat (get data "mortgage_rate")) 5.8 in
  let refinanceLTV := or_num (parseFloat (get data "refinance_ltv")) 75 in
  let monthlyRent := parseCurrency (get data "monthly_rent") in
  let depositAmount := purchasePrice * (depositPercent / 100) in
  let initialMortgage := purchasePrice - depositAmount in
  let totalInitialInvestment := depositAmount + refurbCost in
  let refinanceAmount := afterRefurbValue * (refinanceLTV / 100) in
  let moneyBack := refinanceAmount - initialMortgage in
  let netInvestment := totalInitialInvestment - moneyBack in
  let annualRent := monthlyRent * 12 in
  let rentalYield :=
    if afterRefurbValue >? 0 then (annualRent / afterRefurbValue) * 100
    else 0 in
  let annualMortgageInterest := refinanceAmount * (mortgageRate / 100) in
  let councilTax := parseCurrency (get data "council_tax") in
  let repairs := parseCurrency (get data "repairs_maintenance") in
  let insurance := parseCurrency (get data "insurance") in
  let totalAnnualExpenses :=
    annualMortgageInterest + councilTax + repairs + insurance in
  let annualProfit := annualRent - totalAnnualExpenses in
  let monthlyProfit := annualProfit / 12 in
  let roi :=
    if netInvestment >? 0 then (annualProfit / netInvestment) * 100 else 0 in
  obj [("purchasePrice", purchasePrice); ("refurbCost", refurbCost);
       ("afterRefurbValue", afterRefurbValue);
       ("depositAmount", depositAmount);
       ("totalInitialInvestment", totalInitialInvestment);
       ("refinanceAmount", refinanceAmount); ("moneyBack", moneyBack);
       ("netInvestment", netInvestment); ("annualRent", annualRent);
       ("monthlyRent", monthlyRent); ("rentalYield", rentalYield);
       ("totalAnnualExpenses", totalAnnualExpenses);
       ("annualProfit", annualProfit); ("monthlyProfit", monthlyProfit);
       ("roi", roi)].

(** Flip calculator. *)
Definition calculateFlip (data : gmap string value) : gmap string number :=
  let purchasePrice := parseCurrency (get data "purchase_price") in
  let refurbCost := parseCurrency (get data "refurb_cost") in
  let salePrice := parseCurrency (get data "sale_price") in
  let holdingPeriod := or_num (parseFloat (get data "holding_period")) 6 in
  let stampDuty := parseCurrency (get data "stamp_duty") in
  let surveyCost := parseCurrency (get data "survey_cost") in
  let legalFeesPurchase := parseCurrency (get data "legal_fees") in
  let legalFeesSale := parseCurrency (get data "legal_fees_sale") in
  let estateAgentFees := parseCurrency (get data "estate_agent_fees") in
  let financeCost := parseCurrency (get data "finance_cost") in
  let totalPurchaseCosts := stampDuty + surveyCost + legalFeesPurchase in
  let totalSaleCosts := legalFeesSale + estateAgentFees in
  let totalInvestment :=
    purchasePrice + refurbCost + totalPurchaseCosts + financeCost in
  let grossProfit := salePrice - totalInvestment - totalSaleCosts in
  let netProfit := grossProfit in
  let roi :=
    if totalInvestment >? 0 then (netProfit / totalInvestment) * 100 else 0 in
  let monthlyROI := if holdingPeriod >? 0 then roi / holdingPeriod else 0 in
  obj [("purchasePrice", purchasePrice); ("refurbCost", refurbCost);
       ("salePrice", salePrice); ("totalInvestment", totalInvestment);
       ("grossProfit", grossProfit); ("netProfit", netProfit); ("roi", roi);
       ("monthlyROI", monthlyROI); ("holdingPeriod", holdingPeriod)].

(** Holiday Let calculator. *)
Definition calculateHolidayLet (data : gmap string value)
    : gmap string number :=
  let purchasePrice := parseCurrency (get data "purchase_price") in
  let depositPercent := or_num (parseFloat (get data "deposit_percent")) 20 in
  let mortgageRate := or_num (parseFloat (get data "mortgage_rate")) 5.8 in
  let weeklyRent := parseCurrency (get data "weekly_rent") in
  let occupancyRate := or_num (parseFloat (get data "occupancy_rate")) 50 in
  let managementFeePercent :=
    or_num (parseFloat (get data "management_fee")) 20 in
  let cleaningFee := parseCurrency (get data "cleaning_fee") in
  let depositAmount := purchasePrice * (depositPercent / 100) in
  let mortgageAmount := purchasePrice - depositAmount in
  let weeksPerYear := 52 in
  let occupiedWeeks := weeksPerYear * (occupancyRate / 100) in
  let annualRent := weeklyRent * occupiedWeeks in
  let managementFee := annualRent * (managementFeePercent / 100) in
  let totalCleaningFees := cleaningFee * occupiedWeeks in
  let annualMortgageInterest := mortgageAmount * (mortgageRate / 100) in
  let councilTax := parseCurrency (get data "council_tax") in
  let utilities := parseCurrency (get data "utilities") in
  let insurance := parseCurrency (get data "insurance") in
  let totalAnnualExpenses :=
    annualMortgageInterest + managementFee + totalCleaningFees + councilTax
    + utilities + insurance in
  let annualProfit := annualRent - totalAnnualExpenses in
  let monthlyProfit := annualProfit / 12 in
  let rentalYield :=
    if purchasePrice >? 0 then (annualRent / purchasePrice) * 100 else 0 in
  let totalInvestment := depositAmount in
  let roi :=
    if totalInvestment >? 0 then (annualProfit / totalInvestment) * 100
    else 0 in
  obj [("purchasePrice", purchasePrice); ("depositAmount", depositAmount);
       ("mortgageAmount", mortgageAmount); ("annualRent", annualRent);
       ("weeklyRent", weeklyRent); ("occupancyRate", occupancyRate);
       ("occupiedWeeks", occupiedWeeks);
       ("totalAnnualExpenses", totalAnnualExpenses);
       ("annualProfit", annualProfit); ("monthlyProfit", monthlyProfit);
       ("rentalYield", rentalYield); ("roi", roi)].

(** Rent to HMO calculator. *)
Definition calculateRentToHMO (data : gmap string value)
    : gmap string number :=
  let monthlyRentPaid := parseCurrency (get data "monthly_rent_paid") in
  let numberOfRooms := or_num (parseFloat (get data "number_of_rooms")) 1 in
  let rentPerRoom := parseCurrency (get data "rent_per_room") in
  let occupancyRate := or_num (parseFloat (get data "occupancy_rate")) 80 in
  let annualRentPaid := monthlyRentPaid * 12 in
  let occupiedRooms := Num.floor (numberOfRooms * (occupancyRate / 100)) in
  let monthlyIncome := rentPerRoom * occupiedRooms in
  let annualIncome := monthlyIncome * 12 in
  let councilTax := parseCurrency (get data "council_tax") in
  let utilities := parseCurrency (get data "utilities") in
  let insurance := parseCurrency (get data "insurance") in
  let managementFee := parseCurrency (get data "management_fee") in
  let totalAnnualExpenses :=
    annualRentPaid + councilTax + utilities + insurance + managementFee in
  let annualProfit := annualIncome - totalAnnualExpenses in
  let monthlyProfit := annualProfit / 12 in
  let roi :=
    if annualRentPaid >? 0 then (annualProfit / annualRentPaid) * 100
    else 0 in
  obj [("monthlyRentPaid", monthlyRentPaid);
       ("annualRentPaid", annualRentPaid); ("numberOfRooms", numberOfRooms);
       ("rentPerRoom", rentPerRoom); ("occupiedRooms", occupiedRooms);
       ("monthlyIncome", monthlyIncome); ("annualIncome", annualIncome);
       ("totalAnnualExpenses", totalAnnualExpenses);
       ("annualProfit", annualProfit); ("monthlyProfit", monthlyProfit);
       ("roi", roi)].

(** Rent to Serviced Accommodation calculator. *)
Definition calculateRentToServiced (data : gmap string value)
    : gmap string number :=
  let monthlyRentPaid := parseCurrency (get data "monthly_rent_paid") in
  let dailyRate := parseCurrency (get data "daily_rate") in
  let occupancyRate := or_num (parseFloat (get data "occupancy_rate")) 60 in
  let cleaningFee := parseCurrency (get data "cleaning_fee") in
  let managementFeePercent :=
    or_num (parseFloat (get data "management_fee")) 20 in
  let annualRentPaid := monthlyRentPaid * 12 in
  let daysPerYear := 365 in
  let occupiedDays := daysPerYear * (occupancyRate / 100) in
  let annualIncome := dailyRate * occupiedDays in
  let managementFee := annualIncome * (managementFeePercent / 100) in
  let totalCleaningFees := cleaningFee * occupiedDays in
  let councilTax := parseCurrency (get data "council_tax") in
  let utilities := parseCurrency (get data "utilities") in
  let insurance := parseCurrency (get data "insurance") in
  let totalAnnualExpenses :=
    annualRentPaid + managementFee + totalCleaningFees + councilTax
    + utilities + insurance in
  let annualProfit := annualIncome - totalAnnualExpenses in
  let monthlyProfit := annualProfit / 12 in
  let roi :=
    if annualRentPaid >? 0 then (annualProfit / annualRentPaid) * 100
    else 0 in
  obj [("monthlyRentPaid", monthlyRentPaid);
       ("annualRentPaid", annualRentPaid); ("dailyRate", dailyRate);
       ("occupancyRate", occupancyRate); ("occupiedDays", occupiedDays);
       ("annualIncome", annualIncome);
       ("totalAnnualExpenses", totalAnnualExpenses);
       ("annualProfit", annualProfit); ("monthlyProfit", monthlyProfit);
       ("roi", roi)].

(** Main calculator function: dispatch on [calculator_type]. *)
Definition calculateInvestment (data : gmap string value)
    : gmap string number :=
  let calculatorType :=
    or_val (get data "calculator_type") (VStr "standard-btl") in
  if is_str calculatorType "standard-btl" || is_str calculatorType "purchase"
  then calculateStandardBTL data
  else if is_str calculatorType "brr" then calculateBRR data
  else if is_str calculatorType "flip" then calculateFlip data
  else if is_str calculatorType "holiday-let" then calculateHolidayLet data
  else if is_str calculatorType "rent-to-hmo" then calculateRentToHMO data
  else if is_str calculatorType "rent-to-serviced"
       then calculateRentToServiced data
  else calculateStandardBTL data.

End Calc.

(** ** pdf-generator.js *)

Module Pdf.

Definition A4_WIDTH : number := 595.28.
Definition A4_HEIGHT : number := 841.89.
Definition INCH : number := 72.
Definition MARGIN : number := 0.75 * INCH.
Definition HEADER_TOP_OFFSET : number := 0.45 * INCH.

(** [value.toString()]: a method call, which throws on [undefined] and
    [null]. *)
Definition toString_method (v : value) : option string :=
  match v with
  | VUndefined | VNull => None
  | _ => Some (to_String v)
  end.

(** The generator's own [parseCurrency] helper; [None] stands for a thrown
    [TypeError]. *)
Definition parseCurrency (v : value) : option number :=
  if negb (truthy v) then Some 0
  else
    s ← toString_method v;
    Some (or_num (parseFloat_str (replace_currency s)) 0).

(** *** Energy-rating chart *)

Record band : Type := mkBand {
  grade : string;
  bmin : number;
  bmax : number;
  color : string;
  range : string
}.

Definition epcBands : list band :=
  [ mkBand "A" 92 100 "#008450" "92+";
    mkBand "B" 81 91 "#22c55e" "81-91";
    mkBand "C" 69 80 "#84cc16" "69-80";
    mkBand "D" 55 68 "#eab308" "55-68";
    mkBand "E" 39 54 "#f59e0b" "39-54";
    mkBand "F" 21 38 "#ef4444" "21-38";
    mkBand "G" 1 20 "#dc2626" "1-20" ].

Definition chartWidth : number := 4.6 * INCH.
Definition barHeight : number := 0.18 * INCH.
Definition barSpacing : number := 0.09 * INCH.
Definition colGap : number := 0.20 * INCH.
Definition letterPadding : number := 0.08 * INCH.
Definition maxSteps : number := Num.of_Z (Z.of_nat (List.length epcBands)).

Definition in_band (score : number) (b : band) : bool :=
  (score >=? bmin b) && (score <=? bmax b).

Section Chart.
(** The chart is drawn at [(x, y)]. *)
Variables x y : number.

Definition startX : number := x - (0.15 * INCH).
Definition startY : number := y.
Definition currentColX : number := startX + chartWidth + colGap.
Definition maxLetterX : number := currentColX - 0.32 * INCH.
Definition maxBarWidthForLetter : number :=
  Num.max 0 ((maxLetterX - startX) - letterPadding).

(** Top edge of the bar of the band at index [i] (from 0). *)
Definition bar_yPos (i : Z) : number :=
  startY + Num.of_Z i * (barHeight + barSpacing).

(** Width of the rectangle drawn for the band at index [i] (from 0). *)
Definition bar_width (i : Z) : number :=
  let proportion := Num.of_Z (i + 1) / maxSteps in
  let width := chartWidth * proportion in
  if width >? maxBarWidthForLetter then maxBarWidthForLetter else width.

(** [bandCenterY(score)]: the loop over the bands from index [i]. *)
Fixpoint bandCenterY_from (bands : list band) (i : Z) (score : number)
    : number :=
  match bands with
  | [] =>
      startY
      + Num.of_Z (Z.of_nat (List.length epcBands) - 1) * (barHeight + barSpacing)
      + barHeight / 2
  | b :: rest =>
      if in_band score b
      then startY + Num.of_Z i * (barHeight + barSpacing) + barHeight / 2
      else bandCenterY_from rest (i + 1)%Z score
  end.

Definition bandCenterY (score : number) : number :=
  bandCenterY_from epcBands 0%Z score.

End Chart.

(** [letterFor(score)]. *)
Fixpoint letterFor_from (bands : list band) (score : number) : string :=
  match bands with
  | [] => "G"
  | b :: rest => if in_band score b then grade b else letterFor_from rest score
  end.

Definition letterFor (score : number) : string :=
  letterFor_from epcBands score.

(** The scores shown by the two badges. *)
Definition currentScore (data : gmap string value) : number :=
  let s :=
    parseInt (or_val (or_val (get data "current_rating")
                        (get data "epc_rating")) (VStr "84")) in
  if Num.isNaN s then 84 else s.

Definition potentialScore (data : gmap string value) : number :=
  let s := parseInt (or_val (get data "potential_rating") (VStr "72")) in
  if Num.isNaN s then 72 else s.

(** The chart's position on the Other Key Information page. *)
Definition chartX : number := (A4_WIDTH - 5.8 * INCH) / 2.

(** *** The document: pages of drawing commands *)

(** Drawing commands issued to the rendering backend.  What a page
    template or a calculator section draws is one command; when its text
    runs below the bottom margin the backend starts a page and the rest of
    it lands there: [Overflow] is that rest, on each page so started. *)
Inductive op : Type :=
| Header
| Text (s : string) (ty : number)
| Image (path : option string) (ix iy w h : number) (fit : string)
| CalculatorSection (calculatorType : value) (sy : number)
| Template (name : string)
| Overflow.

Definition page : Type := list op.

(** The document being built: the finished pages and the current page. *)
Record doc : Type := mkDoc { finished : list page; current : page }.

(** A new document starts with one empty page. *)
Definition new_doc : doc := mkDoc [] [].

Definition addPage (d : doc) : doc :=
  mkDoc (finished d ++ [current d])%list [].

Definition draw (o : op) (d : doc) : doc :=
  mkDoc (finished d) (current d ++ [o])%list.

(** The pages of the document once it is ended. *)
Definition pages (d : doc) : list page := (finished d ++ [current d])%list.

Definition drawHeader (d : doc) : doc := draw Header d.

Definition estimatedLogoHeight : number := (1.4 * INCH) * 0.4.
Definition contentY : number :=
  HEADER_TOP_OFFSET + estimatedLogoHeight + 12 + 9 + 20.

(** [selected_calculators] is an array or any other value. *)
Inductive selection : Type :=
| SelArray (l : list value)
| SelScalar (v : value).

Record report_data : Type := mkData {
  fields : gmap string value;
  selected_calculators : selection
}.

Record images : Type := mkImages {
  cover : option (list string);
  property : option (list string);
  floor_plans : option (list string);
  directions : option (list string);
  city : option (list string)
}.

Definition sel_truthy (s : selection) : bool :=
  match s with
  | SelArray _ => true
  | SelScalar v => truthy v
  end.

(** [s.length === 0]. *)
Definition sel_length_zero (s : selection) : bool :=
  match s with
  | SelArray [] => true
  | SelScalar (VStr "") => true
  | _ => false
  end.

(** [s.split(',')]. *)
Fixpoint split_comma (s : string) : list string :=
  match s with
  | EmptyString => [EmptyString]
  | String a s' =>
      if Ascii.eqb a ","
      then EmptyString :: split_comma s'
      else match split_comma s' with
           | [] => [String a EmptyString]
           | w :: ws => String a w :: ws
           end
  end.

Fixpoint trim_end (s : string) : string :=
  match s with
  | EmptyString => EmptyString
  | String a s' =>
      if String.eqb (trim_start s) "" then EmptyString
      else String a (trim_end s')
  end.

(** [s.trim()]. *)
Definition trim (s : string) : string := trim_end (trim_start s).

(** The list of calculator types a report shows. *)
Definition selectedCalculators (data : report_data) : list value :=
  let calculator_type := get (fields data) "calculator_type" in
  let sel0 :=
    if sel_truthy (selected_calculators data) then selected_calculators data
    else if truthy calculator_type then SelArray [calculator_type]
         else SelArray [VStr "standard-btl"] in
  let sel1 :=
    if negb (sel_truthy sel0) || sel_length_zero sel0
    then SelArray [VStr "standard-btl"] else sel0 in
  let sel2 :=
    match sel1 with
    | SelScalar (VStr s) =>
        SelArray
          (VStr <$> List.filter (fun w => negb (String.eqb w ""))
                      (trim <$> split_comma s))
    | _ => sel1
    end in
  match sel2 with
  | SelArray l => l
  | SelScalar v => [v]
  end.

Section Templates.
(** [pagesStarted o]: the number of pages the backend starts while the
    text of the command [o] is laid out.  It depends on the texts of the
    request and on the metrics of the fonts. *)
Variable pagesStarted : op -> nat.

(** The rest of a command, carried over [n] started pages. *)
Fixpoint carry_over (n : nat) (d : doc) : doc :=
  match n with
  | O => d
  | S n => carry_over n (draw Overflow (addPage d))
  end.

(** Drawing a command whose text may run over the page. *)
Definition drawFlowing (o : op) (d : doc) : doc :=
  carry_over (pagesStarted o) (draw o d).

(** The [forEach] of [createInvestmentPage], from index [index]. *)
Fixpoint investment_sections (l : list value) (index : nat) (d : doc) : doc :=
  match l with
  | [] => d
  | calculatorType :: rest =>
      let d1 := if (0 <? index)%nat then addPage d else d in
      let d2 := drawHeader d1 in
      let d3 := drawFlowing (CalculatorSection calculatorType contentY) d2 in
      investment_sections rest (S index) d3
  end.

Definition createInvestmentPage (data : report_data) (d : doc) : doc :=
  investment_sections (selectedCalculators data) 0 d.

(** The page templates.  Each draws the header and then its content, most
    of it text placed by [doc.text] at a [currentY] that is never compared
    with the height of the page (the key features, the rows of the
    information tables, the broadband block, the text about the city; in a
    calculator section, the formatted amounts): the backend starts a page
    for a text that lies or runs below the bottom margin. *)
Definition createCoverPage (d : doc) : doc :=
  drawFlowing (Template "Cover") (drawHeader d).
Definition createKeyInformationPage (d : doc) : doc :=
  drawFlowing (Template "Key Information") (drawHeader d).
Definition createOtherKeyInformationPage (d : doc) : doc :=
  drawFlowing (Template "Other Key Information") (drawHeader d).
Definition createCityMapPage (d : doc) : doc :=
  drawFlowing (Template "City Map") (drawHeader d).

End Templates.

Definition galleryWidth : number := 5.4 * INCH.
Definition galleryHeight : number := 2.8 * INCH.
Definition gallerySpacing : number := 60.
Definition galleryX : number :=
  MARGIN + ((A4_WIDTH - (2 * MARGIN)) - galleryWidth) / 2.

Section Generate.
(** [doc.heightOfString('Property Images', ...)], measured by the backend,
    and the pages it starts for text that runs over. *)
Variable titleHeight : number.
Variable pagesStarted : op -> nat.

(** A floor-plan page: header, title and the plan (or its placeholder). *)
Definition floor_plan_page (path : option string) (d : doc) : doc :=
  let currentY := contentY in
  let d := drawHeader d in
  let d := draw (Text "Floor Plans" currentY) d in
  let currentY := currentY + 30 in
  draw (Image path MARGIN currentY (6.5 * INCH) (4.5 * INCH) "contain") d.

(** The loop over the floor plans: a page break after every plan whose path
    differs from the last element of the array. *)
Fixpoint floor_plans_loop (l : list string) (lastPath : option string)
    (d : doc) : doc :=
  match l with
  | [] => d
  | floorPlanPath :: rest =>
      let d := floor_plan_page (Some floorPlanPath) d in
      let d :=
        if bool_decide (Some floorPlanPath = lastPath) then d else addPage d in
      floor_plans_loop rest lastPath d
  end.

Definition floor_plans_section (imgs : images) (d : doc) : doc :=
  let floorPlans := default [] (floor_plans imgs) in
  if (0 <? List.length floorPlans)%nat
  then floor_plans_loop floorPlans (last floorPlans) d
  else floor_plan_page None d.

(** [images.property || images.cover || []]: an array is truthy even when
    empty. *)
Definition galleryImages (imgs : images) : list string :=
  match property imgs with
  | Some l => l
  | None => default [] (cover imgs)
  end.

(** Header and title of a gallery page; the new vertical position. *)
Definition gallery_page_head (d : doc) : doc * number :=
  let d := drawHeader d in
  let currentY := contentY in
  let d := draw (Text "Property Images" currentY) d in
  (d, currentY + (titleHeight + 28)).

Fixpoint gallery_loop (l : list string) (d : doc) (currentY : number) : doc :=
  match l with
  | [] => d
  | imgPath :: rest =>
      let '(d, currentY) :=
        if currentY + galleryHeight + gallerySpacing >? A4_HEIGHT - MARGIN
        then gallery_page_head (addPage d)
        else (d, currentY) in
      let d :=
        draw (Image (Some imgPath) galleryX currentY galleryWidth
                galleryHeight "cover") d in
      gallery_loop rest d (currentY + (galleryHeight + gallerySpacing))
  end.

Definition gallery_section (imgs : images) (d : doc) : doc :=
  let galleryImages := galleryImages imgs in
  if (0 <? List.length galleryImages)%nat
  then let '(d, currentY) := gallery_page_head d in
       gallery_loop galleryImages d currentY
  else d.

(** [generatePDF], for a valid output path: the page sequence.  The
    titles and images of the floor-plan and gallery pages are drawn at
    fixed positions inside the page and start none. *)
Definition generatePDF (data : report_data) (imgs : images) : doc :=
  let d := new_doc in
  let d := addPage (createCoverPage pagesStarted d) in
  let d := addPage (createInvestmentPage pagesStarted data d) in
  let d := addPage (createKeyInformationPage pagesStarted d) in
  let d := addPage (createOtherKeyInformationPage pagesStarted d) in
  let d := addPage (floor_plans_section imgs d) in
  let d := addPage (gallery_section imgs d) in
  createCityMapPage pagesStarted d.

End Generate.

End Pdf.

(** ** pdf-generator.js: helpers and page templates *)

Module Report.

(** *** Dates *)

(** What [formatDateWithOrdinal] reads from a valid [Date]: [getDate()],
    [getMonth()] and [getFullYear()], whole numbers. *)
Record js_date : Type := mkDate { getDate : Z; getMonth : Z; getFullYear : Z }.

Definition months : list string :=
  ["January"; "February"; "March"; "April"; "May"; "June"; "July"; "August";
   "September"; "October"; "November"; "December"].

(** [months[i]]: [undefined] outside the array. *)
Definition month_at (i : Z) : value :=
  if (i <? 0)%Z then VUndefined
  else match months !! Z.to_nat i with
       | Some m => VStr m
       | None => VUndefined
       end.

(** [formatDateWithOrdinal(date)]; [%] is the remainder with the sign of
    the dividend. *)
Definition formatDateWithOrdinal (date : js_date) : string :=
  let day := getDate date in
  let suffix :=
    if ((Z.rem day 10 =? 1) && negb (Z.rem day 100 =? 11))%Z then "st"
    else if ((Z.rem day 10 =? 2) && negb (Z.rem day 100 =? 12))%Z then "nd"
    else if ((Z.rem day 10 =? 3) && negb (Z.rem day 100 =? 13))%Z then "rd"
    else "th" in
  numberToString (Num.of_Z day) ++ suffix ++ " "
    ++ to_String (month_at (getMonth date)) ++ " "
    ++ numberToString (Num.of_Z (getFullYear date)).

(** *** Choosing the images of a page *)

Fixpoint string_rev (s acc : string) : string :=
  match s with
  | EmptyString => acc
  | String a s' => string_rev s' (String a acc)
  end.

Fixpoint drop_slashes (s : string) : string :=
  match s with
  | EmptyString => EmptyString
  | String a s' => if Ascii.eqb a "/" then drop_slashes s' else s
  end.

Fixpoint until_slash (s : string) : string :=
  match s with
  | EmptyString => EmptyString
  | String a s' => if Ascii.eqb a "/" then EmptyString
                   else String a (until_slash s')
  end.

(** [path.basename(p)] (POSIX): trailing slashes are ignored and the part
    after the last remaining slash is returned. *)
Definition basename (p : string) : string :=
  string_rev (until_slash (drop_slashes (string_rev p ""))) "".

Definition lower_ascii (a : ascii) : ascii :=
  let c := byte a in
  if ((65 <=? c) && (c <=? 90))%Z
  then Ascii.ascii_of_N (Z.to_N (c + 32)%Z) else a.

(** [s.toLowerCase()] on the letters A to Z; lower-casing another letter
    never makes one of the words searched for below appear. *)
Fixpoint toLowerCase (s : string) : string :=
  match s with
  | EmptyString => EmptyString
  | String a s' => String (lower_ascii a) (toLowerCase s')
  end.

(** [s.includes(w)]. *)
Fixpoint includes (w s : string) : bool :=
  match drop_prefix w s with
  | Some _ => true
  | None =>
      match s with
      | EmptyString => false
      | String _ s' => includes w s'
      end
  end.

(** The test of the image loops: a truthy path whose file name contains
    both words. *)
Definition is_exterior_front (imgPath : string) : bool :=
  negb (String.eqb imgPath "")
  && (let filename := toLowerCase (basename imgPath) in
      includes "exterior" filename && includes "front" filename).

(** The main image of a page: the first exterior-front image, else the
    first image, else [null]. *)
Definition mainImage (allImages : list string) : option string :=
  match List.find is_exterior_front allImages with
  | Some p => Some p
  | None => head allImages
  end.

(** [allImages.filter(img => img !== mainImagePath).slice(0, 3)]. *)
Definition thumbnails (allImages : list string) : list string :=
  take 3 (List.filter
            (fun img => negb (bool_decide (Some img = mainImage allImages)))
            allImages).

(** [thumbnails[i] || null]. *)
Definition thumbnail_slot (allImages : list string) (i : nat)
    : option string :=
  match thumbnails allImages !! i with
  | Some p => if String.eqb p "" then None else Some p
  | None => None
  end.

(** [[...(images.cover || []), ...(images.property || [])]]. *)
Definition candidateImages (imgs : Pdf.images) : list string :=
  (default [] (Pdf.cover imgs) ++ default [] (Pdf.property imgs))%list.

(** *** [addImageToPDF] *)

Inductive image_option : Type :=
| OptCover (w h : number)
| OptFit (w h : number)
| OptWidth (w : number)
| OptHeight (h : number).

(** Commands sent to the PDF document. *)
Inductive cmd : Type :=
| Save
| Restore
| Clip (x y w h : number)
| FillRect (x y w h : number) (fillColor : string)
| DrawImage (path : string) (x y : number) (options : image_option).

Section AddImage.
(** [fs.existsSync], and whether [doc.image] can decode a file (it throws
    when it cannot). *)
Variables existsSync decodes : string -> bool.

Definition addImageToPDF (imagePath : option string) (x y maxWidth
    maxHeight : number) (fit : string) : list cmd :=
  let placeholder := FillRect x y maxWidth maxHeight "#CCCCCC" in
  match imagePath with
  | None => [placeholder]
  | Some p =>
      if negb (existsSync p) || String.eqb p "" then [placeholder]
      else
        let options :=
          if String.eqb fit "cover" then OptCover maxWidth maxHeight
          else if String.eqb fit "contain" then OptFit maxWidth maxHeight
          else if String.eqb fit "width" then OptWidth maxWidth
          else if String.eqb fit "height" then OptHeight maxHeight
          else OptFit maxWidth maxHeight in
        if decodes p
        then [Save; Clip x y maxWidth maxHeight; DrawImage p x y options;
              Restore]
        else [Save; Clip x y maxWidth maxHeight; placeholder]
  end.

End AddImage.

(** *** [calculateCalculatorValues] *)

(** [r.k || d] for a field of a result object. *)
Definition res_or (r : gmap string number) (k : string) (d : number)
    : number :=
  match r !! k with
  | Some x => or_num x d
  | None => d
  end.

(** [r.k || e], where evaluating [e] may throw. *)
Definition res_or_else (r : gmap string number) (k : string)
    (e : option number) : option number :=
  match r !! k with
  | Some x => if truthy_num x then Some x else e
  | None => e
  end.

(** The hard-coded Standard-BTL calculation used when the calculator
    module is missing or throws. *)
Definition fallbackValues (calcData allData : gmap string value)
    : option (gmap string number) :=
  let field k := or_val (get calcData k) (get allData k) in
  purchasePrice ← Pdf.parseCurrency (field "purchase_price");
  let depositPercent := or_num (parseFloat (field "deposit_percent")) 20 in
  monthlyRent ← Pdf.parseCurrency (field "monthly_rent");
  let mortgageRate := or_num (parseFloat (field "mortgage_rate")) 5.8 in
  let depositAmount := purchasePrice * (depositPercent / 100) in
  let annualRent := monthlyRent * 12 in
  let rentalYield :=
    if purchasePrice >? 0 then (annualRent / purchasePrice) * 100 else 0 in
  stampDuty ← Pdf.parseCurrency (field "stamp_duty");
  surveyCost ← Pdf.parseCurrency (field "survey_cost");
  legalFees ← Pdf.parseCurrency (field "legal_fees");
  loanSetup ← Pdf.parseCurrency (field "loan_setup");
  let totalPurchaseCosts := stampDuty + surveyCost + legalFees + loanSetup in
  let totalInvestment := depositAmount + totalPurchaseCosts in
  let mortgageAmount := purchasePrice - depositAmount in
  let annualMortgageInterest := mortgageAmount * (mortgageRate / 100) in
  councilTax ← Pdf.parseCurrency (field "council_tax");
  repairs ← Pdf.parseCurrency (field "repairs_maintenance");
  utilities ← Pdf.parseCurrency (field "utilities");
  water ← Pdf.parseCurrency (field "water");
  broadband ← Pdf.parseCurrency (field "broadband_tv");
  insurance ← Pdf.parseCurrency (field "insurance");
  let totalAnnualExpenses :=
    annualMortgageInterest + councilTax + repairs + utilities + water
    + broadband + insurance in
  let annualProfit := annualRent - totalAnnualExpenses in
  let monthlyProfit := annualProfit / 12 in
  let roi :=
    if totalInvestment >? 0 then (annualProfit / totalInvestment) * 100
    else 0 in
  Some (obj
    [("purchasePrice", purchasePrice); ("depositAmount", depositAmount);
     ("mortgageAmount", mortgageAmount); ("totalInvestment", totalInvestment);
     ("annualRent", annualRent); ("monthlyRent", monthlyRent);
     ("rentalYield", rentalYield);
     ("totalAnnualExpenses", totalAnnualExpenses);
     ("annualProfit", annualProfit); ("monthlyProfit", monthlyProfit);
     ("roi", roi); ("depositPercent", depositPercent);
     ("mortgageRate", mortgageRate); ("stampDuty", stampDuty);
     ("surveyCost", surveyCost); ("legalFees", legalFees);
     ("loanSetup", loanSetup);
     ("annualMortgageInterest", annualMortgageInterest);
     ("councilTax", councilTax); ("repairs", repairs);
     ("utilities", utilities); ("water", water); ("broadband", broadband);
     ("insurance", insurance)]).

(** The path through the calculator module (the body of the [try]). *)
Definition calculatedValues
    (calculateInvestment : gmap string value -> gmap string number)
    (calculatorType : value) (calcData allData : gmap string value)
    : option (gmap string number) :=
  let field k := or_val (get calcData k) (get allData k) in
  let dataForCalc :=
    <["calculator_type" := calculatorType]> (calcData ∪ allData) in
  let calcResults := calculateInvestment dataForCalc in
  let purchasePrice := res_or calcResults "purchasePrice" 0 in
  let depositAmount := res_or calcResults "depositAmount" 0 in
  let mortgageAmount := res_or calcResults "mortgageAmount" 0 in
  let totalInvestment :=
    res_or calcResults "totalInvestment"
      (res_or calcResults "netInvestment" 0) in
  let annualRent :=
    res_or calcResults "annualRent" (res_or calcResults "annualIncome" 0) in
  let monthlyRent :=
    res_or calcResults "monthlyRent"
      (res_or calcResults "monthlyIncome" 0) in
  let rentalYield := res_or calcResults "rentalYield" 0 in
  let totalAnnualExpenses := res_or calcResults "totalAnnualExpenses" 0 in
  let annualProfit :=
    res_or calcResults "annualProfit" (res_or calcResults "netProfit" 0) in
  let monthlyProfit := res_or calcResults "monthlyProfit" 0 in
  let roi := res_or calcResults "roi" 0 in
  let depositPercent := or_num (parseFloat (field "deposit_percent")) 20 in
  let mortgageRate := or_num (parseFloat (field "mortgage_rate")) 5.8 in
  stampDuty ← res_or_else calcResults "stampDuty"
                 (Pdf.parseCurrency (field "stamp_duty"));
  surveyCost ← res_or_else calcResults "surveyCost"
                  (Pdf.parseCurrency (field "survey_cost"));
  legalFees ← res_or_else calcResults "legalFees"
                 (Pdf.parseCurrency (field "legal_fees"));
  loanSetup ← res_or_else calcResults "loanSetup"
                 (Pdf.parseCurrency (field "loan_setup"));
  let annualMortgageInterest :=
    res_or calcResults "annualMortgageInterest" 0 in
  councilTax ← res_or_else calcResults "councilTax"
                  (Pdf.parseCurrency (field "council_tax"));
  repairs ← res_or_else calcResults "repairs"
               (Pdf.parseCurrency (field "repairs_maintenance"));
  utilities ← res_or_else calcResults "utilities"
                 (Pdf.parseCurrency (field "utilities"));
  water ← res_or_else calcResults "water"
             (Pdf.parseCurrency (field "water"));
  broadband ← res_or_else calcResults "broadband"
                 (Pdf.parseCurrency (field "broadband_tv"));
  insurance ← res_or_else calcResults "insurance"
                 (Pdf.parseCurrency (field "insurance"));
  Some (obj
    [("purchasePrice", purchasePrice); ("depositAmount", depositAmount);
     ("mortgageAmount", mortgageAmount); ("totalInvestment", totalInvestment);
     ("annualRent", annualRent); ("monthlyRent", monthlyRent);
     ("rentalYield", rentalYield);
     ("totalAnnualExpenses", totalAnnualExpenses);
     ("annualProfit", annualProfit); ("monthlyProfit", monthlyProfit);
     ("roi", roi); ("depositPercent", depositPercent);
     ("mortgageRate", mortgageRate); ("stampDuty", stampDuty);
     ("surveyCost", surveyCost); ("legalFees", legalFees);
     ("loanSetup", loanSetup);
     ("annualMortgageInterest", annualMortgageInterest);
     ("councilTax", councilTax); ("repairs", repairs);
     ("utilities", utilities); ("water", water); ("broadband", broadband);
     ("insurance", insurance)]).

(** [calculateCalculatorValues]: the calculator module when it was loaded
    and does not throw, else the fallback; [None] stands for an exception
    leaving the function. *)
Definition calculateCalculatorValues
    (calculateInvestment :
       option (gmap string value -> gmap string number))
    (calculatorType : value) (calcData allData : gmap string value)
    : option (gmap string number) :=
  match calculateInvestment with
  | Some calc =>
      match calculatedValues calc calculatorType calcData allData with
      | Some values => Some values
      | None => fallbackValues calcData allData
      end
  | None => fallbackValues calcData allData
  end.

(** *** The promise returned by [generatePDF] *)

(** [s.split('\n')]. *)
Fixpoint split_lines (s : string) : list string :=
  match s with
  | EmptyString => [EmptyString]
  | String a s' =>
      if Ascii.eqb a (Ascii.ascii_of_N 10)
      then EmptyString :: split_lines s'
      else match split_lines s' with
           | [] => [String a EmptyString]
           | w :: ws => String a w :: ws
           end
  end.

(** The bullets of the Key Features list: [None] when
    [data.key_features.split] is not a function. *)
Definition keyFeatures (key_features : value) : option (list string) :=
  if truthy key_features then
    match key_features with
    | VStr s =>
        Some (Pdf.trim <$>
                List.filter (fun f => negb (String.eqb (Pdf.trim f) ""))
                  (split_lines s))
    | _ => None
    end
  else Some [].

Definition typeof (v : value) : string :=
  match v with
  | VUndefined => "undefined"
  | VNull => "object"
  | VBool _ => "boolean"
  | VNum _ => "number"
  | VStr _ => "string"
  end.

(** How the promise settles when the output file can be written:
    rejected by the validation of the path, rejected with an exception
    thrown while drawing, or resolved. *)
Inductive outcome : Type :=
| Rejected (message : string)
| Thrown
| Resolved (d : Pdf.doc).

Definition generatePDF (titleHeight : number) (pagesStarted : Pdf.op -> nat)
    (data : Pdf.report_data) (imgs : Pdf.images) (outputPath : value)
    : outcome :=
  if negb (truthy outputPath)
  then Rejected "Invalid output path provided: path is null or undefined"
  else
    match outputPath with
    | VStr s =>
        if String.eqb (Pdf.trim s) ""
        then Rejected "Invalid output path provided: path is empty"
        else
          match keyFeatures (get (Pdf.fields data) "key_features") with
          | Some _ =>
              Resolved (Pdf.generatePDF titleHeight pagesStarted data imgs)
          | None => Thrown
          end
    | _ =>
        Rejected ("Invalid output path provided: expected string, got "
                  ++ typeof outputPath)
    end.

End Report.

(** ** server.js *)

Module Server.

(** [[a-zA-Z0-9.+-]]. *)
Definition is_subtype_char (a : ascii) : bool :=
  let c := byte a in
  (((97 <=? c) && (c <=? 122)) || ((65 <=? c) && (c <=? 90))
   || ((48 <=? c) && (c <=? 57)) || (c =? 46) || (c =? 43) || (c =? 45))%Z.

Fixpoint take_while (f : ascii -> bool) (s : string) : string :=
  match s with
  | EmptyString => EmptyString
  | String a s' => if f a then String a (take_while f s') else EmptyString
  end.

Fixpoint drop_while (f : ascii -> bool) (s : string) : string :=
  match s with
  | EmptyString => EmptyString
  | String a s' => if f a then drop_while f s' else s
  end.

(** A line terminator, which [.] does not match: LF, CR, U+2028, U+2029. *)
Fixpoint has_line_terminator (s : string) : bool :=
  let '(a, b, c) := head3 s in
  ((a =? 10) || (a =? 13)
   || ((a =? 226) && (b =? 128) && ((c =? 168) || (c =? 169))))%Z
  || match s with
     | EmptyString => false
     | String _ s' => has_line_terminator s'
     end.

(** [base64.match(/^data:(image\/[a-zA-Z0-9.+-]+);base64,(.+)$/)]: the two
    groups. *)
Definition match_data_url (base64 : string) : option (string * string) :=
  match drop_prefix "data:image/" base64 with
  | None => None
  | Some rest =>
      let subtype := take_while is_subtype_char rest in
      if String.eqb subtype "" then None
      else
        match drop_prefix ";base64," (drop_while is_subtype_char rest) with
        | None => None
        | Some payload =>
            if String.eqb payload "" || has_line_terminator payload
            then None
            else Some ("image/" ++ subtype, payload)
        end
  end.

(** [s.split('/')]. *)
Fixpoint split_slash (s : string) : list string :=
  match s with
  | EmptyString => [EmptyString]
  | String a s' =>
      if Ascii.eqb a "/"
      then EmptyString :: split_slash s'
      else match split_slash s' with
           | [] => [String a EmptyString]
           | w :: ws => String a w :: ws
           end
  end.

(** The extension [writeBase64Image] gives the file. *)
Definition image_ext (base64 : string) : string :=
  match match_data_url base64 with
  | Some (mime, _) =>
      match split_slash mime !! 1%nat with
      | Some e => if String.eqb e "" then "png" else e
      | None => "png"
      end
  | None => "png"
  end.

(** An element of [images[section]]: a string or anything else. *)
Inductive entry : Type :=
| EStr (s : string)
| EOther.

Definition sections : list string :=
  ["cover"; "property"; "floor_plans"; "directions"; "city"].

Section Handler.
(** The path [writeBase64Image] writes its [n]-th file to, from the prefix
    and the extension: the temporary directory, the clock and the random
    suffix belong to the host. *)
Variable filePath : nat -> string -> string -> string.

Definition writeBase64Image (n : nat) (base64 prefix : string) : string :=
  filePath n prefix (image_ext base64).

(** The inner loop of the handler; [n] counts the files written so far. *)
Fixpoint write_section (section : string) (arr : list entry) (n : nat)
    : list string * nat :=
  match arr with
  | [] => ([], n)
  | EStr b64 :: rest =>
      match drop_prefix "http" b64 with
      | Some _ => write_section section rest n
      | None =>
          let fp := writeBase64Image n b64 section in
          let '(fps, n') := write_section section rest (S n) in
          (fp :: fps, n')
      end
  | EOther :: rest => write_section section rest n
  end.

(** [imagePaths]: [images] maps a section to its array, when it is one. *)
Definition imagePaths (images : gmap string (list entry)) : Pdf.images :=
  let arr section := default [] (images !! section) in
  let '(cover, n) := write_section "cover" (arr "cover") 0 in
  let '(property, n) := write_section "property" (arr "property") n in
  let '(floor_plans, n) :=
    write_section "floor_plans" (arr "floor_plans") n in
  let '(directions, n) := write_section "directions" (arr "directions") n in
  let '(city, n) := write_section "city" (arr "city") n in
  Pdf.mkImages (Some cover) (Some property) (Some floor_plans)
    (Some directions) (Some city).

End Handler.

(** [[a-z0-9 \-_]] without regard to case. *)
Definition is_name_char (a : ascii) : bool :=
  let c := byte a in
  (((97 <=? c) && (c <=? 122)) || ((65 <=? c) && (c <=? 90))
   || ((48 <=? c) && (c <=? 57)) || (c =? 32) || (c =? 45) || (c =? 95))%Z.

Fixpoint keep (f : ascii -> bool) (s : string) : string :=
  match s with
  | EmptyString => EmptyString
  | String a s' => if f a then String a (keep f s') else keep f s'
  end.

(** [(data.address || 'Property Report').replace(/[^a-z0-9 \-_]/gi, '')];
    [None] when [replace] is not a function. *)
Definition safeName (address : value) : option string :=
  match or_val address (VStr "Property Report") with
  | VStr s => Some (keep is_name_char s)
  | _ => None
  end.

(** The hosts [/proxy-image] fetches from. *)
Definition allowedDomains : list string :=
  ["source.unsplash.com"; "images.unsplash.com"; "unsplash.com";
   "images.pexels.com"; "pexels.com"; "api.pexels.com"].

(** [allowedDomains.some(domain => hostname.includes(domain))]. *)
Definition domain_allowed (hostname : string) : bool :=
  existsb (fun domain => Report.includes domain hostname) allowedDomains.

(** *** The image proxy (the [/proxy-image] handler) *)

(** What the handler reads from a response: the status code and the
    [location] header (empty when absent). *)
Record response : Type := mkResponse { statusCode : Z; location : string }.

(** How a request ends: a response, an [error] event, or [get] throwing
    (it does on a URL it cannot use). *)
Inductive reply : Type :=
| Response (r : response)
| RequestError
| RequestThrows.

Inductive unavailable : Type :=
| TooManyRedirects
| FetchFailed (status : Z)
| NetworkError.

(** The answer of the handler: a status with its error, the image fetched
    from a URL, or an exception thrown in a callback, which nothing
    catches. *)
Inductive proxied : Type :=
| BadRequest (error : string)
| Forbidden
| Unavailable (reason : unavailable)
| ServerError
| Piped (url : string)
| Uncaught.

Section Proxy.
(** [new URL(u).hostname], [None] when the constructor throws; and the
    reply to the [n]-th request (from 0) when it is for [url]. *)
Variable hostname : string -> option string.
Variable get : nat -> string -> reply.

(** [fetchImage(url, redirectCount)]: the answer and the URLs requested,
    in order.  Each call makes at most one request, so [redirectCount] is
    also the number of requests made before; [fuel] bounds the depth of
    the recursion. *)
Fixpoint fetchImage (fuel : nat) (url : string) (redirectCount : nat)
    : option (proxied * list string) :=
  match fuel with
  | O => None
  | S fuel =>
      if (5 <? redirectCount)%nat then Some (Unavailable TooManyRedirects, [])
      else
        match get redirectCount url with
        | RequestThrows =>
            Some (if (redirectCount =? 0)%nat then ServerError else Uncaught,
                  [url])
        | RequestError => Some (Unavailable NetworkError, [url])
        | Response r =>
            if ((300 <=? statusCode r) && (statusCode r <? 400))%Z
               && negb (String.eqb (location r) "")
            then
              match fetchImage fuel (location r) (S redirectCount) with
              | Some (answer, requested) => Some (answer, url :: requested)
              | None => None
              end
            else if negb (statusCode r =? 200)%Z
            then Some (Unavailable (FetchFailed (statusCode r)), [url])
            else Some (Piped url, [url])
        end
  end.

(** The handler, for the [url] parameter of the query (empty when
    absent). *)
Definition proxyImage (imageUrl : string)
    : option (proxied * list string) :=
  if String.eqb imageUrl "" then Some (BadRequest "Missing url parameter", [])
  else
    match hostname imageUrl with
    | None => Some (BadRequest "Invalid URL", [])
    | Some host =>
        if negb (domain_allowed host) then Some (Forbidden, [])
        else fetchImage 7 imageUrl 0
    end.

End Proxy.

End Server.

(** ** Inputs and tables used in the statements *)

(** The Standard-BTL example of the specification. *)
Definition btl_example : gmap string value :=
  list_to_map
    [("purchase_price", VStr "£200,000"); ("deposit_percent", VNum 25);
     ("monthly_rent", VStr "£1,200"); ("mortgage_rate", VNum 5);
     ("council_tax", VNum 150); ("repairs_maintenance", VNum 50);
     ("utilities", VNum 40); ("water", VNum 20); ("broadband_tv", VNum 30);
     ("insurance", VNum 25)].

(** A price that parses to [Infinity]. *)
Definition infinite_price : gmap string value :=
  {[ "purchase_price" := VStr "Infinity" ]}.

(** Every field of a result mapping is a finite number. *)
Definition all_finite (r : gmap string number) : Prop :=
  map_Forall (fun _ x => Num.isFinite x = true) r.

(** The documented defaults of the percentage-like fields, per calculator. *)
Definition btl_defaults : gmap string value :=
  list_to_map [("deposit_percent", VNum 20); ("mortgage_rate", VNum 5.8)].
Definition brr_defaults : gmap string value :=
  list_to_map [("deposit_percent", VNum 20); ("mortgage_rate", VNum 5.8);
               ("refinance_ltv", VNum 75)].
Definition flip_defaults : gmap string value :=
  list_to_map [("holding_period", VNum 6)].
Definition holiday_defaults : gmap string value :=
  list_to_map [("deposit_percent", VNum 20); ("mortgage_rate", VNum 5.8);
               ("occupancy_rate", VNum 50); ("management_fee", VNum 20)].
Definition hmo_defaults : gmap string value :=
  list_to_map [("number_of_rooms", VNum 1); ("occupancy_rate", VNum 80)].
Definition serviced_defaults : gmap string value :=
  list_to_map [("occupancy_rate", VNum 60); ("management_fee", VNum 20)].

(** The six calculators and the [calculator_type] that selects each. *)
Inductive variant : Type :=
| StandardBTL | BRR | Flip | HolidayLet | RentToHMO | RentToServiced.

Definition type_name (t : variant) : string :=
  match t with
  | StandardBTL => "standard-btl"
  | BRR => "brr"
  | Flip => "flip"
  | HolidayLet => "holiday-let"
  | RentToHMO => "rent-to-hmo"
  | RentToServiced => "rent-to-serviced"
  end.

Definition calculator (t : variant) : gmap string value -> gmap string number :=
  match t with
  | StandardBTL => Calc.calculateStandardBTL
  | BRR => Calc.calculateBRR
  | Flip => Calc.calculateFlip
  | HolidayLet => Calc.calculateHolidayLet
  | RentToHMO => Calc.calculateRentToHMO
  | RentToServiced => Calc.calculateRentToServiced
  end.

Definition defaults (t : variant) : gmap string value :=
  match t with
  | StandardBTL => btl_defaults
  | BRR => brr_defaults
  | Flip => flip_defaults
  | HolidayLet => holiday_defaults
  | RentToHMO => hmo_defaults
  | RentToServiced => serviced_defaults
  end.

(** The percentage a calculator is to work with: [parseFloat] of the
    supplied value when that is a number other than zero, the documented
    default of the field otherwise. *)
Definition percentage (t : variant) (data : gmap string value) (f : string)
    : number :=
  let x := parseFloat (get data f) in
  if Num.isNaN x || Num.is_zero x then parseFloat (get (defaults t) f)
  else x.

(** A field of a result mapping. *)
Definition result (r : gmap string number) (k : string) : number :=
  default Num.NaN (r !! k).

(** Where the percentages enter the results: the result fields computed
    from a percentage-like field, each with the value it is to have in
    terms of the percentages, of the amounts of the request and of the
    other fields returned. *)
Definition fields_from_percentages (t : variant) (data : gmap string value)
    : list (string * number) :=
  let percent := percentage t data in
  let amount k := Calc.parseCurrency (get data k) in
  let returned := result (calculator t data) in
  match t with
  | StandardBTL =>
      [("depositAmount",
        amount "purchase_price" * (percent "deposit_percent" / 100));
       ("totalAnnualExpenses",
        returned "mortgageAmount" * (percent "mortgage_rate" / 100)
        + amount "council_tax" + amount "repairs_maintenance"
        + amount "utilities" + amount "water" + amount "broadband_tv"
        + amount "insurance")]
  | BRR =>
      [("depositAmount",
        amount "purchase_price" * (percent "deposit_percent" / 100));
       ("refinanceAmount",
        amount "after_refurb_value" * (percent "refinance_ltv" / 100));
       ("totalAnnualExpenses",
        returned "refinanceAmount" * (percent "mortgage_rate" / 100)
        + amount "council_tax" + amount "repairs_maintenance"
        + amount "insurance")]
  | Flip =>
      [("holdingPeriod", percent "holding_period");
       ("monthlyROI",
        if percent "holding_period" >? 0
        then returned "roi" / percent "holding_period" else 0)]
  | HolidayLet =>
      [("depositAmount",
        amount "purchase_price" * (percent "deposit_percent" / 100));
       ("occupancyRate", percent "occupancy_rate");
       ("occupiedWeeks", 52 * (percent "occupancy_rate" / 100));
       ("totalAnnualExpenses",
        returned "mortgageAmount" * (percent "mortgage_rate" / 100)
        + returned "annualRent" * (percent "management_fee" / 100)
        + amount "cleaning_fee" * returned "occupiedWeeks"
        + amount "council_tax" + amount "utilities" + amount "insurance")]
  | RentToHMO =>
      [("numberOfRooms", percent "number_of_rooms");
       ("occupiedRooms",
        Num.floor (percent "number_of_rooms"
                   * (percent "occupancy_rate" / 100)))]
  | RentToServiced =>
      [("occupancyRate", percent "occupancy_rate");
       ("occupiedDays", 365 * (percent "occupancy_rate" / 100));
       ("totalAnnualExpenses",
        returned "annualRentPaid"
        + returned "annualIncome" * (percent "management_fee" / 100)
        + amount "cleaning_fee" * returned "occupiedDays"
        + amount "council_tax" + amount "utilities" + amount "insurance")]
  end.

(** Reading a list of fields, first entry first. *)
Fixpoint assoc (l : list (string * number)) (k : string) : option number :=
  match l with
  | [] => None
  | (k', x) :: l => if String.eqb k' k then Some x else assoc l k
  end.

(** A request whose percentages are all supplied and non-zero. *)
Definition holiday_request : gmap string value :=
  list_to_map [("purchase_price", VNum 200000); ("deposit_percent", VNum 25);
               ("mortgage_rate", VStr "4.5"); ("weekly_rent", VNum 900);
               ("occupancy_rate", VNum 70); ("management_fee", VNum 15);
               ("cleaning_fee", VNum 60)].

(** A zero deposit percentage, as a number and as a string. *)
Definition zero_deposit : gmap string value :=
  list_to_map [("purchase_price", VNum 100000); ("deposit_percent", VNum 0)].
Definition zero_deposit_str : gmap string value :=
  list_to_map [("purchase_price", VNum 100000);
               ("deposit_percent", VStr "0")].

(** The result field that is the denominator of [roi], and the field that
    is its numerator.  The Holiday Let calculator's [totalInvestment] is its
    [depositAmount]. *)
Definition basis_field (t : variant) : string :=
  match t with
  | StandardBTL | Flip => "totalInvestment"
  | HolidayLet => "depositAmount"
  | BRR => "netInvestment"
  | RentToHMO | RentToServiced => "annualRentPaid"
  end.

Definition profit_field (t : variant) : string :=
  match t with
  | Flip => "netProfit"
  | _ => "annualProfit"
  end.

(** Pages the statements refer to. *)

(** The pages a command takes when it is drawn after [head] on the current
    page: that page, and the pages started for the text that runs over,
    [pagesStarted o] of them. *)
Definition flowing_pages (pagesStarted : Pdf.op -> nat) (head : Pdf.page)
    (o : Pdf.op) : list Pdf.page :=
  (head ++ [o])%list :: replicate (pagesStarted o) [Pdf.Overflow].

Definition section_pages (pagesStarted : Pdf.op -> nat)
    (calculatorType : value) : list Pdf.page :=
  flowing_pages pagesStarted [Pdf.Header]
    (Pdf.CalculatorSection calculatorType Pdf.contentY).

Definition template_pages (pagesStarted : Pdf.op -> nat) (name : string)
    : list Pdf.page :=
  flowing_pages pagesStarted [Pdf.Header] (Pdf.Template name).

(** The pages of the selected calculators, each section on a fresh page; the
    page the section starts on stays empty when the list of types is
    empty. *)
Definition investment_pages (pagesStarted : Pdf.op -> nat) (l : list value)
    : list Pdf.page :=
  match l with
  | [] => [[]]
  | _ => l ≫= section_pages pagesStarted
  end.

(** The same pages when no text runs over. *)
Definition fits : Pdf.op -> nat := fun _ => 0%nat.

Definition section_page (calculatorType : value) : Pdf.page :=
  [Pdf.Header; Pdf.CalculatorSection calculatorType Pdf.contentY].

Definition cover_page : Pdf.page := [Pdf.Header; Pdf.Template "Cover"].
Definition key_page : Pdf.page := [Pdf.Header; Pdf.Template "Key Information"].
Definition other_page : Pdf.page :=
  [Pdf.Header; Pdf.Template "Other Key Information"].
Definition city_page : Pdf.page := [Pdf.Header; Pdf.Template "City Map"].
Definition placeholder_floor_page : Pdf.page :=
  [Pdf.Header; Pdf.Text "Floor Plans" Pdf.contentY;
   Pdf.Image None Pdf.MARGIN (Pdf.contentY + 30) (6.5 * Pdf.INCH)
     (4.5 * Pdf.INCH) "contain"].

(** A request with no images at all, and one whose gallery list is empty
    while its cover list is not. *)
Definition no_images : Pdf.images :=
  Pdf.mkImages (Some []) (Some []) (Some []) (Some []) (Some []).
Definition cover_only : Pdf.images :=
  Pdf.mkImages (Some ["cover.jpg"]) (Some []) (Some []) (Some []) (Some []).
Definition empty_report : Pdf.report_data :=
  Pdf.mkData ∅ (Pdf.SelScalar VUndefined).

(** Drawing and page breaks only add to the finished pages. *)
Definition extends (d d' : Pdf.doc) : Prop :=
  exists more, Pdf.finished d' = (Pdf.finished d ++ more)%list.

(** The whole number nearest to a Number (ties away from zero), as
    [toLocaleString] and [Math.round] give it for non-negative values. *)
Definition round_whole (x : number) : Z :=
  match x with
  | S754_finite _ m e => Num.nearest_int m e
  | _ => 0
  end.

Definition is_digit (a : ascii) : bool :=
  match digit_val a with Some _ => true | None => false end.

Fixpoint all_digits (s : string) : bool :=
  match s with
  | EmptyString => true
  | String a s' => is_digit a && all_digits s'
  end.

(** Classes of drawing commands, and the number of pages of a document
    that hold a command of class [c]. *)
Definition is_section (o : Pdf.op) : bool :=
  match o with Pdf.CalculatorSection _ _ => true | _ => false end.

Definition is_title (s : string) (o : Pdf.op) : bool :=
  match o with Pdf.Text t _ => String.eqb t s | _ => false end.

Definition count_pages (c : Pdf.op -> bool) (d : Pdf.doc) : nat :=
  List.length (List.filter (existsb c) (Pdf.pages d)).

Local Close Scope num_scope.

(** *** Notions used by the further properties *)

(** The English ordinal of a day of the month. *)
Definition ordinal_day (day : Z) : string :=
  match day with
  | 1 => "1st" | 21 => "21st" | 31 => "31st"
  | 2 => "2nd" | 22 => "22nd"
  | 3 => "3rd" | 23 => "23rd"
  | _ => numberToString (Num.of_Z day) ++ "th"
  end.

(** No image of the list is an exterior-front image. *)
Definition no_exterior_front (l : list string) : Prop :=
  Forall (fun q => Report.is_exterior_front q = false) l.

(** How often a command list saves and restores the graphics state. *)
Definition saves (l : list Report.cmd) : nat :=
  List.length
    (List.filter (fun c => match c with Report.Save => true | _ => false end)
       l).
Definition restores (l : list Report.cmd) : nat :=
  List.length
    (List.filter
       (fun c => match c with Report.Restore => true | _ => false end) l).

(** No field of a result mapping is NaN. *)
Definition never_NaN (r : gmap string number) : Prop :=
  map_Forall (fun _ x => Num.isNaN x = false) r.

(** Every field present in a mapping is truthy. *)
Definition all_truthy (data : gmap string value) : Prop :=
  map_Forall (fun _ v => truthy v = true) data.

(** A string that trims to the empty string. *)
Definition blank (w : string) : Prop := Pdf.trim w = "".

(** The image paths of the [Image] commands of a page, and of a whole
    document, in drawing order: the images of the floor-plan and gallery
    sections (a page template is a single command). *)
Definition page_images (p : Pdf.page) : list (option string) :=
  flat_map (fun o => match o with
                     | Pdf.Image path _ _ _ _ _ => [path]
                     | _ => []
                     end) p.

Definition images_drawn (d : Pdf.doc) : list (option string) :=
  flat_map page_images (Pdf.pages d).

(** The floor plans whose path differs from [z]. *)
Definition other_plans (l : list string) (z : string) : list string :=
  List.filter (fun p => negb (String.eqb p z)) l.

(** The bands that contain a score. *)
Definition bands_of (score : number) : list Pdf.band :=
  List.filter (Pdf.in_band score) Pdf.epcBands.

(** Position of a rating letter, A first. *)
Definition grade_rank (g : string) : nat :=
  match g with
  | "A" => 0 | "B" => 1 | "C" => 2 | "D" => 3 | "E" => 4 | "F" => 5
  | _ => 6
  end.

(** Every character of a string satisfies [f]. *)
Fixpoint all_chars (f : ascii -> bool) (s : string) : bool :=
  match s with
  | EmptyString => true
  | String a s' => f a && all_chars f s'
  end.

Definition not_slash (a : ascii) : bool := negb (Ascii.eqb a "/").

(** The entries of an image array the handler writes to files: the strings
    that do not start with [http]. *)
Definition usable (arr : list Server.entry) : list string :=
  omap (fun e => match e with
                 | Server.EStr s =>
                     match drop_prefix "http" s with
                     | Some _ => None
                     | None => Some s
                     end
                 | Server.EOther => None
                 end) arr.

(** The files written for the usable entries of an array, the first being
    the [n]-th file of the request. *)
Definition written (filePath : nat -> string -> string -> string) (n : nat)
    (section : string) (arr : list Server.entry) : list string :=
  imap (fun i b64 => filePath (n + i)%nat section (Server.image_ext b64))
    (usable arr).

Definition section_of (images : gmap string (list Server.entry))
    (section : string) : list Server.entry :=
  default [] (images !! section).

(** The input fields each calculator reads. *)
Definition fields_read (t : variant) : list string :=
  match t with
  | StandardBTL =>
      ["purchase_price"; "deposit_percent"; "monthly_rent"; "mortgage_rate";
       "stamp_duty"; "survey_cost"; "legal_fees"; "loan_setup";
       "council_tax"; "repairs_maintenance"; "utilities"; "water";
       "broadband_tv"; "insurance"]
  | BRR =>
      ["purchase_price"; "refurb_cost"; "after_refurb_value";
       "deposit_percent"; "mortgage_rate"; "refinance_ltv"; "monthly_rent";
       "council_tax"; "repairs_maintenance"; "insurance"]
  | Flip =>
      ["purchase_price"; "refurb_cost"; "sale_price"; "holding_period";
       "stamp_duty"; "survey_cost"; "legal_fees"; "legal_fees_sale";
       "estate_agent_fees"; "finance_cost"]
  | HolidayLet =>
      ["purchase_price"; "deposit_percent"; "mortgage_rate"; "weekly_rent";
       "occupancy_rate"; "management_fee"; "cleaning_fee"; "council_tax";
       "utilities"; "insurance"]
  | RentToHMO =>
      ["monthly_rent_paid"; "number_of_rooms"; "rent_per_room";
       "occupancy_rate"; "council_tax"; "utilities"; "insurance";
       "management_fee"]
  | RentToServiced =>
      ["monthly_rent_paid"; "daily_rate"; "occupancy_rate"; "cleaning_fee";
       "management_fee"; "council_tax"; "utilities"; "insurance"]
  end.

(** The result field that is the denominator of [rentalYield], for the
    calculators that return one. *)
Definition yield_basis (t : variant) : option string :=
  match t with
  | StandardBTL | HolidayLet => Some "purchasePrice"
  | BRR => Some "afterRefurbValue"
  | _ => None
  end.

(** A reply that the proxy follows to the URL [loc]. *)
Definition redirect_to (loc : string) (r : Server.reply) : Prop :=
  exists code, r = Server.Response (Server.mkResponse code loc)
               /\ 300 <= code < 400 /\ loc <> "".

(** A network that redirects the first request to a host outside the
    allowed domains. *)
Definition internal_host (u : string) : option string :=
  if String.eqb u "https://images.pexels.com/a.jpg"
  then Some "images.pexels.com" else Some "intranet.example".
Definition redirecting (n : nat) (u : string) : Server.reply :=
  match n with
  | O => Server.Response (Server.mkResponse 302 "https://intranet.example/x")
  | _ => Server.Response (Server.mkResponse 200 "")
  end.

(** Requests used as instances. *)
Definition comma_only : Pdf.report_data :=
  Pdf.mkData ∅ (Pdf.SelScalar (VStr ",")).
Definition repeated_plan : Pdf.images :=
  Pdf.mkImages None None (Some ["a.png"; "b.png"; "a.png"]) None None.
Definition numeric_features : Pdf.report_data :=
  Pdf.mkData {[ "key_features" := VNum 5%num ]} (Pdf.SelScalar VUndefined).

(** A request whose cover image is inline and whose only gallery image
    is remote. *)
Definition remote_gallery : gmap string (list Server.entry) :=
  {[ "cover" := [Server.EStr "data:image/png;base64,AAAA"];
     "property" := [Server.EStr "https://example.com/a.jpg"; Server.EOther] ]}.

Local Open Scope num_scope.

(** * Verification *)

(** ** Field mappings *)

Lemma get_union_l (data defs : gmap string value) (k : string) (v : value) :
  data !! k = Some v -> get (data ∪ defs) k = get data k.
Proof.
  intros H. unfold get.
  by rewrite (lookup_union_Some_l data defs k v H), H.
Qed.

Lemma get_union_r (data defs : gmap string value) (k : string) :
  data !! k = None -> get (data ∪ defs) k = get defs k.
Proof.
  intros H. unfold get. by rewrite (lookup_union_r data defs k H).
Qed.

(** A field the defaults do not mention is read from the data. *)
Lemma get_union_other (data defs : gmap string value) (k : string) :
  defs !! k = None -> get (data ∪ defs) k = get data k.
Proof.
  intros H. destruct (data !! k) as [v|] eqn:E.
  - by apply get_union_l with v.
  - rewrite get_union_r by done. unfold get. by rewrite H, E.
Qed.

Lemma parseFloat_undefined : parseFloat VUndefined = Num.NaN.
Proof. reflexivity. Qed.

(** An absent percentage field reads as its default. *)
Lemma percent_union_default (data defs : gmap string value) (k : string)
    (v : value) (d : number) :
  defs !! k = Some v ->
  or_num (parseFloat v) d = d ->
  or_num (parseFloat (get (data ∪ defs) k)) d
  = or_num (parseFloat (get data k)) d.
Proof.
  intros Hk Hv. destruct (data !! k) as [w|] eqn:E.
  - by rewrite (get_union_l data defs k w E).
  - rewrite get_union_r by done. unfold get. rewrite Hk, E. simpl.
    rewrite Hv. reflexivity.
Qed.

(** ** C1: the Standard-BTL example *)

(** C1, as stated, fails: with binary64 arithmetic the example's rental
    yield and ROI are not the doubles 7.2 and 13.17. *)
Lemma standardBTL_example_not_exact :
  ~ (let r := Calc.calculateStandardBTL btl_example in
     r !! "depositAmount" = Some 50000%num
     /\ r !! "mortgageAmount" = Some 150000%num
     /\ r !! "annualRent" = Some 14400%num
     /\ r !! "rentalYield" = Some 7.2%num
     /\ r !! "totalAnnualExpenses" = Some 7815%num
     /\ r !! "annualProfit" = Some 6585%num
     /\ r !! "roi" = Some 13.17%num).
Proof.
  intros (_ & _ & _ & Hy & _). vm_compute in Hy. discriminate Hy.
Qed.

(** C1 (amended): on the example input [calculateStandardBTL] returns
    depositAmount 50000, mortgageAmount 150000, annualRent 14400,
    totalAnnualExpenses 7815 (the mortgage interest being 7500),
    annualProfit 6585 exactly; rentalYield is 7.199999999999999, the double
    just below 7.2, and roi is 13.170000000000002, the double just above
    13.17. *)
Theorem standardBTL_example :
  let r := Calc.calculateStandardBTL btl_example in
  r !! "depositAmount" = Some 50000%num
  /\ r !! "mortgageAmount" = Some 150000%num
  /\ r !! "annualRent" = Some 14400%num
  /\ r !! "rentalYield" = Some 7.199999999999999%num
  /\ r !! "rentalYield" = Some (SFpred Num.prec Num.emax 7.2%num)
  /\ (150000 * (or_num (parseFloat (get btl_example "mortgage_rate")) 5.8
                / 100) = 7500)%num
  /\ r !! "totalAnnualExpenses" = Some 7815%num
  /\ r !! "annualProfit" = Some 6585%num
  /\ r !! "roi" = Some 13.170000000000002%num
  /\ r !! "roi" = Some (SFsucc Num.prec Num.emax 13.17%num).
Proof.
  cbv zeta. repeat split; vm_compute; reflexivity.
Qed.

(** ** C2: finiteness of the result fields *)

Lemma or_num_isNaN (x d : number) :
  Num.isNaN (or_num x d) = Num.isNaN d && negb (truthy_num x).
Proof. destruct x, d; reflexivity. Qed.

Lemma parseCurrency_not_NaN (v : value) :
  Num.isNaN (Calc.parseCurrency v) = false.
Proof.
  unfold Calc.parseCurrency. destruct (truthy v); simpl; [|reflexivity].
  rewrite or_num_isNaN. reflexivity.
Qed.

(** Rewrites every read of [data ∪ defs] into a read of [data]. *)
Ltac use_defaults :=
  repeat match goal with
  | |- context [or_num (parseFloat (get (?data ∪ ?defs) ?k)) ?d] =>
      rewrite (percent_union_default data defs k _ d
                 ltac:(vm_compute; reflexivity)
                 ltac:(vm_compute; reflexivity))
  | |- context [get (?data ∪ ?defs) ?k] =>
      rewrite (get_union_other data defs k ltac:(vm_compute; reflexivity))
  end.

Lemma calculator_defaults (t : variant) (data : gmap string value) :
  calculator t (data ∪ defaults t) = calculator t data.
Proof.
  destruct t; simpl.
  - cbv beta delta [Calc.calculateStandardBTL]. use_defaults. reflexivity.
  - cbv beta delta [Calc.calculateBRR]. use_defaults. reflexivity.
  - cbv beta delta [Calc.calculateFlip]. use_defaults. reflexivity.
  - cbv beta delta [Calc.calculateHolidayLet]. use_defaults. reflexivity.
  - cbv beta delta [Calc.calculateRentToHMO]. use_defaults. reflexivity.
  - cbv beta delta [Calc.calculateRentToServiced]. use_defaults. reflexivity.
Qed.

Lemma all_finite_list (r : gmap string number) :
  Forall (fun kx => Num.isFinite kx.2 = true) (map_to_list r) -> all_finite r.
Proof.
  intros H. apply map_Forall_to_list.
  eapply Forall_impl; [exact H|]. by intros [k x].
Qed.

Lemma calculator_empty_finite (t : variant) : all_finite (calculator t ∅).
Proof.
  apply all_finite_list. destruct t; vm_compute; repeat constructor.
Qed.

(** [calculateInvestment] reaches each calculator through its
    [calculator_type]. *)
Lemma calculateInvestment_dispatch (t : variant) (data : gmap string value) :
  data !! "calculator_type" = Some (VStr (type_name t)) ->
  Calc.calculateInvestment data = calculator t data.
Proof.
  intros H. unfold Calc.calculateInvestment, get. rewrite H.
  destruct t; reflexivity.
Qed.

(** [calculateInvestment] always runs one of the six calculators. *)
Lemma calculateInvestment_cases (data : gmap string value) :
  exists t, Calc.calculateInvestment data = calculator t data.
Proof.
  unfold Calc.calculateInvestment.
  repeat match goal with
  | |- context [if ?c then _ else _] => destruct c
  end;
  try (by exists StandardBTL); try (by exists BRR); try (by exists Flip);
  try (by exists HolidayLet); try (by exists RentToHMO);
  by exists RentToServiced.
Qed.

(** C2, as stated, fails: a price that parses to [Infinity] gives results
    with infinite and NaN fields. *)
Lemma infinite_price_not_finite :
  ~ (forall data, all_finite (Calc.calculateInvestment data)).
Proof.
  intros H.
  specialize (H infinite_price "mortgageAmount" Num.NaN).
  vm_compute in H. specialize (H eq_refl). discriminate H.
Qed.

(** C2 (amended): parsing never yields NaN: a currency field that fails
    to parse is 0 and a percentage field that fails to parse is its
    default; for every input mapping a calculator computes with the
    documented defaults where percentage fields are absent; and on the
    empty mapping every field returned by each of the six calculators,
    called directly or through [calculateInvestment], is finite. *)
Theorem results_finite_on_defaults :
  (forall v, Num.isNaN (Calc.parseCurrency v) = false)
  /\ (forall v d,
        Num.isNaN (or_num (parseFloat v) d)
        = Num.isNaN d && negb (truthy_num (parseFloat v)))
  /\ (forall t data, calculator t (data ∪ defaults t) = calculator t data)
  /\ (forall t,
        all_finite (calculator t ∅)
        /\ Calc.calculateInvestment {[ "calculator_type" := VStr (type_name t) ]}
           = calculator t (defaults t)
        /\ all_finite (calculator t (defaults t))).
Proof.
  split; [exact parseCurrency_not_NaN|].
  split; [intros v d; apply or_num_isNaN|].
  split; [exact calculator_defaults|].
  intros t. split; [apply calculator_empty_finite|].
  split.
  - rewrite (calculateInvestment_dispatch t) by apply lookup_singleton_eq.
    destruct t; apply (f_equal obj); vm_compute; reflexivity.
  - apply all_finite_list. destruct t; vm_compute; repeat constructor.
Qed.

(** ** C3: percentage-like fields *)

Lemma obj_cons_eq (k : string) (x : number) (l : list (string * number)) :
  obj ((k, x) :: l) !! k = Some x.
Proof. unfold obj. simpl. apply lookup_insert_eq. Qed.

Lemma obj_cons_ne (k k' : string) (x : number) (l : list (string * number)) :
  k <> k' -> obj ((k, x) :: l) !! k' = obj l !! k'.
Proof. intros H. unfold obj. simpl. by apply lookup_insert_ne. Qed.

(** Reads a field of an object literal. *)
Ltac obj_lookup :=
  repeat rewrite obj_cons_ne by discriminate; rewrite obj_cons_eq.

Lemma obj_assoc (l : list (string * number)) (k : string) :
  obj l !! k = assoc l k.
Proof.
  induction l as [|[k' x] l IH]; [done|].
  cbn [assoc]. destruct (String.eqb_spec k' k) as [->|H].
  - apply obj_cons_eq.
  - by rewrite obj_cons_ne.
Qed.

Lemma get_insert (data : gmap string value) (f k : string) (v : value) :
  get (<[f := v]> data) k = if String.eqb f k then v else get data k.
Proof.
  unfold get. destruct (String.eqb_spec f k) as [->|H].
  - by rewrite lookup_insert_eq.
  - by rewrite lookup_insert_ne.
Qed.

Lemma get_delete (data : gmap string value) (f k : string) :
  get (delete f data) k = if String.eqb f k then VUndefined else get data k.
Proof.
  unfold get. destruct (String.eqb_spec f k) as [->|H].
  - by rewrite lookup_delete_eq.
  - by rewrite lookup_delete_ne.
Qed.

Lemma or_num_falsy (x d : number) : truthy_num x = false -> or_num x d = d.
Proof. unfold or_num. by intros ->. Qed.

Lemma or_num_cases (x d : number) :
  or_num x d = if Num.isNaN x || Num.is_zero x then d else x.
Proof. destruct x; reflexivity. Qed.

(** Rewrites every read of [<[f:=v]> data] and of [delete f data]. *)
Ltac read_fields :=
  repeat match goal with
  | |- context [get (<[?f := ?v]> ?data) ?k] =>
      rewrite (get_insert data f k v)
  | |- context [get (delete ?f ?data) ?k] =>
      rewrite (get_delete data f k)
  end;
  cbn [String.eqb Ascii.eqb Bool.eqb].

Lemma defaults_fields (t : variant) (f : string) :
  is_Some (defaults t !! f) ->
  f ∈ match t with
      | StandardBTL => ["deposit_percent"; "mortgage_rate"]
      | BRR => ["deposit_percent"; "mortgage_rate"; "refinance_ltv"]
      | Flip => ["holding_period"]
      | HolidayLet => ["deposit_percent"; "mortgage_rate"; "occupancy_rate";
                       "management_fee"]
      | RentToHMO => ["number_of_rooms"; "occupancy_rate"]
      | RentToServiced => ["occupancy_rate"; "management_fee"]
      end.
Proof.
  intros [v Hv].
  destruct t; apply elem_of_list_to_map_2 in Hv;
    repeat (apply elem_of_cons in Hv as [[= -> _]|Hv];
            [by repeat constructor|]);
    by apply elem_of_nil in Hv.
Qed.

(** C3, as stated, fails: a deposit percentage of 0 is not used as 0. *)
Lemma zero_percent_not_used :
  ~ (forall data,
       Calc.calculateStandardBTL data !! "depositAmount"
       = Some (Calc.parseCurrency (get data "purchase_price")
               * ((let p := parseFloat (get data "deposit_percent") in
                   if Num.isNaN p then 20 else p) / 100))%num).
Proof.
  intros H. specialize (H zero_deposit). vm_compute in H. discriminate H.
Qed.

(** Supplied as the number 0 or as the string "0", the deposit percentage
    is replaced by the default 20. *)
Lemma zero_deposit_values :
  Calc.calculateStandardBTL zero_deposit !! "depositAmount" = Some 20000%num
  /\ Calc.calculateStandardBTL zero_deposit_str !! "depositAmount"
     = Some 20000%num.
Proof. split; vm_compute; reflexivity. Qed.

Lemma default_percentages :
  parseFloat (get btl_defaults "deposit_percent") = 20%num
  /\ parseFloat (get btl_defaults "mortgage_rate") = 5.8%num
  /\ parseFloat (get brr_defaults "deposit_percent") = 20%num
  /\ parseFloat (get brr_defaults "mortgage_rate") = 5.8%num
  /\ parseFloat (get brr_defaults "refinance_ltv") = 75%num
  /\ parseFloat (get flip_defaults "holding_period") = 6%num
  /\ parseFloat (get holiday_defaults "deposit_percent") = 20%num
  /\ parseFloat (get holiday_defaults "mortgage_rate") = 5.8%num
  /\ parseFloat (get holiday_defaults "occupancy_rate") = 50%num
  /\ parseFloat (get holiday_defaults "management_fee") = 20%num
  /\ parseFloat (get hmo_defaults "number_of_rooms") = 1%num
  /\ parseFloat (get hmo_defaults "occupancy_rate") = 80%num
  /\ parseFloat (get serviced_defaults "occupancy_rate") = 60%num
  /\ parseFloat (get serviced_defaults "management_fee") = 20%num.
Proof. repeat split; vm_compute; reflexivity. Qed.

(** Every calculator computes the fields that depend on a percentage from
    [parseFloat] of the supplied value when that is a non-zero number, and
    from the documented default otherwise. *)
Lemma percentages_enter_results (t : variant) (data : gmap string value) :
  Forall (fun kx => calculator t data !! kx.1 = Some kx.2)
    (fields_from_percentages t data).
Proof.
  destruct default_percentages
    as (E1 & E2 & E3 & E4 & E5 & E6 & E7 & E8 & E9 & E10 & E11 & E12 & E13
        & E14).
  destruct t; unfold fields_from_percentages, percentage, result;
    cbn [calculator defaults]; cbv zeta;
    rewrite ?E1, ?E2, ?E3, ?E4, ?E5, ?E6, ?E7, ?E8, ?E9, ?E10, ?E11, ?E12,
      ?E13, ?E14;
    repeat first [apply Forall_nil_2 | apply Forall_cons; split];
    cbn [fst snd];
    match goal with
    | |- ?c data !! _ = _ => cbv beta delta [c]
    end;
    cbv zeta; rewrite !obj_assoc;
    cbn [assoc String.eqb Ascii.eqb Bool.eqb default];
    rewrite ?or_num_cases; reflexivity.
Qed.

(** Percentages supplied as non-zero numbers are used as supplied: a
    deposit of 25% of 200000, an occupancy of 70%. *)
Lemma supplied_percentages_used :
  Calc.calculateHolidayLet holiday_request !! "depositAmount"
  = Some 50000%num
  /\ Calc.calculateHolidayLet holiday_request !! "occupancyRate"
     = Some 70%num.
Proof. split; vm_compute; reflexivity. Qed.

(** C3 (amended): a percentage-like field is used as [parseFloat] gives it
    when that is a non-zero number; when the field is absent, non-numeric
    or parses to zero the documented default is substituted.  For every
    request, each result field that depends on a percentage is computed
    from the percentage so chosen.  A supplied value that parses to 0 or NaN
    therefore gives the same result as an absent field. *)
Theorem falsy_percent_is_default (t : variant) (f : string)
    (data : gmap string value) (v : value) :
  is_Some (defaults t !! f) ->
  truthy_num (parseFloat v) = false ->
  calculator t (<[f := v]> data) = calculator t (delete f data)
  /\ calculator t (delete f data ∪ defaults t) = calculator t (<[f := v]> data)
  /\ (forall w d,
        or_num (parseFloat w) d
        = if Num.isNaN (parseFloat w) || Num.is_zero (parseFloat w)
          then d else parseFloat w)
  /\ (forall request : gmap string value,
        Forall (fun kx => calculator t request !! kx.1 = Some kx.2)
          (fields_from_percentages t request))
  /\ (forall request : gmap string value,
        truthy_num (parseFloat (get request f)) = true ->
        percentage t request f = parseFloat (get request f)).
Proof.
  intros Hf Hv.
  assert (E : calculator t (<[f := v]> data) = calculator t (delete f data)).
  { apply defaults_fields in Hf.
    destruct t; simpl calculator;
      repeat (apply elem_of_cons in Hf as [->|Hf]);
      try (by apply elem_of_nil in Hf);
      match goal with
      | |- ?c _ = _ => cbv beta delta [c]
      end;
      read_fields; rewrite parseFloat_undefined, (or_num_falsy _ _ Hv);
      reflexivity. }
  split; [exact E|]. split; [|split; [|split]].
  - rewrite calculator_defaults. symmetry. exact E.
  - intros w d. apply or_num_cases.
  - intros request. apply percentages_enter_results.
  - intros request H. unfold percentage. cbv zeta.
    destruct (parseFloat (get request f)) as [[|]|[|]| |[|] m e];
      first [discriminate H|reflexivity].
Qed.

Lemma falsy_percent_is_default_witness :
  calculator StandardBTL
    (<["deposit_percent" := VStr "0"]> {[ "purchase_price" := VNum 100000 ]})
  = calculator StandardBTL
      (delete "deposit_percent" {[ "purchase_price" := VNum 100000 ]}).
Proof.
  assert (Hf : is_Some (defaults StandardBTL !! "deposit_percent")).
  { vm_compute. eauto. }
  assert (Hv : truthy_num (parseFloat (VStr "0")) = false).
  { vm_compute. reflexivity. }
  exact (proj1 (falsy_percent_is_default StandardBTL "deposit_percent"
                  {[ "purchase_price" := VNum 100000 ]} (VStr "0") Hf Hv)).
Defined.

(** ** C4: the guard on the ROI denominator *)

Lemma leb_0_not_gtb (b : number) :
  Num.leb b 0 = true -> Num.gtb b 0 = false.
Proof. destruct b as [[|]|[|]| |[|] m e]; cbv; congruence. Qed.

Lemma guard_by_sign (b X : number) :
  (if b >? 0 then X else 0)%num
  = (if b <=? 0 then 0 else if b >? 0 then X else 0)%num.
Proof.
  destruct (Num.leb b 0) eqn:E; [|reflexivity].
  by rewrite (leb_0_not_gtb b E).
Qed.

(** C4: for every input mapping and every calculator, [roi] is 0 when its
    denominator basis is less than or equal to 0, and is
    (profit / basis) * 100 when the basis is positive. *)
Theorem roi_guarded (t : variant) (data : gmap string value) :
  exists basis profit,
    calculator t data !! basis_field t = Some basis
    /\ calculator t data !! profit_field t = Some profit
    /\ calculator t data !! "roi"
       = Some (if basis <=? 0 then 0
               else if basis >? 0 then (profit / basis) * 100 else 0)%num.
Proof.
  destruct t; simpl calculator; simpl basis_field; simpl profit_field;
    match goal with
    | |- exists _ _, ?c _ !! _ = _ /\ _ => unfold c
    end;
    cbv zeta; eexists; eexists;
    (split; [obj_lookup; reflexivity|]);
    (split; [obj_lookup; reflexivity|]);
    obj_lookup; f_equal; apply guard_by_sign.
Qed.

(** ** C5: the score-to-band lookup *)

(** The band at index [i] serves a score: letter and centre agree on it. *)
Ltac band_case i :=
  exists i; eexists;
  split; [reflexivity|];
  split; [reflexivity|];
  split; [reflexivity|];
  first
    [ left; assumption
    | right; split; [reflexivity|];
      cbn [forallb];
      repeat match goal with
      | H : Pdf.in_band _ _ = false |- _ => rewrite H; clear H
      end;
      reflexivity ].

Lemma band_of_score (y score : number) :
  exists (i : nat) (b : Pdf.band),
    Pdf.epcBands !! i = Some b
    /\ Pdf.letterFor score = Pdf.grade b
    /\ Pdf.bandCenterY y score
       = (Pdf.bar_yPos y (Z.of_nat i) + Pdf.barHeight / 2)%num
    /\ (Pdf.in_band score b = true
        \/ (i = 6%nat
            /\ forallb (fun b' => negb (Pdf.in_band score b')) Pdf.epcBands
               = true)).
Proof.
  unfold Pdf.letterFor, Pdf.bandCenterY, Pdf.epcBands.
  cbn [Pdf.letterFor_from Pdf.bandCenterY_from].
  repeat match goal with
  | |- context [if Pdf.in_band score ?b then _ else _] =>
      destruct (Pdf.in_band score b) eqn:?
  end;
  first [ band_case 0%nat | band_case 1%nat | band_case 2%nat
        | band_case 3%nat | band_case 4%nat | band_case 5%nat
        | band_case 6%nat ].
Qed.

Lemma currentScore_default (data : gmap string value) :
  Num.isNaN (parseInt (get data "current_rating")) = true ->
  Num.isNaN (parseInt (get data "epc_rating")) = true ->
  Pdf.currentScore data = 84%num.
Proof.
  intros Hc He. unfold Pdf.currentScore, or_val.
  destruct (truthy (get data "current_rating")) eqn:Tc.
  - rewrite Tc. by rewrite Hc.
  - destruct (truthy (get data "epc_rating")) eqn:Te.
    + by rewrite He.
    + reflexivity.
Qed.

Lemma currentScore_non_numeric (data : gmap string value) :
  truthy (get data "current_rating") = true ->
  Num.isNaN (parseInt (get data "current_rating")) = true ->
  Pdf.currentScore data = 84%num.
Proof.
  intros Tc Hc. unfold Pdf.currentScore, or_val. rewrite Tc, Tc.
  by rewrite Hc.
Qed.

Lemma potentialScore_default (data : gmap string value) :
  Num.isNaN (parseInt (get data "potential_rating")) = true ->
  Pdf.potentialScore data = 72%num.
Proof.
  intros Hp. unfold Pdf.potentialScore, or_val.
  destruct (truthy (get data "potential_rating")).
  - by rewrite Hp.
  - reflexivity.
Qed.

(** C5: scores 84, 20, 101 and 0 map to B, G, G and G; every score maps to
    the letter of the band that contains it, or to G when none does, and its
    badge is centred on the bar of that same band; the current score is 84
    and the potential score 72 when their fields are absent or
    non-numeric. *)
Theorem epc_band_lookup (y : number) :
  Pdf.letterFor 84 = "B"
  /\ Pdf.letterFor 20 = "G"
  /\ Pdf.letterFor 101 = "G"
  /\ Pdf.letterFor 0 = "G"
  /\ (forall score,
        exists (i : nat) (b : Pdf.band),
          Pdf.epcBands !! i = Some b
          /\ Pdf.letterFor score = Pdf.grade b
          /\ Pdf.bandCenterY y score
             = (Pdf.bar_yPos y (Z.of_nat i) + Pdf.barHeight / 2)%num
          /\ (Pdf.in_band score b = true
              \/ (i = 6%nat
                  /\ forallb (fun b' => negb (Pdf.in_band score b'))
                       Pdf.epcBands = true)))
  /\ (forall data,
        Num.isNaN (parseInt (get data "current_rating")) = true ->
        Num.isNaN (parseInt (get data "epc_rating")) = true ->
        Pdf.currentScore data = 84%num)
  /\ (forall data,
        truthy (get data "current_rating") = true ->
        Num.isNaN (parseInt (get data "current_rating")) = true ->
        Pdf.currentScore data = 84%num)
  /\ (forall data,
        Num.isNaN (parseInt (get data "potential_rating")) = true ->
        Pdf.potentialScore data = 72%num)
  /\ Pdf.currentScore ∅ = 84%num
  /\ Pdf.potentialScore ∅ = 72%num.
Proof.
  do 4 (split; [vm_compute; reflexivity|]).
  split; [intros score; apply band_of_score|].
  split; [apply currentScore_default|].
  split; [apply currentScore_non_numeric|].
  split; [apply potentialScore_default|].
  split; vm_compute; reflexivity.
Qed.

Lemma epc_band_lookup_witness :
  Pdf.currentScore {[ "current_rating" := VStr "n/a" ]} = 84%num.
Proof.
  destruct (epc_band_lookup 0%num) as (_ & _ & _ & _ & _ & _ & H & _).
  apply H; vm_compute; reflexivity.
Defined.

(** ** C6: widths of the bars *)

(** C6, as stated, fails: the bar of grade G is narrower than the chart. *)
Lemma bar_G_not_full_width :
  ~ (forall i, (1 <= i <= 7)%Z ->
       Pdf.bar_width Pdf.chartX (i - 1)
       = (Pdf.chartWidth * (Num.of_Z i / 7))%num).
Proof.
  intros H. specialize (H 7%Z ltac:(lia)). vm_compute in H. discriminate H.
Qed.

(** C6 (amended): on the Other Key Information page the bars of grades A
    to F (ranks 1 to 6) are drawn chartWidth * i/7 wide; the bar of grade G
    is clamped to leave room for its letter and is 316.79999999999995
    points wide, less than the chart width of 331.2. *)
Theorem epc_bar_widths :
  Forall (fun i => Pdf.bar_width Pdf.chartX (i - 1)
                   = (Pdf.chartWidth * (Num.of_Z i / 7))%num)
    [1; 2; 3; 4; 5; 6]%Z
  /\ Pdf.bar_width Pdf.chartX 6 = Pdf.maxBarWidthForLetter Pdf.chartX
  /\ Pdf.maxBarWidthForLetter Pdf.chartX = 316.79999999999995%num
  /\ Pdf.chartWidth = 331.2%num
  /\ Num.ltb (Pdf.maxBarWidthForLetter Pdf.chartX) Pdf.chartWidth = true.
Proof.
  split; [repeat constructor; vm_compute; reflexivity|].
  repeat split; vm_compute; reflexivity.
Qed.

(** ** C9: the two [parseCurrency] functions *)

(** C9: the calculator module's [parseCurrency] and the PDF generator's
    helper return the same number on every value (the helper's method call
    never throws); both give 0 on a falsy value and on a value whose cleaned
    text is not numeric. *)
Theorem parseCurrency_agree (v : value) :
  Pdf.parseCurrency v = Some (Calc.parseCurrency v)
  /\ (truthy v = false -> Calc.parseCurrency v = 0%num)
  /\ (Num.isNaN (parseFloat_str (replace_currency (to_String v))) = true ->
      Calc.parseCurrency v = 0%num).
Proof.
  unfold Pdf.parseCurrency, Calc.parseCurrency.
  split; [|split].
  - destruct v as [| |b|x|s]; try reflexivity;
      destruct (truthy _); reflexivity.
  - by intros ->.
  - intros H. destruct (truthy v); simpl; [|reflexivity].
    apply or_num_falsy. unfold truthy_num.
    by destruct (parseFloat_str _).
Qed.

Lemma parseCurrency_agree_witness :
  Calc.parseCurrency (VStr "n/a") = 0%num.
Proof.
  apply (proj2 (proj2 (parseCurrency_agree (VStr "n/a")))).
  vm_compute. reflexivity.
Defined.

(** ** C10: the source of the gallery images *)

(** C10: the gallery draws from [images.property] and uses [images.cover]
    only when [property] is absent; with [property] present and empty the
    gallery section draws nothing, whatever the cover list holds. *)
Theorem empty_property_hides_cover (titleHeight : number)
    (imgs : Pdf.images) (d : Pdf.doc) :
  Pdf.property imgs = Some [] ->
  Pdf.galleryImages imgs = []
  /\ Pdf.gallery_section titleHeight imgs d = d
  /\ (forall imgs' l, Pdf.property imgs' = Some l ->
        Pdf.galleryImages imgs' = l)
  /\ (forall imgs', Pdf.property imgs' = None ->
        Pdf.galleryImages imgs' = default [] (Pdf.cover imgs')).
Proof.
  intros H. unfold Pdf.gallery_section, Pdf.galleryImages. rewrite H.
  repeat split.
  - intros imgs' l ->. reflexivity.
  - intros imgs' ->. reflexivity.
Qed.

Lemma empty_property_hides_cover_witness :
  Pdf.galleryImages cover_only = []
  /\ Pdf.gallery_section 30%num cover_only Pdf.new_doc = Pdf.new_doc.
Proof.
  destruct (empty_property_hides_cover 30%num cover_only Pdf.new_doc eq_refl)
    as (H1 & H2 & _).
  exact (conj H1 H2).
Defined.

Local Close Scope num_scope.

(** ** C7: the page sequence *)

Lemma addPage_pages (d : Pdf.doc) : Pdf.addPage d = Pdf.mkDoc (Pdf.pages d) [].
Proof. reflexivity. Qed.

Section Flowing.
Variable pagesStarted : Pdf.op -> nat.

Lemma carry_over_pages (n : nat) :
  forall d : Pdf.doc,
    Pdf.pages (Pdf.carry_over n d)
    = (Pdf.pages d ++ replicate n [Pdf.Overflow])%list.
Proof.
  induction n as [|n IH]; intros d.
  - cbn. by rewrite app_nil_r.
  - cbn [Pdf.carry_over replicate]. rewrite IH.
    unfold Pdf.draw, Pdf.addPage, Pdf.pages. cbn [Pdf.finished Pdf.current].
    by rewrite <- !app_assoc.
Qed.

Lemma drawFlowing_pages (o : Pdf.op) (d : Pdf.doc) :
  Pdf.pages (Pdf.drawFlowing pagesStarted o d)
  = (Pdf.finished d ++ flowing_pages pagesStarted (Pdf.current d) o)%list.
Proof.
  unfold Pdf.drawFlowing. rewrite carry_over_pages.
  unfold Pdf.draw, Pdf.pages, flowing_pages. cbn [Pdf.finished Pdf.current].
  by rewrite <- app_assoc.
Qed.

Lemma template_after_addPage (name : string) (d : Pdf.doc) :
  Pdf.pages
    (Pdf.drawFlowing pagesStarted (Pdf.Template name)
       (Pdf.drawHeader (Pdf.addPage d)))
  = (Pdf.pages d ++ template_pages pagesStarted name)%list.
Proof. by rewrite drawFlowing_pages. Qed.

Lemma investment_sections_later (l : list value) :
  forall (index : nat) (d : Pdf.doc),
    (0 < index)%nat ->
    Pdf.pages (Pdf.investment_sections pagesStarted l index d)
    = (Pdf.pages d ++ (l ≫= section_pages pagesStarted))%list.
Proof.
  induction l as [|t l IH]; intros index d Hi.
  - cbn. by rewrite app_nil_r.
  - cbn [Pdf.investment_sections].
    destruct (Nat.ltb_spec 0 index) as [_|]; [|lia].
    rewrite IH by lia. rewrite drawFlowing_pages, bind_cons.
    destruct d as [fs cur]. unfold Pdf.pages. cbn. by rewrite <- !app_assoc.
Qed.

Lemma createInvestmentPage_pages (data : Pdf.report_data) (d : Pdf.doc) :
  Pdf.pages (Pdf.createInvestmentPage pagesStarted data (Pdf.addPage d))
  = (Pdf.pages d
       ++ investment_pages pagesStarted (Pdf.selectedCalculators data))%list.
Proof.
  unfold Pdf.createInvestmentPage.
  destruct (Pdf.selectedCalculators data) as [|t l]; [reflexivity|].
  cbn [Pdf.investment_sections Nat.ltb Nat.leb].
  rewrite investment_sections_later by lia.
  rewrite drawFlowing_pages.
  unfold investment_pages. rewrite bind_cons.
  by rewrite <- app_assoc.
Qed.

Lemma section_pages_length (t : value) :
  (1 <= List.length (section_pages pagesStarted t))%nat.
Proof. cbn. lia. Qed.

Lemma investment_pages_length (l : list value) :
  (Nat.max 1 (List.length l)
   <= List.length (investment_pages pagesStarted l))%nat.
Proof.
  destruct l as [|t l]; [cbn; lia|].
  unfold investment_pages.
  assert (H : forall l' : list value,
             (List.length l'
              <= List.length (l' ≫= section_pages pagesStarted))%nat).
  { induction l' as [|t' l' IH]; [cbn; lia|].
    rewrite bind_cons, List.length_app.
    pose proof (section_pages_length t'). cbn [List.length]. lia. }
  specialize (H (t :: l)). cbn [List.length] in *. lia.
Qed.

(** The pages before the floor plans, for every input. *)
Lemma pages_before_floor_plans (data : Pdf.report_data) :
  Pdf.addPage
    (Pdf.createOtherKeyInformationPage pagesStarted
       (Pdf.addPage
          (Pdf.createKeyInformationPage pagesStarted
             (Pdf.addPage
                (Pdf.createInvestmentPage pagesStarted data
                   (Pdf.addPage
                      (Pdf.createCoverPage pagesStarted Pdf.new_doc)))))))
  = Pdf.mkDoc
      (template_pages pagesStarted "Cover"
         ++ investment_pages pagesStarted (Pdf.selectedCalculators data)
         ++ template_pages pagesStarted "Key Information"
         ++ template_pages pagesStarted "Other Key Information")%list [].
Proof.
  rewrite (addPage_pages (Pdf.createOtherKeyInformationPage _ _)).
  unfold Pdf.createOtherKeyInformationPage, Pdf.createKeyInformationPage.
  rewrite !template_after_addPage, createInvestmentPage_pages.
  unfold Pdf.createCoverPage. rewrite drawFlowing_pages.
  cbn [Pdf.new_doc Pdf.drawHeader Pdf.draw Pdf.finished Pdf.current app].
  by rewrite <- !app_assoc.
Qed.

End Flowing.

Lemma extends_refl (d : Pdf.doc) : extends d d.
Proof. exists []. by rewrite app_nil_r. Qed.

Lemma extends_trans (d1 d2 d3 : Pdf.doc) :
  extends d1 d2 -> extends d2 d3 -> extends d1 d3.
Proof.
  intros [m1 H1] [m2 H2]. exists (m1 ++ m2)%list.
  by rewrite H2, H1, app_assoc.
Qed.

Lemma extends_draw (o : Pdf.op) (d : Pdf.doc) : extends d (Pdf.draw o d).
Proof. exists []. cbn. by rewrite app_nil_r. Qed.

Lemma extends_addPage (d : Pdf.doc) : extends d (Pdf.addPage d).
Proof. by exists [Pdf.current d]. Qed.

Lemma extends_floor_plan_page (p : option string) (d : Pdf.doc) :
  extends d (Pdf.floor_plan_page p d).
Proof. exists []. cbn. by rewrite app_nil_r. Qed.

Lemma extends_floor_plans_loop (l : list string) (lastPath : option string) :
  forall d, extends d (Pdf.floor_plans_loop l lastPath d).
Proof.
  induction l as [|p l IH]; intros d; [apply extends_refl|].
  cbn [Pdf.floor_plans_loop].
  eapply extends_trans; [|apply IH].
  destruct (bool_decide _).
  - apply extends_floor_plan_page.
  - eapply extends_trans;
      [apply extends_floor_plan_page|apply extends_addPage].
Qed.

Lemma extends_floor_plans_section (imgs : Pdf.images) (d : Pdf.doc) :
  extends d (Pdf.floor_plans_section imgs d).
Proof.
  unfold Pdf.floor_plans_section. destruct (_ <? _)%nat.
  - apply extends_floor_plans_loop.
  - apply extends_floor_plan_page.
Qed.

Lemma extends_gallery_page_head (th : number) (d : Pdf.doc) :
  extends d (Pdf.gallery_page_head th d).1.
Proof. exists []. cbn. by rewrite app_nil_r. Qed.

Lemma extends_gallery_loop (th : number) (l : list string) :
  forall d currentY, extends d (Pdf.gallery_loop th l d currentY).
Proof.
  induction l as [|p l IH]; intros d currentY; [apply extends_refl|].
  cbn [Pdf.gallery_loop].
  destruct (_ >? _)%num.
  - destruct (Pdf.gallery_page_head th (Pdf.addPage d)) as [d1 y1] eqn:E.
    eapply extends_trans; [|apply IH].
    eapply extends_trans; [apply extends_addPage|].
    eapply extends_trans; [|apply extends_draw].
    change d1 with (d1, y1).1. rewrite <- E. apply extends_gallery_page_head.
  - eapply extends_trans; [|apply IH]. apply extends_draw.
Qed.

Lemma extends_gallery_section (th : number) (imgs : Pdf.images)
    (d : Pdf.doc) :
  extends d (Pdf.gallery_section th imgs d).
Proof.
  unfold Pdf.gallery_section. destruct (_ <? _)%nat; [|apply extends_refl].
  destruct (Pdf.gallery_page_head th d) as [d1 y1] eqn:E.
  eapply extends_trans; [|apply extends_gallery_loop].
  change d1 with (d1, y1).1. rewrite <- E. apply extends_gallery_page_head.
Qed.

(** For every input the document starts with the pages of the cover, the
    pages of the selected calculators, and the pages of the two information
    templates. *)
Lemma generatePDF_investment_pages (th : number) (ps : Pdf.op -> nat)
    (data : Pdf.report_data) (imgs : Pdf.images) :
  exists rest,
    Pdf.pages (Pdf.generatePDF th ps data imgs)
    = (template_pages ps "Cover"
         ++ investment_pages ps (Pdf.selectedCalculators data)
         ++ template_pages ps "Key Information"
         ++ template_pages ps "Other Key Information" ++ rest)%list.
Proof.
  unfold Pdf.generatePDF. cbv zeta. rewrite pages_before_floor_plans.
  set (d0 := Pdf.mkDoc _ []).
  set (d1 := Pdf.gallery_section th imgs
               (Pdf.addPage (Pdf.floor_plans_section imgs d0))).
  assert (E : extends d0 (Pdf.addPage d1)).
  { eapply extends_trans; [apply extends_floor_plans_section|].
    eapply extends_trans; [apply extends_addPage|].
    eapply extends_trans; [apply extends_gallery_section|].
    apply extends_addPage. }
  destruct E as [more E]. exists (more ++ template_pages ps "City Map")%list.
  unfold Pdf.createCityMapPage. rewrite template_after_addPage.
  change (Pdf.pages d1) with (Pdf.finished (Pdf.addPage d1)). rewrite E.
  subst d0. cbn [Pdf.finished]. by rewrite <- !app_assoc.
Qed.

Section Counting.
Variable c : Pdf.op -> bool.

Lemma count_addPage (d : Pdf.doc) :
  count_pages c (Pdf.addPage d) = count_pages c d.
Proof.
  unfold count_pages, Pdf.addPage, Pdf.pages. cbn [Pdf.finished Pdf.current].
  rewrite (List.filter_app _ (_ ++ _)%list). cbn.
  by rewrite List.app_nil_r.
Qed.

Lemma count_draw_other (o : Pdf.op) (d : Pdf.doc) :
  c o = false -> count_pages c (Pdf.draw o d) = count_pages c d.
Proof.
  intros H. unfold count_pages, Pdf.draw, Pdf.pages.
  cbn [Pdf.finished Pdf.current].
  rewrite !List.filter_app, !List.length_app. f_equal.
  cbn [List.filter]. rewrite List.existsb_app. cbn [existsb].
  rewrite H, !orb_false_r. by destruct (existsb c (Pdf.current d)).
Qed.

Lemma count_draw_first (o : Pdf.op) (d : Pdf.doc) :
  c o = true -> existsb c (Pdf.current d) = false ->
  count_pages c (Pdf.draw o d) = S (count_pages c d).
Proof.
  intros H H0. unfold count_pages, Pdf.draw, Pdf.pages.
  cbn [Pdf.finished Pdf.current].
  rewrite !List.filter_app, !List.length_app.
  cbn [List.filter]. rewrite List.existsb_app, H0. cbn [existsb].
  rewrite H. cbn. lia.
Qed.

Hypothesis c_Header : c Pdf.Header = false.
Hypothesis c_Image : forall p ix iy w h fit, c (Pdf.Image p ix iy w h fit) = false.
Hypothesis c_Template : forall n, c (Pdf.Template n) = false.
Hypothesis c_Overflow : c Pdf.Overflow = false.
Variable pagesStarted : Pdf.op -> nat.

Lemma count_carry_over (n : nat) :
  forall d, count_pages c (Pdf.carry_over n d) = count_pages c d.
Proof.
  induction n as [|n IH]; intros d; [reflexivity|].
  cbn [Pdf.carry_over].
  by rewrite IH, count_draw_other, count_addPage.
Qed.

Lemma count_template (n : string) (d : Pdf.doc) :
  count_pages c
    (Pdf.drawFlowing pagesStarted (Pdf.Template n) (Pdf.drawHeader d))
  = count_pages c d.
Proof.
  unfold Pdf.drawFlowing, Pdf.drawHeader.
  by rewrite count_carry_over, !count_draw_other.
Qed.

Lemma count_investment_sections (l : list value) :
  forall index d,
    (forall t y, c (Pdf.CalculatorSection t y) = false) ->
    count_pages c (Pdf.investment_sections pagesStarted l index d)
    = count_pages c d.
Proof.
  induction l as [|t l IH]; intros index d H; [reflexivity|].
  cbn [Pdf.investment_sections]. rewrite IH by exact H.
  unfold Pdf.drawFlowing, Pdf.drawHeader.
  rewrite count_carry_over, !count_draw_other by auto.
  destruct (_ <? _)%nat; [apply count_addPage|reflexivity].
Qed.

Lemma count_floor_plan_page (p : option string) (d : Pdf.doc) :
  (forall y, c (Pdf.Text "Floor Plans" y) = false) ->
  count_pages c (Pdf.floor_plan_page p d) = count_pages c d.
Proof.
  intros H. unfold Pdf.floor_plan_page, Pdf.drawHeader.
  by rewrite !count_draw_other.
Qed.

Lemma count_floor_plans_section (imgs : Pdf.images) (d : Pdf.doc) :
  (forall y, c (Pdf.Text "Floor Plans" y) = false) ->
  count_pages c (Pdf.floor_plans_section imgs d) = count_pages c d.
Proof.
  intros H. unfold Pdf.floor_plans_section.
  destruct (_ <? _)%nat; [|by apply count_floor_plan_page].
  generalize (last (default [] (Pdf.floor_plans imgs))) as lastPath.
  intros lastPath. revert d.
  induction (default [] (Pdf.floor_plans imgs)) as [|p l IH]; intros d;
    [reflexivity|].
  cbn [Pdf.floor_plans_loop]. rewrite IH.
  destruct (bool_decide _); rewrite ?count_addPage;
    by apply count_floor_plan_page.
Qed.

Lemma count_gallery_section (th : number) (imgs : Pdf.images) (d : Pdf.doc) :
  (forall y, c (Pdf.Text "Property Images" y) = false) ->
  count_pages c (Pdf.gallery_section th imgs d) = count_pages c d.
Proof.
  intros H. unfold Pdf.gallery_section.
  destruct (_ <? _)%nat; [|reflexivity].
  assert (Hh : forall d0, count_pages c (Pdf.gallery_page_head th d0).1
                          = count_pages c d0).
  { intros d0. unfold Pdf.gallery_page_head, Pdf.drawHeader. cbn [fst].
    by rewrite !count_draw_other. }
  destruct (Pdf.gallery_page_head th d) as [d1 y1] eqn:E.
  assert (E1 : count_pages c d1 = count_pages c d).
  { change d1 with (d1, y1).1. rewrite <- E. apply Hh. }
  rewrite <- E1. clear E E1. revert d1 y1.
  induction (Pdf.galleryImages imgs) as [|p l IH]; intros d1 y1;
    [reflexivity|].
  cbn [Pdf.gallery_loop].
  destruct (_ >? _)%num.
  - destruct (Pdf.gallery_page_head th (Pdf.addPage d1)) as [d2 y2] eqn:E.
    rewrite IH, count_draw_other by auto.
    change d2 with (d2, y2).1. rewrite <- E, Hh. apply count_addPage.
  - rewrite IH. by apply count_draw_other.
Qed.

End Counting.

Lemma count_sections (ps : Pdf.op -> nat) (l : list value) :
  forall index d,
    (index = 0%nat -> existsb is_section (Pdf.current d) = false) ->
    count_pages is_section (Pdf.investment_sections ps l index d)
    = (count_pages is_section d + List.length l)%nat.
Proof.
  induction l as [|t l IH]; intros index d H; [cbn; lia|].
  cbn [Pdf.investment_sections List.length]. rewrite IH by done.
  unfold Pdf.drawFlowing. rewrite count_carry_over by reflexivity.
  rewrite count_draw_first; [|reflexivity|].
  - unfold Pdf.drawHeader. rewrite count_draw_other by reflexivity.
    destruct (_ <? _)%nat; rewrite ?count_addPage; lia.
  - unfold Pdf.drawHeader, Pdf.draw. cbn [Pdf.current].
    rewrite List.existsb_app. cbn [existsb is_section]. rewrite orb_false_r.
    destruct index as [|i]; [by apply H|reflexivity].
Qed.

(** The three sections, counted by the pages on which their content is
    drawn: for every input there is one such page per selected calculator
    type; without floor plans there is one floor-plan page; without gallery
    images no page carries the gallery title. *)
Lemma pages_with_content (th : number) (ps : Pdf.op -> nat)
    (data : Pdf.report_data) (imgs : Pdf.images) :
  count_pages is_section (Pdf.generatePDF th ps data imgs)
  = List.length (Pdf.selectedCalculators data)
  /\ (default [] (Pdf.floor_plans imgs) = [] ->
      count_pages (is_title "Floor Plans") (Pdf.generatePDF th ps data imgs)
      = 1%nat)
  /\ (Pdf.galleryImages imgs = [] ->
      count_pages (is_title "Property Images")
        (Pdf.generatePDF th ps data imgs) = 0%nat).
Proof.
  unfold Pdf.generatePDF, Pdf.createCityMapPage,
    Pdf.createOtherKeyInformationPage, Pdf.createKeyInformationPage,
    Pdf.createCoverPage, Pdf.createInvestmentPage.
  cbv zeta. split; [|split].
  - rewrite count_template, count_addPage, count_gallery_section,
      count_addPage, count_floor_plans_section, count_addPage,
      count_template, count_addPage, count_template, count_addPage,
      count_sections, count_addPage, count_template by done.
    reflexivity.
  - intros Hf.
    rewrite count_template, count_addPage, count_gallery_section,
      count_addPage by done.
    unfold Pdf.floor_plans_section. rewrite Hf. cbn [List.length Nat.ltb Nat.leb].
    unfold Pdf.floor_plan_page.
    rewrite count_draw_other, count_draw_first by done.
    unfold Pdf.drawHeader.
    rewrite count_draw_other, count_addPage, count_template, count_addPage,
      count_template, count_addPage, count_investment_sections,
      count_addPage, count_template by done.
    reflexivity.
  - intros Hg.
    rewrite count_template, count_addPage by done.
    unfold Pdf.gallery_section. rewrite Hg. cbn [List.length Nat.ltb Nat.leb].
    rewrite count_addPage, count_floor_plans_section, count_addPage,
      count_template, count_addPage, count_template, count_addPage,
      count_investment_sections, count_addPage, count_template by done.
    reflexivity.
Qed.

Lemma selected_array (data : Pdf.report_data) (t : value) (l : list value) :
  Pdf.selected_calculators data = Pdf.SelArray (t :: l) ->
  Pdf.selectedCalculators data = t :: l.
Proof. unfold Pdf.selectedCalculators. by intros ->. Qed.

(** C7: with no floor plans and no gallery images, and whatever pages the
    backend starts for text that runs over, the document is the pages of the
    cover, the pages of the selected calculator types (each section on a
    fresh page; one empty page when no type is selected), the pages of the
    two information templates, exactly one placeholder floor-plan page, then
    an empty page, then the pages of the city map: no gallery content is
    drawn, but the page reserved for the gallery is still emitted, blank.
    For the empty request, where no text runs over, these are seven pages,
    the sixth of them blank. *)
Theorem blank_page_for_empty_gallery (th : number) (ps : Pdf.op -> nat)
    (data : Pdf.report_data) (imgs : Pdf.images) :
  default [] (Pdf.floor_plans imgs) = [] ->
  Pdf.galleryImages imgs = [] ->
  Pdf.pages (Pdf.generatePDF th ps data imgs)
  = (template_pages ps "Cover"
       ++ investment_pages ps (Pdf.selectedCalculators data)
       ++ template_pages ps "Key Information"
       ++ template_pages ps "Other Key Information"
       ++ [placeholder_floor_page; []]
       ++ template_pages ps "City Map")%list.
Proof.
  intros Hf Hg. unfold Pdf.generatePDF. cbv zeta.
  rewrite pages_before_floor_plans.
  unfold Pdf.createCityMapPage. rewrite template_after_addPage.
  unfold Pdf.floor_plans_section, Pdf.gallery_section. rewrite Hf, Hg.
  cbn [List.length Nat.ltb Nat.leb].
  unfold Pdf.floor_plan_page, Pdf.drawHeader, Pdf.draw, Pdf.addPage,
    Pdf.pages.
  cbn [Pdf.finished Pdf.current app]. by rewrite <- !app_assoc.
Qed.

Lemma blank_page_for_empty_gallery_witness :
  Pdf.pages (Pdf.generatePDF 30%num fits empty_report no_images)
  = [cover_page; section_page (VStr "standard-btl"); key_page; other_page;
     placeholder_floor_page; []; city_page].
Proof.
  exact (blank_page_for_empty_gallery 30%num fits empty_report no_images
           eq_refl eq_refl).
Defined.

(** ** C8: formatting then parsing a currency amount *)

(** *** Rounding an integer never yields NaN *)

Lemma shr_1_nonneg (mrs : shr_record) :
  0 <= shr_m mrs -> 0 <= shr_m (shr_1 mrs).
Proof.
  destruct mrs as [m r s]. cbn [shr_m].
  destruct m as [|[p|p|]|p]; cbn; lia.
Qed.

Lemma iter_shr_1_nonneg (n : positive) :
  forall mrs, 0 <= shr_m mrs -> 0 <= shr_m (iter_pos shr_1 n mrs).
Proof.
  induction n as [n IH|n IH|]; intros mrs H; cbn [iter_pos].
  - apply IH, IH, shr_1_nonneg, H.
  - apply IH, IH, H.
  - apply shr_1_nonneg, H.
Qed.

Lemma shr_fexp_nonneg (m e : Z) (l : location) :
  0 <= m -> 0 <= shr_m (shr_fexp Num.prec Num.emax m e l).1.
Proof.
  intros H. unfold shr_fexp, shr.
  assert (H0 : 0 <= shr_m (shr_record_of_loc m l)).
  { by destruct l as [|[| |]]. }
  destruct (_ - e) as [|p|p]; cbn [fst]; try exact H0.
  by apply iter_shr_1_nonneg.
Qed.

Lemma round_nearest_even_nonneg (m : Z) (l : location) :
  0 <= m -> 0 <= round_nearest_even m l.
Proof.
  intros H. destruct l as [|[| |]]; cbn; try lia.
  destruct (Z.even m); lia.
Qed.

Lemma binary_round_aux_not_NaN (sx : bool) (mx ex : Z) (lx : location) :
  0 <= mx ->
  Num.isNaN (binary_round_aux Num.prec Num.emax sx mx ex lx) = false.
Proof.
  intros H. unfold binary_round_aux.
  pose proof (shr_fexp_nonneg mx ex lx H) as H1.
  destruct (shr_fexp Num.prec Num.emax mx ex lx) as [mrs' e'].
  cbn [fst] in H1.
  pose proof (shr_fexp_nonneg _ e' loc_Exact
                (round_nearest_even_nonneg _ (loc_of_shr_record mrs') H1))
    as H2.
  destruct (shr_fexp Num.prec Num.emax _ e' loc_Exact) as [mrs'' e''].
  cbn [fst] in H2.
  destruct (shr_m mrs'') as [|p|p]; [reflexivity| |lia].
  by destruct (_ <=? _).
Qed.

Lemma binary_round_zero_sign (sx : bool) (mx ex : Z) (lx : location) :
  Num.is_zero (binary_round_aux Num.prec Num.emax sx mx ex lx) = true ->
  binary_round_aux Num.prec Num.emax sx mx ex lx = S754_zero sx.
Proof.
  unfold binary_round_aux.
  destruct (shr_fexp Num.prec Num.emax mx ex lx) as [mrs' e'].
  destruct (shr_fexp Num.prec Num.emax _ e' loc_Exact) as [mrs'' e''].
  destruct (shr_m mrs'') as [|p|p]; try done.
  by destruct (_ <=? _).
Qed.

(** The Number value of a non-negative integer survives [|| 0]. *)
Lemma or_num_of_Z (n : Z) : 0 <= n -> or_num (Num.of_Z n) 0%num = Num.of_Z n.
Proof.
  intros H. unfold Num.of_Z, binary_normalize.
  destruct n as [|p|p]; [reflexivity| |lia].
  unfold binary_round.
  destruct (shl_align _ _ _) as [mz ez].
  pose proof (binary_round_aux_not_NaN false (Zpos mz) ez loc_Exact
                ltac:(lia)) as HN.
  pose proof (binary_round_zero_sign false (Zpos mz) ez loc_Exact) as HZ.
  unfold or_num, truthy_num. rewrite HN.
  destruct (Num.is_zero _) eqn:E; cbn; [|reflexivity].
  by rewrite HZ.
Qed.

Lemma of_decimal_of_Z (n : Z) : 0 <= n -> Num.of_decimal false n 0 = Num.of_Z n.
Proof.
  intros H. destruct n as [|p|p]; [reflexivity| |lia].
  unfold Num.of_decimal, Num.of_Z, binary_normalize.
  cbn [Z.leb Z.compare Z.pow]. by rewrite Z.mul_1_r.
Qed.

(** *** Strings of decimal digits *)

Lemma digit_char_val (d : Z) :
  0 <= d <= 9 -> digit_val (digit_char d) = Some d.
Proof.
  intros H.
  assert (E : d = 0 \/ d = 1 \/ d = 2 \/ d = 3 \/ d = 4 \/ d = 5 \/ d = 6
              \/ d = 7 \/ d = 8 \/ d = 9) by lia.
  repeat (destruct E as [->|E]; [reflexivity|]). by subst.
Qed.

Lemma digit_char_is_digit (n : Z) : is_digit (digit_char (n mod 10)) = true.
Proof.
  unfold is_digit. rewrite digit_char_val; [reflexivity|].
  pose proof (Z.mod_pos_bound n 10 ltac:(lia)). lia.
Qed.

(** What the parsers see at a digit. *)
Lemma at_digit (a : ascii) (s : string) :
  is_digit a = true ->
  currency_class_len (String a s) = 0%nat
  /\ ws_len (String a s) = 0%nat
  /\ take_sign (String a s) = (false, String a s)
  /\ drop_prefix "Infinity" (String a s) = None.
Proof.
  destruct a as [[|] [|] [|] [|] [|] [|] [|] [|]];
    try (intros H; discriminate H); intros _;
    destruct s as [|b [|c s]]; repeat split; reflexivity.
Qed.

Lemma at_comma (s : string) : currency_class_len (String "," s) = 1%nat.
Proof. destruct s as [|b [|c s]]; reflexivity. Qed.

Lemma replace_currency_group3 (s : string) :
  all_digits s = true -> replace_currency_aux 0 (Calc.group3 s) = s.
Proof.
  induction s as [|a s IH]; [reflexivity|].
  cbn [all_digits Calc.group3]. intros [Ha Hs]%andb_prop.
  specialize (IH Hs).
  destruct (_ && _); cbn [replace_currency_aux];
    rewrite (proj1 (at_digit a _ Ha)).
  - cbn [replace_currency_aux]. rewrite at_comma. by rewrite IH.
  - by rewrite IH.
Qed.

Lemma digits_fuel_all_digits (fuel : nat) :
  forall n acc,
    all_digits acc = true -> all_digits (digits_fuel fuel n acc) = true.
Proof.
  induction fuel as [|f IH]; intros n acc H; [exact H|].
  cbn [digits_fuel].
  assert (H' : all_digits (String (digit_char (n mod 10)) acc) = true).
  { cbn [all_digits]. by rewrite digit_char_is_digit. }
  destruct (n <? 10); [exact H'|]. by apply IH.
Qed.

Lemma digits_fuel_nonempty (fuel : nat) :
  forall n acc, digits_fuel (S fuel) n acc <> "".
Proof.
  induction fuel as [|f IH]; intros n acc.
  - cbn. by destruct (n <? 10).
  - change (digits_fuel (S (S f)) n acc)
      with (if n <? 10 then String (digit_char (n mod 10)) acc
            else digits_fuel (S f) (n / 10)
                   (String (digit_char (n mod 10)) acc)).
    destruct (n <? 10); [done|apply IH].
Qed.

(** Reading back the digits of [n] gives [n]. *)
Lemma take_digits_step (n : Z) (acc : string) (a : Z) (k : nat) :
  take_digits (String (digit_char (n mod 10)) acc) a k
  = take_digits acc (a * 10 + n mod 10) (S k).
Proof.
  unfold take_digits. cbn [take_digits_with].
  rewrite digit_char_val; [reflexivity|].
  pose proof (Z.mod_pos_bound n 10 ltac:(lia)). lia.
Qed.

Lemma take_digits_fuel (fuel : nat) :
  forall n acc,
    0 <= n < 2 ^ Z.of_nat (S fuel) ->
    exists k, k <> 0%nat
      /\ take_digits (digits_fuel (S fuel) n acc) 0 0 = take_digits acc n k.
Proof.
  induction fuel as [|f IH]; intros n acc Hn;
    change (digits_fuel (S ?g) n acc)
      with (if n <? 10 then String (digit_char (n mod 10)) acc
            else digits_fuel g (n / 10)
                   (String (digit_char (n mod 10)) acc));
    destruct (Z.ltb_spec n 10) as [Hlt|Hge].
  - exists 1%nat. split; [done|]. rewrite take_digits_step.
    by rewrite Z.mod_small by lia.
  - cbn in Hn. lia.
  - exists 1%nat. split; [done|]. rewrite take_digits_step.
    by rewrite Z.mod_small by lia.
  - destruct (IH (n / 10) (String (digit_char (n mod 10)) acc))
      as (k & Hk & E).
    { split; [apply Z.div_pos; lia|].
      apply Z.div_lt_upper_bound; [lia|].
      rewrite Nat2Z.inj_succ, Z.pow_succ_r in Hn by lia. lia. }
    exists (S k). split; [done|]. rewrite E, take_digits_step.
    f_equal. pose proof (Z.div_mod n 10 ltac:(lia)). lia.
Qed.

Lemma take_digits_digits_of_Z (n : Z) :
  0 <= n ->
  exists k, k <> 0%nat /\ take_digits (digits_of_Z n) 0 0 = (n, k, "").
Proof.
  intros H. unfold digits_of_Z.
  destruct (take_digits_fuel (Z.to_nat (Z.log2 n)) n "") as (k & Hk & E).
  { split; [exact H|].
    rewrite Nat2Z.inj_succ, Z2Nat.id by apply Z.log2_nonneg.
    destruct (Z.eq_dec n 0) as [->|Hn]; [reflexivity|].
    apply Z.log2_spec. lia. }
  exists k. split; [exact Hk|]. by rewrite E.
Qed.

Lemma digits_of_Z_head (n : Z) :
  exists a s, digits_of_Z n = String a s /\ is_digit a = true.
Proof.
  pose proof (digits_fuel_all_digits (S (Z.to_nat (Z.log2 n))) n ""
                eq_refl) as H.
  pose proof (digits_fuel_nonempty (Z.to_nat (Z.log2 n)) n "") as H0.
  unfold digits_of_Z. destruct (digits_fuel _ n "") as [|a s]; [done|].
  cbn [all_digits] in H. apply andb_prop in H as [Ha _]. by exists a, s.
Qed.

(** [parseFloat] reads a string of digits as the integer it denotes. *)
Lemma parseFloat_digits_of_Z (n : Z) :
  0 <= n -> parseFloat_str (digits_of_Z n) = Num.of_Z n.
Proof.
  intros H.
  destruct (take_digits_digits_of_Z n H) as (k & Hk & E).
  destruct (digits_of_Z_head n) as (a & s & Es & Ha).
  rewrite Es in E |- *.
  destruct (at_digit a s Ha) as (_ & Hw & Hs & Hp).
  unfold parseFloat_str, trim_start. cbn [trim_start_aux].
  rewrite Hw, Hs, Hp, E.
  destruct k as [|k]; [done|].
  change (exponent_part "" - Z.of_nat 0) with 0.
  by apply of_decimal_of_Z.
Qed.

Lemma nearest_int_nonneg (m : positive) (e : Z) : 0 <= Num.nearest_int m e.
Proof.
  unfold Num.nearest_int, Num.ratio.
  destruct (Z.leb_spec 0 e).
  - rewrite Z.div_1_r.
    pose proof (Z.mul_nonneg_nonneg (Z.pos m) (2 ^ e) ltac:(lia)
                  (Z.pow_nonneg 2 e ltac:(lia))).
    destruct (_ <=? _); lia.
  - assert (0 <= Z.pos m / 2 ^ (- e)).
    { apply Z.div_pos; [lia|]. apply Z.pow_pos_nonneg; lia. }
    destruct (_ <=? _); lia.
Qed.

Lemma replace_currency_pound (ds : string) :
  all_digits ds = true ->
  replace_currency ("£" ++ Calc.group3 ds) = ds.
Proof.
  intros H. unfold replace_currency.
  change ("£" ++ Calc.group3 ds)
    with (String "194" (String "163" (Calc.group3 ds))).
  cbn [replace_currency_aux].
  assert (L : currency_class_len
                (String "194" (String "163" (Calc.group3 ds))) = 2%nat).
  { by destruct (Calc.group3 ds). }
  rewrite L. by apply replace_currency_group3.
Qed.

(** C8: for every finite non-negative Number [x], parsing the formatted
    amount gives the Number value of the whole number nearest to [x]. *)
Theorem parse_format_roundtrip (x : number) :
  Num.isFinite x = true ->
  Num.leb 0 x = true ->
  Calc.parseCurrency (VStr (Calc.formatCurrency x)) = Num.of_Z (round_whole x).
Proof.
  intros Hf Hx. destruct x as [s|s| |s m e]; try discriminate Hf.
  - destruct s; reflexivity.
  - destruct s; [discriminate Hx|].
    cbn [round_whole].
    unfold Calc.formatCurrency, Calc.toLocaleString_whole.
    set (ds := digits_of_Z (Num.nearest_int m e)).
    unfold Calc.parseCurrency.
    change (truthy (VStr ("£" ++ Calc.group3 ds))) with true.
    cbn [negb to_String].
    rewrite replace_currency_pound
      by (apply digits_fuel_all_digits; reflexivity).
    subst ds.
    rewrite parseFloat_digits_of_Z by apply nearest_int_nonneg.
    apply or_num_of_Z, nearest_int_nonneg.
Qed.

Lemma parse_format_roundtrip_witness :
  Calc.parseCurrency (VStr (Calc.formatCurrency 1234.5%num))
  = Num.of_Z (round_whole 1234.5%num).
Proof.
  apply parse_format_roundtrip; reflexivity.
Defined.

(** * Further properties of the code *)

(** ** The report date *)

Lemma Z_of_small (n : Z) (k : nat) :
  0 <= n < Z.of_nat k -> exists i, (i < k)%nat /\ n = Z.of_nat i.
Proof. intros H. exists (Z.to_nat n). lia. Qed.

(** X1: for every day of the month from 1 to 31 and every month,
    [formatDateWithOrdinal] writes the day with its English ordinal suffix
    (st for 1, 21 and 31, nd for 2 and 22, rd for 3 and 23, th otherwise,
    11 to 13 included), then the month's name and the year. *)
Theorem date_with_ordinal (date : Report.js_date) :
  1 <= Report.getDate date <= 31 ->
  0 <= Report.getMonth date <= 11 ->
  Report.formatDateWithOrdinal date
  = ordinal_day (Report.getDate date) ++ " "
    ++ nth (Z.to_nat (Report.getMonth date)) Report.months "" ++ " "
    ++ numberToString (Num.of_Z (Report.getFullYear date)).
Proof.
  destruct date as [d m y];
    cbn [Report.getDate Report.getMonth Report.getFullYear].
  intros Hd Hm.
  unfold Report.formatDateWithOrdinal;
    cbn [Report.getDate Report.getMonth Report.getFullYear].
  generalize (numberToString (Num.of_Z y)) as year; intros year.
  destruct (Z_of_small m 12 ltac:(lia)) as (i & Hi & ->).
  destruct (Z_of_small d 32 ltac:(lia)) as (j & Hj & ->).
  do 12 (destruct i as [|i];
         [ do 32 (destruct j as [|j];
                  [first [lia | vm_compute; reflexivity]|]); lia |]).
  lia.
Qed.

Lemma date_with_ordinal_witness :
  Report.formatDateWithOrdinal (Report.mkDate 22 10 2026)
  = "22nd November 2026".
Proof.
  rewrite (date_with_ordinal (Report.mkDate 22 10 2026));
    [vm_compute; reflexivity | simpl; lia | simpl; lia].
Defined.

(** ** The images of the cover and information pages *)

Lemma find_first (f : string -> bool) (l : list string) :
  match List.find f l with
  | Some p => exists pre post, l = (pre ++ p :: post)%list /\ f p = true
                /\ Forall (fun q => f q = false) pre
  | None => Forall (fun q => f q = false) l
  end.
Proof.
  induction l as [|a l IH]; simpl.
  - constructor.
  - destruct (f a) eqn:E.
    + exists [], l. by repeat split.
    + destruct (List.find f l) as [p|].
      * destruct IH as (pre & post & -> & Hp & Hpre).
        exists (a :: pre), post. repeat split; [done|]. by constructor.
      * by constructor.
Qed.

(** X2: the main image of a page is [null] only when there are no candidate
    images; otherwise it is the first candidate that is an exterior-front
    image (a non-empty path whose file name contains both words, in any
    letter case), and the first candidate of all when none is. *)
Theorem main_image_choice (l : list string) :
  (l = [] /\ Report.mainImage l = None)
  \/ exists pre p post,
       l = (pre ++ p :: post)%list
       /\ Report.mainImage l = Some p
       /\ no_exterior_front pre
       /\ (Report.is_exterior_front p = true
           \/ (pre = [] /\ no_exterior_front post)).
Proof.
  unfold Report.mainImage, no_exterior_front.
  pose proof (find_first Report.is_exterior_front l) as H.
  destruct (List.find _ l) as [p|].
  - right. destruct H as (pre & post & -> & Hp & Hpre).
    exists pre, p, post. by repeat split; [..|left].
  - destruct l as [|a l]; [by left|right].
    exists [], a, l. repeat split; [constructor|right].
    split; [done|]. by inversion H.
Qed.

Lemma filter_sublist {A} (f : A -> bool) (l : list A) :
  List.filter f l `sublist_of` l.
Proof.
  induction l as [|a l IH]; simpl; [constructor|].
  destruct (f a); by constructor.
Qed.

Lemma filter_other_length (p : string) (l : list string) :
  NoDup l -> p ∈ l ->
  S (List.length
       (List.filter (fun img => negb (bool_decide (Some img = Some p))) l))
  = List.length l.
Proof.
  induction l as [|a l IH]; intros Hnd Hin.
  - by apply elem_of_nil in Hin.
  - apply NoDup_cons in Hnd as [Ha Hnd]. simpl.
    destruct (decide (a = p)) as [->|Hne].
    + rewrite bool_decide_true by done. simpl. f_equal.
      clear IH Hin. induction l as [|b l IH]; [done|]. simpl.
      apply not_elem_of_cons in Ha as [Hb Ha].
      apply NoDup_cons in Hnd as [_ Hnd].
      rewrite bool_decide_false by congruence. simpl. f_equal. by apply IH.
    + rewrite bool_decide_false by congruence. simpl. f_equal.
      apply IH; [done|]. apply elem_of_cons in Hin as [->|Hin]; done.
Qed.

Lemma mainImage_elem (l : list string) (p : string) :
  Report.mainImage l = Some p -> p ∈ l.
Proof.
  unfold Report.mainImage.
  pose proof (find_first Report.is_exterior_front l) as H.
  destruct (List.find _ l) as [q|].
  - destruct H as (pre & post & -> & _). intros [= ->].
    apply elem_of_app. right. apply list_elem_of_here.
  - destruct l as [|a l]; [done|]. intros [= ->]. apply list_elem_of_here.
Qed.

Lemma filter_not_elem (m : option string) (l : list string) (p : string) :
  m = Some p ->
  p ∉ List.filter (fun img => negb (bool_decide (Some img = m))) l.
Proof.
  intros -> Hin. apply list_elem_of_In, List.filter_In in Hin as [_ Hin].
  by rewrite bool_decide_true in Hin.
Qed.

(** X3: the thumbnails of the cover are at most three, taken in order from
    the candidate images, and never the main image (every copy of its path
    is left out); a slot shows a non-empty candidate path or a
    placeholder; with pairwise distinct candidates only the main image is
    left out, so all three slots are filled from four candidates on. *)
Theorem thumbnails_exclude_main (l : list string) :
  (List.length (Report.thumbnails l) <= 3)%nat
  /\ Report.thumbnails l `sublist_of` l
  /\ (forall p, Report.mainImage l = Some p -> p ∉ Report.thumbnails l)
  /\ (forall i p, Report.thumbnail_slot l i = Some p ->
                  (i < 3)%nat /\ p ∈ l /\ p <> ""
                  /\ Report.mainImage l <> Some p)
  /\ (NoDup l ->
      List.length (Report.thumbnails l)
      = Nat.min 3 (List.length l - 1)).
Proof.
  assert (Hlen : (List.length (Report.thumbnails l) <= 3)%nat).
  { unfold Report.thumbnails. rewrite length_take. lia. }
  assert (Hsub : Report.thumbnails l `sublist_of` l).
  { unfold Report.thumbnails.
    etrans; [apply sublist_take|apply filter_sublist]. }
  assert (Hmain : forall p, Report.mainImage l = Some p ->
                            p ∉ Report.thumbnails l).
  { intros p Hp Hin. apply (filter_not_elem _ l p Hp).
    eapply elem_of_sublist; [exact Hin|apply sublist_take]. }
  split; [exact Hlen|]. split; [exact Hsub|]. split; [exact Hmain|]. split.
  - intros i p. unfold Report.thumbnail_slot.
    destruct (Report.thumbnails l !! i) as [q|] eqn:E; [|done].
    destruct (String.eqb_spec q "") as [|Hq]; [done|].
    intros [= ->].
    assert (Hin : p ∈ Report.thumbnails l) by (by eapply list_elem_of_lookup_2).
    split; [apply lookup_lt_Some in E; lia|].
    split; [by eapply elem_of_sublist|]. split; [done|].
    intros Hm. by apply (Hmain p Hm).
  - intros Hnd. unfold Report.thumbnails. rewrite length_take.
    destruct (Report.mainImage l) as [p|] eqn:E.
    + pose proof (filter_other_length p l Hnd (mainImage_elem l p E)). lia.
    + destruct l as [|a l]; [done|].
      unfold Report.mainImage in E. destruct (List.find _ _); discriminate.
Qed.

Lemma thumbnails_exclude_main_witness :
  "exterior_front.jpg"
  ∉ Report.thumbnails
      ["a.jpg"; "exterior_front.jpg"; "b.jpg"; "exterior_front.jpg";
       "c.jpg"].
Proof.
  destruct (thumbnails_exclude_main
              ["a.jpg"; "exterior_front.jpg"; "b.jpg"; "exterior_front.jpg";
               "c.jpg"]) as (_ & _ & H & _).
  apply H. vm_compute. reflexivity.
Defined.

Lemma append_cons (a : ascii) (s t : string) :
  String a s ++ t = String a (s ++ t).
Proof. reflexivity. Qed.

Lemma append_nil_r (s : string) : s ++ "" = s.
Proof.
  induction s as [|a s IH]; [done|]. by rewrite append_cons, IH.
Qed.

Lemma append_assoc (s t u : string) : (s ++ t) ++ u = s ++ t ++ u.
Proof.
  induction s as [|a s IH]; [done|]. by rewrite !append_cons, IH.
Qed.

Lemma string_rev_acc (s : string) :
  forall acc, Report.string_rev s acc = Report.string_rev s "" ++ acc.
Proof.
  induction s as [|a s IH]; intros acc; [done|].
  cbn [Report.string_rev]. rewrite IH, (IH (String a "")).
  by rewrite append_assoc.
Qed.

Lemma string_rev_app (s t : string) :
  forall acc,
    Report.string_rev (s ++ t) acc
    = Report.string_rev t (Report.string_rev s acc).
Proof.
  induction s as [|a s IH]; intros acc; [done|].
  rewrite append_cons. cbn [Report.string_rev]. apply IH.
Qed.

Lemma string_rev_rev (s : string) :
  forall acc acc',
    Report.string_rev (Report.string_rev s acc) acc'
    = Report.string_rev acc (s ++ acc').
Proof.
  induction s as [|a s IH]; intros acc acc'; [done|].
  cbn [Report.string_rev]. by rewrite IH, append_cons.
Qed.

Lemma all_chars_rev (f : ascii -> bool) (s : string) :
  forall acc,
    all_chars f (Report.string_rev s acc) = all_chars f s && all_chars f acc.
Proof.
  induction s as [|a s IH]; intros acc; [done|].
  cbn [Report.string_rev all_chars]. rewrite IH. cbn [all_chars].
  by destruct (f a), (all_chars f s).
Qed.

Lemma drop_slashes_plain (s : string) :
  all_chars not_slash s = true ->
  forall t, Report.drop_slashes (s ++ t)
            = if String.eqb s "" then Report.drop_slashes t else s ++ t.
Proof.
  destruct s as [|a s]; [done|]. cbn [all_chars].
  intros [Ha _]%andb_prop t. rewrite append_cons.
  cbn [Report.drop_slashes String.eqb].
  unfold not_slash in Ha. by destruct (Ascii.eqb a "/").
Qed.

Lemma until_slash_plain (s : string) :
  all_chars not_slash s = true ->
  forall t, Report.until_slash (s ++ String "/" t) = s
            /\ Report.until_slash s = s.
Proof.
  induction s as [|a s IH]; [done|]. cbn [all_chars].
  intros [Ha Hs]%andb_prop t. rewrite append_cons.
  cbn [Report.until_slash]. unfold not_slash in Ha.
  destruct (Ascii.eqb a "/"); [done|].
  destruct (IH Hs t) as [-> ->]. done.
Qed.

(** X4: only the file name decides whether an image is an exterior-front
    image: for a non-empty name without a slash, [path.basename] of the
    name under any directory is the name itself, so the words in a
    directory's name do not count. *)
Theorem only_the_file_name_counts (dir name : string) :
  name <> "" -> all_chars not_slash name = true ->
  Report.basename (dir ++ "/" ++ name) = name
  /\ Report.basename name = name
  /\ Report.is_exterior_front (dir ++ "/" ++ name)
     = Report.is_exterior_front name.
Proof.
  intros Hne Hall.
  assert (Hr : all_chars not_slash (Report.string_rev name "") = true).
  { by rewrite all_chars_rev, Hall. }
  assert (Hrne : String.eqb (Report.string_rev name "") "" = false).
  { destruct name as [|a name]; [done|]. cbn [Report.string_rev].
    rewrite string_rev_acc. by destruct (Report.string_rev name ""). }
  assert (B1 : Report.basename (dir ++ "/" ++ name) = name).
  { unfold Report.basename.
    rewrite !string_rev_app. cbn [Report.string_rev].
    rewrite (string_rev_acc name (String "/" _)).
    rewrite (drop_slashes_plain _ Hr), Hrne.
    rewrite (proj1 (until_slash_plain _ Hr _)).
    by rewrite string_rev_rev, append_nil_r. }
  assert (B2 : Report.basename name = name).
  { unfold Report.basename.
    rewrite <- (append_nil_r (Report.string_rev name "")).
    rewrite (drop_slashes_plain _ Hr), Hrne, append_nil_r.
    rewrite (proj2 (until_slash_plain _ Hr "")).
    by rewrite string_rev_rev, append_nil_r. }
  split; [exact B1|]. split; [exact B2|].
  unfold Report.is_exterior_front. rewrite B1, B2. f_equal.
  destruct name as [|a name]; [done|].
  by destruct dir.
Qed.

Lemma only_the_file_name_counts_witness :
  Report.basename "/tmp/exterior_front/cover-1.png" = "cover-1.png".
Proof.
  exact (proj1 (only_the_file_name_counts "/tmp/exterior_front"
                  "cover-1.png" ltac:(discriminate) eq_refl)).
Defined.

(** ** [addImageToPDF] *)

(** X5: [addImageToPDF] restores the graphics state it saved in every case
    but one: when the file exists and [doc.image] throws, the placeholder
    is drawn inside the clipping rectangle and the state is never
    restored. *)
Theorem image_error_leaves_state_saved (existsSync decodes : string -> bool)
    (imagePath : option string) (x y w h : number) (fit : string) :
  let cmds := Report.addImageToPDF existsSync decodes imagePath x y w h fit in
  (saves cmds = restores cmds
   <-> ~ exists p, imagePath = Some p /\ p <> "" /\ existsSync p = true
                   /\ decodes p = false)
  /\ (saves cmds <> restores cmds ->
      cmds = [Report.Save; Report.Clip x y w h;
              Report.FillRect x y w h "#CCCCCC"]).
Proof.
  unfold Report.addImageToPDF. destruct imagePath as [p|]; simpl.
  - destruct (existsSync p) eqn:Ex; simpl.
    + destruct (String.eqb_spec p "") as [->|Hne].
      * simpl. split; [|done]. split; [|done].
        by intros _ (q & [= <-] & Hq & _).
      * destruct (decodes p) eqn:Ed; simpl.
        -- split; [|done]. split; [|done].
           intros _ (q & [= <-] & _ & _ & Hq). congruence.
        -- split; [|done]. split; [done|].
           intros H. exfalso. apply H. by exists p.
    + split; [|done]. split; [|done].
      intros _ (q & [= <-] & _ & Hq & _). congruence.
  - split; [|done]. split; [|done]. by intros _ (q & Hq & _).
Qed.

Lemma image_error_leaves_state_saved_witness :
  Report.addImageToPDF (fun _ => true) (fun _ => false) (Some "plan.png")
    72%num 144%num 468%num 324%num "contain"
  = [Report.Save; Report.Clip 72%num 144%num 468%num 324%num;
     Report.FillRect 72%num 144%num 468%num 324%num "#CCCCCC"].
Proof.
  apply (proj2 (image_error_leaves_state_saved (fun _ => true)
                  (fun _ => false) (Some "plan.png") 72%num 144%num 468%num
                  324%num "contain")).
  vm_compute. lia.
Defined.

(** ** [calculateInvestment] *)

Lemma calculator_ext (t : variant) (d1 d2 : gmap string value) :
  Forall (fun f => get d1 f = get d2 f) (fields_read t) ->
  calculator t d1 = calculator t d2.
Proof.
  destruct t; cbn [fields_read calculator]; intros H;
    repeat (apply Forall_cons in H as [? H]); clear H;
    match goal with |- ?c _ = _ => unfold c end; cbv zeta;
    unfold Calc.parseCurrency;
    repeat match goal with
    | E : get d1 _ = _ |- _ => rewrite E; clear E
    end; reflexivity.
Qed.

(** X6: what a calculator returns depends only on the input fields it
    reads: two mappings that agree on those fields give the same result,
    so setting or removing any other field changes nothing (the BRR
    calculator, for one, ignores the stamp duty, survey and legal
    fees). *)
Theorem calculators_read_only_their_fields (t : variant)
    (d1 d2 : gmap string value) :
  (forall f, f ∈ fields_read t -> get d1 f = get d2 f) ->
  calculator t d1 = calculator t d2.
Proof. intros H. apply calculator_ext. by apply Forall_forall. Qed.

Lemma calculators_read_only_their_fields_witness :
  calculator BRR (<["stamp_duty" := VNum 5000%num]> btl_example)
  = calculator BRR (delete "water" btl_example).
Proof.
  apply calculators_read_only_their_fields.
  intros f Hf. cbn [fields_read] in Hf.
  repeat (apply elem_of_cons in Hf as [->|Hf]); [..|by apply elem_of_nil in Hf];
    vm_compute; reflexivity.
Defined.

Lemma calculator_ignores_type (t : variant) (data : gmap string value)
    (v : value) :
  calculator t (<["calculator_type" := v]> data) = calculator t data.
Proof.
  apply calculator_ext, Forall_forall. intros f Hf.
  unfold get. rewrite lookup_insert_ne; [done|].
  intros <-. revert Hf. destruct t; compute_done.
Qed.

Lemma calculateInvestment_typed (t : variant) (data : gmap string value) :
  Calc.calculateInvestment (<["calculator_type" := VStr (type_name t)]> data)
  = calculator t data.
Proof.
  rewrite (calculateInvestment_dispatch t) by apply lookup_insert_eq.
  apply calculator_ignores_type.
Qed.

(** X7: setting [calculator_type] to the name of one of the six
    calculators makes [calculateInvestment] return what that calculator
    returns on the mapping without the field: no calculator reads
    [calculator_type]; the name [purchase] selects the Standard-BTL
    calculator. *)
Theorem calculateInvestment_by_type (t : variant)
    (data : gmap string value) :
  Calc.calculateInvestment (<["calculator_type" := VStr (type_name t)]> data)
  = calculator t data
  /\ calculator t (delete "calculator_type" data) = calculator t data
  /\ Calc.calculateInvestment (<["calculator_type" := VStr "purchase"]> data)
     = Calc.calculateStandardBTL data.
Proof.
  split; [apply calculateInvestment_typed|]. split.
  - rewrite <- (calculator_ignores_type t (delete _ data) VNull).
    rewrite insert_delete_eq. apply calculator_ignores_type.
  - unfold Calc.calculateInvestment. rewrite get_insert. simpl.
    apply (calculator_ignores_type StandardBTL).
Qed.

(** X8: a [calculator_type] that is not the name of one of the other five
    calculators (an unknown name, a number, a boolean, an absent or empty
    value) gives the Standard-BTL calculation. *)
Theorem unknown_type_is_standard_btl (data : gmap string value) :
  (forall t, t <> StandardBTL ->
             get data "calculator_type" <> VStr (type_name t)) ->
  Calc.calculateInvestment data = Calc.calculateStandardBTL data.
Proof.
  intros H. unfold Calc.calculateInvestment.
  pose proof (H BRR ltac:(done)) as H1.
  pose proof (H Flip ltac:(done)) as H2.
  pose proof (H HolidayLet ltac:(done)) as H3.
  pose proof (H RentToHMO ltac:(done)) as H4.
  pose proof (H RentToServiced ltac:(done)) as H5.
  simpl in *. clear H.
  unfold or_val. destruct (get data "calculator_type") as [| |b|x|s]; simpl.
  1-2: reflexivity.
  - destruct b; reflexivity.
  - destruct (truthy_num x); reflexivity.
  - destruct (String.eqb_spec s ""); simpl; [reflexivity|].
    unfold is_str.
    repeat match goal with
    | |- context [String.eqb ?a ?b] =>
        destruct (String.eqb_spec a b); subst; simpl; try congruence
    end.
Qed.

Lemma unknown_type_is_standard_btl_witness :
  Calc.calculateInvestment {[ "calculator_type" := VStr "bungalow" ]}
  = Calc.calculateStandardBTL {[ "calculator_type" := VStr "bungalow" ]}.
Proof.
  apply unknown_type_is_standard_btl.
  intros t _. destruct t; vm_compute; discriminate.
Defined.

Lemma obj_lookup_None (l : list (string * number)) (k : string) :
  k ∉ l.*1 -> obj l !! k = None.
Proof. apply not_elem_of_list_to_map_1. Qed.

(** X9: the Standard-BTL, BRR and Holiday-Let calculators return a
    [rentalYield] of 0 when its denominator (the purchase price; for BRR
    the value after refurbishment) is less than or equal to 0, and
    (annualRent / denominator) * 100 when it is positive; the other three
    calculators return no [rentalYield]. *)
Theorem rental_yield_guarded (t : variant) (data : gmap string value) :
  match yield_basis t with
  | Some field =>
      exists basis annualRent,
        calculator t data !! field = Some basis
        /\ calculator t data !! "annualRent" = Some annualRent
        /\ calculator t data !! "rentalYield"
           = Some (if basis <=? 0 then 0
                   else if basis >? 0 then (annualRent / basis) * 100
                        else 0)%num
  | None => calculator t data !! "rentalYield" = None
  end.
Proof.
  destruct t; cbn [calculator yield_basis];
    match goal with
    | |- exists _ _, ?c _ !! _ = _ /\ _ => unfold c
    | |- ?c _ !! _ = _ => unfold c
    end;
    cbv zeta;
    first
      [ eexists; eexists;
        (split; [obj_lookup; reflexivity|]);
        (split; [obj_lookup; reflexivity|]);
        obj_lookup; f_equal; apply guard_by_sign
      | apply obj_lookup_None; cbn [fmap list_fmap fst]; compute_done ].
Qed.

Lemma or_num_truthy (x d : number) :
  truthy_num d = true -> truthy_num (or_num x d) = true.
Proof. intros H. unfold or_num. by destruct (truthy_num x) eqn:E. Qed.

(** X10: the Flip calculator's holding period is never 0 or NaN (an
    absent, zero or non-numeric field gives 6), so [monthlyROI] is
    roi / holdingPeriod for every input but a negative holding period,
    for which it is 0. *)
Theorem flip_monthly_roi (data : gmap string value) :
  exists roi holdingPeriod,
    Calc.calculateFlip data !! "roi" = Some roi
    /\ Calc.calculateFlip data !! "holdingPeriod" = Some holdingPeriod
    /\ truthy_num holdingPeriod = true
    /\ Calc.calculateFlip data !! "monthlyROI"
       = Some (if holdingPeriod <=? 0 then 0 else roi / holdingPeriod)%num.
Proof.
  unfold Calc.calculateFlip. cbv zeta.
  eexists; eexists.
  split; [obj_lookup; reflexivity|].
  split; [obj_lookup; reflexivity|].
  split; [by apply or_num_truthy|].
  obj_lookup. f_equal.
  set (hp := or_num _ 6%num).
  assert (Hhp : truthy_num hp = true) by by apply or_num_truthy.
  rewrite guard_by_sign.
  destruct (Num.leb hp 0) eqn:E; [reflexivity|].
  destruct (Num.gtb hp 0) eqn:G; [reflexivity|].
  exfalso. clear -Hhp E G.
  destruct hp as [[|]|[|]| |[|] m e]; cbv in *; congruence.
Qed.

(** ** [calculateCalculatorValues] *)

Lemma pdf_parseCurrency_calc (v : value) :
  Pdf.parseCurrency v = Some (Calc.parseCurrency v).
Proof.
  unfold Pdf.parseCurrency, Calc.parseCurrency.
  destruct v as [| |b|x|s]; try reflexivity;
    destruct (truthy _); reflexivity.
Qed.

Lemma res_or_not_NaN (r : gmap string number) (k : string) (d : number) :
  Num.isNaN d = false -> Num.isNaN (Report.res_or r k d) = false.
Proof.
  intros H. unfold Report.res_or. destruct (r !! k); [|done].
  by rewrite or_num_isNaN, H.
Qed.

Lemma res_or_else_total (r : gmap string number) (k : string) (v : value) :
  exists x, Report.res_or_else r k (Pdf.parseCurrency v) = Some x
            /\ Num.isNaN x = false.
Proof.
  unfold Report.res_or_else. rewrite pdf_parseCurrency_calc.
  destruct (r !! k) as [x|].
  - destruct (truthy_num x) eqn:E.
    + exists x. split; [done|]. by destruct x.
    + eexists. split; [done|]. apply parseCurrency_not_NaN.
  - eexists. split; [done|]. apply parseCurrency_not_NaN.
Qed.

Lemma map_Forall_obj (P : number -> Prop) (l : list (string * number)) :
  Forall (fun kv => P kv.2) l -> map_Forall (fun _ x => P x) (obj l).
Proof.
  induction 1 as [|[k x] l Hx Hl IH]; unfold obj; simpl.
  - apply map_Forall_empty.
  - by apply map_Forall_insert_2.
Qed.

(** Names the results of the currency reads that may throw. *)
Ltac with_parsed :=
  repeat match goal with
  | |- context [Report.res_or_else ?r ?k (Pdf.parseCurrency ?v)] =>
      let x := fresh "x" in let E := fresh "E" in let N := fresh "N" in
      destruct (res_or_else_total r k v) as (x & E & N); rewrite E; clear E
  end.

(** X11: whatever the calculator module returns, [calculateCalculatorValues]
    returns through the module's path (no read throws, so the fallback is
    not taken) and none of the 24 values it returns is NaN. *)
Theorem calculator_values_never_NaN
    (calc : gmap string value -> gmap string number)
    (calculatorType : value) (calcData allData : gmap string value) :
  exists values,
    Report.calculateCalculatorValues (Some calc) calculatorType calcData
      allData = Some values
    /\ Report.calculatedValues calc calculatorType calcData allData
       = Some values
    /\ never_NaN values.
Proof.
  unfold Report.calculateCalculatorValues, Report.calculatedValues.
  cbv zeta. with_parsed. cbn [mbind option_bind].
  eexists. split; [reflexivity|]. split; [reflexivity|].
  unfold never_NaN. apply map_Forall_obj.
  repeat (apply Forall_cons; split;
          [cbn [snd];
           first [assumption
                 | by repeat apply res_or_not_NaN
                 | by rewrite or_num_isNaN]|]).
  apply Forall_nil_2.
Qed.

Lemma calculator_no_field (t : variant) (data : gmap string value)
    (k : string) :
  k ∈ ["stampDuty"; "surveyCost"; "legalFees"; "loanSetup";
       "annualMortgageInterest"; "councilTax"; "repairs"; "utilities";
       "water"; "broadband"; "insurance"] ->
  calculator t data !! k = None.
Proof.
  intros Hk.
  destruct t; simpl calculator;
    match goal with |- ?c _ !! _ = _ => unfold c end; cbv zeta;
    apply obj_lookup_None; cbn [fmap list_fmap fst];
    repeat (apply elem_of_cons in Hk as [->|Hk]);
    first [by apply elem_of_nil in Hk | compute_done].
Qed.

(** X12: with the calculator module, the annual mortgage interest returned
    for display is 0 for every calculator type and every input: no
    calculator returns that field. *)
Theorem mortgage_interest_shown_as_zero (calculatorType : value)
    (calcData allData : gmap string value) :
  exists values,
    Report.calculateCalculatorValues (Some Calc.calculateInvestment)
      calculatorType calcData allData = Some values
    /\ values !! "annualMortgageInterest" = Some 0%num
    /\ Calc.calculateInvestment
         (<["calculator_type" := calculatorType]> (calcData ∪ allData))
       !! "annualMortgageInterest" = None.
Proof.
  unfold Report.calculateCalculatorValues, Report.calculatedValues.
  cbv zeta.
  destruct (calculateInvestment_cases
              (<["calculator_type" := calculatorType]> (calcData ∪ allData)))
    as [t ->].
  with_parsed. cbn [mbind option_bind].
  assert (Hk : calculator t
                 (<["calculator_type" := calculatorType]>
                    (calcData ∪ allData))
               !! "annualMortgageInterest" = None).
  { apply calculator_no_field. compute_done. }
  eexists. split; [reflexivity|]. split; [|exact Hk].
  obj_lookup. unfold Report.res_or. by rewrite Hk.
Qed.

Lemma union_insert_covered (cd ad : gmap string value) (k : string)
    (v w : value) :
  cd !! k = Some v -> cd ∪ <[k := w]> ad = cd ∪ ad.
Proof.
  intros H. apply map_eq. intros i.
  destruct (decide (i = k)) as [->|Hne].
  - by rewrite !(lookup_union_Some_l _ _ _ _ H).
  - rewrite !lookup_union. by rewrite lookup_insert_ne.
Qed.

Lemma field_override (cd ad : gmap string value) (k k' : string)
    (v w : value) :
  cd !! k = Some v -> truthy v = true ->
  or_val (get cd k') (get (<[k := w]> ad) k') = or_val (get cd k') (get ad k').
Proof.
  intros H Hv. destruct (decide (k = k')) as [<-|Hne].
  - assert (get cd k = v) as -> by (unfold get; by rewrite H).
    unfold or_val. by rewrite Hv.
  - f_equal. unfold get. by rewrite lookup_insert_ne.
Qed.

(** X13: a field the section's own data holds with a truthy value hides the
    shared field of the same name: changing the shared field changes none
    of the values returned, with or without the calculator module. *)
Theorem section_fields_override_shared
    (calc : option (gmap string value -> gmap string number))
    (calculatorType : value) (calcData allData : gmap string value)
    (k : string) (v w : value) :
  calcData !! k = Some v -> truthy v = true ->
  Report.calculateCalculatorValues calc calculatorType calcData
    (<[k := w]> allData)
  = Report.calculateCalculatorValues calc calculatorType calcData allData.
Proof.
  intros H Hv.
  unfold Report.calculateCalculatorValues, Report.calculatedValues,
    Report.fallbackValues.
  cbv zeta.
  rewrite (union_insert_covered calcData allData k v w H).
  repeat match goal with
  | |- context [or_val (get calcData ?f) (get (<[k := w]> allData) ?f)] =>
      rewrite (field_override calcData allData k f v w H Hv)
  end.
  reflexivity.
Qed.

Lemma section_fields_override_shared_witness :
  Report.calculateCalculatorValues (Some Calc.calculateInvestment)
    (VStr "flip") {[ "purchase_price" := VStr "90000" ]}
    (<["purchase_price" := VStr "1"]> ∅)
  = Report.calculateCalculatorValues (Some Calc.calculateInvestment)
      (VStr "flip") {[ "purchase_price" := VStr "90000" ]} ∅.
Proof.
  apply (section_fields_override_shared (Some Calc.calculateInvestment)
           (VStr "flip") {[ "purchase_price" := VStr "90000" ]} ∅
           "purchase_price" (VStr "90000") (VStr "1"));
    vm_compute; reflexivity.
Defined.

Lemma calculator_has_roi (t : variant) (data : gmap string value) :
  exists roi, calculator t data !! "roi" = Some roi.
Proof.
  destruct t; simpl calculator;
    match goal with |- exists _, ?c _ !! _ = _ => unfold c end; cbv zeta;
    eexists; obj_lookup; reflexivity.
Qed.

(** X14: a section whose type names one of the six calculators shows that
    calculator's ROI, computed on the section's own fields laid over the
    shared fields, with 0 in place of a NaN. *)
Theorem section_shows_its_calculator (t : variant)
    (calcData allData : gmap string value) :
  exists values roi,
    Report.calculateCalculatorValues (Some Calc.calculateInvestment)
      (VStr (type_name t)) calcData allData = Some values
    /\ calculator t (calcData ∪ allData) !! "roi" = Some roi
    /\ values !! "roi" = Some (or_num roi 0%num).
Proof.
  unfold Report.calculateCalculatorValues, Report.calculatedValues.
  cbv zeta. rewrite calculateInvestment_typed.
  destruct (calculator_has_roi t (calcData ∪ allData)) as [roi Hroi].
  with_parsed. cbn [mbind option_bind].
  eexists. exists roi. split; [reflexivity|]. split; [exact Hroi|].
  obj_lookup. unfold Report.res_or. by rewrite Hroi.
Qed.

Lemma get_union_truthy (cd ad : gmap string value) (k : string) :
  all_truthy cd ->
  or_val (get cd k) (get ad k) = get (cd ∪ ad) k.
Proof.
  intros H. unfold get, or_val. rewrite lookup_union.
  destruct (cd !! k) as [v|] eqn:E; simpl.
  - rewrite (H k v E). by destruct (ad !! k).
  - by destruct (ad !! k).
Qed.

(** X15: without the calculator module every section, whatever its type,
    gets the built-in calculation, and that calculation agrees with the
    Standard-BTL calculator: when the fields of the section's own data are
    truthy, every field the calculator returns on the section's fields laid
    over the shared fields is returned with the same value. *)
Theorem fallback_agrees_with_standard_btl (calculatorType : value)
    (calcData allData : gmap string value) :
  all_truthy calcData ->
  exists values,
    Report.calculateCalculatorValues None calculatorType calcData allData
    = Some values
    /\ forall k x,
         Calc.calculateStandardBTL (calcData ∪ allData) !! k = Some x ->
         values !! k = Some x.
Proof.
  intros H.
  unfold Report.calculateCalculatorValues, Report.fallbackValues,
    Calc.calculateStandardBTL.
  cbv zeta.
  repeat match goal with
  | |- context [or_val (get calcData ?f) (get allData ?f)] =>
      rewrite (get_union_truthy calcData allData f H)
  end.
  rewrite !pdf_parseCurrency_calc. cbn [mbind option_bind].
  eexists. split; [reflexivity|].
  intros k x.
  repeat match goal with
  | |- obj ((?f, _) :: _) !! k = Some x -> _ =>
      destruct (decide (f = k)) as [<-|];
      [rewrite obj_cons_eq; intros E; injection E as <-; obj_lookup;
       reflexivity
      |rewrite obj_cons_ne by done]
  end.
  intros E. discriminate E.
Qed.

Lemma fallback_agrees_with_standard_btl_witness :
  exists values,
    Report.calculateCalculatorValues None (VStr "flip") ∅ btl_example
    = Some values
    /\ forall k x,
         Calc.calculateStandardBTL (∅ ∪ btl_example) !! k = Some x ->
         values !! k = Some x.
Proof.
  apply (fallback_agrees_with_standard_btl (VStr "flip") ∅ btl_example).
  apply map_Forall_empty.
Defined.

(** ** The pages of the report *)

Lemma filter_nonblank_nil (l : list string) :
  List.filter (fun w => negb (String.eqb w "")) (Pdf.trim <$> l) = []
  <-> Forall blank l.
Proof.
  induction l as [|w l IH]; simpl.
  - split; [constructor|done].
  - unfold blank at 1.
    destruct (String.eqb_spec (Pdf.trim w) "") as [E|E]; simpl.
    + rewrite IH. split; [by constructor|by inversion 1].
    + split; [done|]. inversion 1; subst. done.
Qed.

(** X16: the list of calculator types is empty exactly when
    [selected_calculators] is a non-empty string whose comma-separated
    pieces are all blank; the page after the pages of the cover is then left
    completely empty, without even the header.  An array, and any value that
    is not a string, always gives at least one type. *)
Theorem no_calculator_selected (th : number) (ps : Pdf.op -> nat)
    (data : Pdf.report_data) (imgs : Pdf.images) :
  (Pdf.selectedCalculators data = []
   <-> exists s, Pdf.selected_calculators data = Pdf.SelScalar (VStr s)
                 /\ s <> "" /\ Forall blank (Pdf.split_comma s))
  /\ (Pdf.selectedCalculators data = [] ->
      exists rest,
        Pdf.pages (Pdf.generatePDF th ps data imgs)
        = (template_pages ps "Cover" ++ [] :: rest)%list).
Proof.
  split.
  - unfold Pdf.selectedCalculators.
    destruct (Pdf.selected_calculators data) as [l|v] eqn:E;
      cbn [Pdf.sel_truthy].
    + destruct l as [|t l]; simpl.
      * split; [intros H; discriminate H|].
        intros (s & Hs & _); discriminate Hs.
      * split; [intros H; discriminate H|].
        intros (s & Hs & _); discriminate Hs.
    + destruct (truthy v) eqn:Hv.
      * destruct v as [| |b|x|s]; try discriminate Hv.
        -- cbn [Pdf.sel_truthy]. rewrite Hv. simpl.
           split; [done|]. intros (s & Hs & _); discriminate Hs.
        -- cbn [Pdf.sel_truthy]. rewrite Hv. simpl.
           split; [done|]. intros (s & Hs & _); discriminate Hs.
        -- assert (Hs : s <> "").
           { intros ->. discriminate Hv. }
           assert (Pdf.sel_length_zero (Pdf.SelScalar (VStr s)) = false)
             as Hz.
           { destruct s; [done|reflexivity]. }
           cbn [Pdf.sel_truthy]. rewrite Hv. cbn [negb orb]. rewrite Hz.
           split.
           ++ intros H%fmap_nil_inv%filter_nonblank_nil. by exists s.
           ++ intros (s' & Hs' & _ & H). injection Hs' as <-.
              apply filter_nonblank_nil in H. by rewrite H.
      * destruct (truthy (get _ _)); simpl; (split; [done|]);
          intros (s & Hs' & Hs & _); injection Hs' as ->; simpl in Hv;
          by destruct (String.eqb_spec s "").
  - intros H.
    destruct (generatePDF_investment_pages th ps data imgs) as [rest E].
    rewrite E, H. by eexists.
Qed.

Lemma no_calculator_selected_witness :
  exists rest,
    Pdf.pages (Pdf.generatePDF 30%num fits comma_only no_images)
    = (cover_page :: [] :: rest)%list.
Proof.
  apply (proj2 (no_calculator_selected 30%num fits comma_only no_images)).
  vm_compute. reflexivity.
Defined.

Lemma count_draw_again (c : Pdf.op -> bool) (o : Pdf.op) (d : Pdf.doc) :
  existsb c (Pdf.current d) = true ->
  count_pages c (Pdf.draw o d) = count_pages c d.
Proof.
  intros H. unfold count_pages, Pdf.draw, Pdf.pages.
  cbn [Pdf.finished Pdf.current].
  rewrite !List.filter_app, !List.length_app. f_equal.
  cbn [List.filter]. by rewrite List.existsb_app, H.
Qed.

Lemma count_floor_plan_title (p : option string) (d : Pdf.doc) :
  count_pages (is_title "Floor Plans") (Pdf.floor_plan_page p d)
  = (count_pages (is_title "Floor Plans") d
     + if existsb (is_title "Floor Plans") (Pdf.current d) then 0 else 1)%nat
  /\ existsb (is_title "Floor Plans") (Pdf.current (Pdf.floor_plan_page p d))
     = true.
Proof.
  split.
  - unfold Pdf.floor_plan_page, Pdf.drawHeader.
    rewrite count_draw_other by reflexivity.
    destruct (existsb _ (Pdf.current d)) eqn:E.
    + rewrite count_draw_again.
      * rewrite count_draw_other by reflexivity. lia.
      * cbn [Pdf.draw Pdf.current]. by rewrite List.existsb_app, E.
    + rewrite count_draw_first; [|reflexivity|].
      * rewrite count_draw_other by reflexivity. lia.
      * cbn [Pdf.draw Pdf.current]. by rewrite List.existsb_app, E.
  - unfold Pdf.floor_plan_page, Pdf.drawHeader, Pdf.draw.
    cbn [Pdf.current]. rewrite !List.existsb_app. cbn.
    by rewrite !orb_true_r.
Qed.

Lemma removelast_cons (p q : string) (l : list string) :
  removelast (p :: q :: l) = p :: removelast (q :: l).
Proof. reflexivity. Qed.

Lemma other_plans_cons (p z : string) (l : list string) :
  other_plans (p :: l) z
  = if String.eqb p z then other_plans l z else p :: other_plans l z.
Proof.
  unfold other_plans. cbn [List.filter]. by destruct (String.eqb p z).
Qed.

Lemma count_floor_plans_loop (z : string) (l : list string) :
  forall d,
    count_pages (is_title "Floor Plans")
      (Pdf.floor_plans_loop l (Some z) d)
    = (count_pages (is_title "Floor Plans") d
       + match l with
         | [] => 0
         | _ => if existsb (is_title "Floor Plans") (Pdf.current d)
                then 0 else 1
         end
       + List.length (other_plans (removelast l) z))%nat.
Proof.
  induction l as [|p l IH]; intros d; [cbn; lia|].
  cbn [Pdf.floor_plans_loop].
  destruct (count_floor_plan_title (Some p) d) as [Hc Hh].
  destruct (String.eqb_spec p z) as [->|Hne].
  - rewrite bool_decide_true by done. rewrite IH, Hc, Hh.
    destruct l as [|q l]; [cbn; lia|].
    rewrite removelast_cons, other_plans_cons, String.eqb_refl. lia.
  - rewrite bool_decide_false by congruence.
    rewrite IH, count_addPage, Hc. cbn [Pdf.addPage Pdf.current existsb].
    destruct l as [|q l]; [cbn; lia|].
    rewrite removelast_cons, other_plans_cons.
    destruct (String.eqb_spec p z); [done|]. cbn [List.length]. lia.
Qed.

Lemma other_plans_removelast (l : list string) (z : string) :
  last l = Some z -> other_plans (removelast l) z = other_plans l z.
Proof.
  intros [l' ->]%last_Some. rewrite List.removelast_last.
  unfold other_plans. rewrite List.filter_app. cbn [List.filter].
  by rewrite String.eqb_refl, app_nil_r.
Qed.

Lemma other_plans_NoDup (l : list string) (z : string) :
  NoDup l -> last l = Some z ->
  S (List.length (other_plans l z)) = List.length l.
Proof.
  intros Hnd Hl.
  assert (Hin : z ∈ l).
  { clear Hnd. induction l as [|p l IH]; [done|].
    destruct l as [|q l].
    - injection Hl as ->. apply list_elem_of_here.
    - apply list_elem_of_further. by apply IH. }
  clear Hl. induction l as [|p l IH]; [by apply elem_of_nil in Hin|].
  apply NoDup_cons in Hnd as [Hp Hnd]. rewrite other_plans_cons.
  destruct (String.eqb_spec p z) as [->|Hne]; cbn [List.length].
  - f_equal. clear IH Hin Hnd. induction l as [|q l IH]; [done|].
    apply not_elem_of_cons in Hp as [Hq Hp]. rewrite other_plans_cons.
    destruct (String.eqb_spec q z); [congruence|]. cbn. f_equal. by apply IH.
  - f_equal. apply IH; [done|].
    apply elem_of_cons in Hin as [->|Hin]; done.
Qed.

(** X17: the floor plans take one page more than there are plans whose
    path differs from the last plan's path: a plan with the same path as
    the last one gets no page break after it, so it shares its page with
    the plan that follows; with pairwise distinct paths there is one page
    per plan. *)
Theorem floor_plan_page_breaks (th : number) (ps : Pdf.op -> nat)
    (data : Pdf.report_data) (imgs : Pdf.images) (l : list string)
    (z : string) :
  Pdf.floor_plans imgs = Some l -> last l = Some z ->
  count_pages (is_title "Floor Plans") (Pdf.generatePDF th ps data imgs)
  = S (List.length (other_plans l z))
  /\ (NoDup l ->
      count_pages (is_title "Floor Plans") (Pdf.generatePDF th ps data imgs)
      = List.length l).
Proof.
  intros Hf Hl.
  assert (E : count_pages (is_title "Floor Plans")
                (Pdf.generatePDF th ps data imgs)
              = S (List.length (other_plans l z))).
  { unfold Pdf.generatePDF, Pdf.createCityMapPage,
      Pdf.createOtherKeyInformationPage, Pdf.createKeyInformationPage,
      Pdf.createCoverPage, Pdf.createInvestmentPage.
    cbv zeta.
    rewrite count_template, count_addPage, count_gallery_section,
      count_addPage by done.
    unfold Pdf.floor_plans_section. rewrite Hf.
    change (default [] (Some l)) with l. cbv zeta. rewrite Hl.
    destruct (Nat.ltb_spec 0 (List.length l)) as [_|H0];
      [|destruct l; [done|simpl in H0; lia]].
    rewrite count_floor_plans_loop.
    rewrite (other_plans_removelast _ _ Hl).
    rewrite count_addPage, count_template, count_addPage, count_template,
      count_addPage, count_investment_sections, count_addPage,
      count_template by done.
    destruct l; [done|]. reflexivity. }
  split; [exact E|].
  intros Hnd. rewrite E. by apply other_plans_NoDup.
Qed.

Lemma floor_plan_page_breaks_witness :
  count_pages (is_title "Floor Plans")
    (Pdf.generatePDF 30%num fits empty_report repeated_plan) = 2%nat.
Proof.
  exact (proj1 (floor_plan_page_breaks 30%num fits empty_report repeated_plan
                  ["a.png"; "b.png"; "a.png"] "a.png" eq_refl eq_refl)).
Defined.

Lemma images_drawn_addPage (d : Pdf.doc) :
  images_drawn (Pdf.addPage d) = images_drawn d.
Proof.
  unfold images_drawn, Pdf.addPage, Pdf.pages. cbn [Pdf.finished Pdf.current].
  rewrite !flat_map_app. cbn. by rewrite !app_nil_r.
Qed.

Lemma images_drawn_draw (o : Pdf.op) (d : Pdf.doc) :
  images_drawn (Pdf.draw o d) = (images_drawn d ++ page_images [o])%list.
Proof.
  unfold images_drawn, Pdf.draw, Pdf.pages. cbn [Pdf.finished Pdf.current].
  rewrite !flat_map_app. cbn [flat_map]. unfold page_images at 2 4.
  rewrite flat_map_app, !app_nil_r. by rewrite <- app_assoc.
Qed.

Lemma images_drawn_carry_over (n : nat) :
  forall d, images_drawn (Pdf.carry_over n d) = images_drawn d.
Proof.
  induction n as [|n IH]; intros d; [reflexivity|].
  cbn [Pdf.carry_over].
  rewrite IH, images_drawn_draw, images_drawn_addPage. cbn.
  by rewrite app_nil_r.
Qed.

Lemma images_drawn_template (ps : Pdf.op -> nat) (n : string)
    (d : Pdf.doc) :
  images_drawn (Pdf.drawFlowing ps (Pdf.Template n) (Pdf.drawHeader d))
  = images_drawn d.
Proof.
  unfold Pdf.drawFlowing, Pdf.drawHeader.
  rewrite images_drawn_carry_over, !images_drawn_draw. cbn.
  by rewrite !app_nil_r.
Qed.

Lemma images_drawn_investment (ps : Pdf.op -> nat) (l : list value) :
  forall index d,
    images_drawn (Pdf.investment_sections ps l index d) = images_drawn d.
Proof.
  induction l as [|t l IH]; intros index d; [reflexivity|].
  cbn [Pdf.investment_sections]. rewrite IH.
  unfold Pdf.drawFlowing, Pdf.drawHeader.
  rewrite images_drawn_carry_over, !images_drawn_draw.
  cbn [page_images flat_map app].
  rewrite !app_nil_r.
  destruct (_ <? _)%nat; [apply images_drawn_addPage|reflexivity].
Qed.

Lemma images_drawn_floor_plan_page (p : option string) (d : Pdf.doc) :
  images_drawn (Pdf.floor_plan_page p d) = (images_drawn d ++ [p])%list.
Proof.
  unfold Pdf.floor_plan_page, Pdf.drawHeader. rewrite !images_drawn_draw.
  cbn. by rewrite !app_nil_r.
Qed.

Lemma images_drawn_floor_plans_loop (l : list string)
    (lastPath : option string) :
  forall d,
    images_drawn (Pdf.floor_plans_loop l lastPath d)
    = (images_drawn d ++ (Some <$> l))%list.
Proof.
  induction l as [|p l IH]; intros d; [by rewrite app_nil_r|].
  cbn [Pdf.floor_plans_loop]. rewrite IH.
  destruct (bool_decide _); rewrite ?images_drawn_addPage,
    images_drawn_floor_plan_page; by rewrite <- app_assoc.
Qed.

Lemma images_drawn_gallery_head (th : number) (d : Pdf.doc) :
  images_drawn (Pdf.gallery_page_head th d).1 = images_drawn d.
Proof.
  unfold Pdf.gallery_page_head, Pdf.drawHeader. cbn [fst].
  rewrite !images_drawn_draw. cbn. by rewrite !app_nil_r.
Qed.

Lemma images_drawn_gallery_loop (th : number) (l : list string) :
  forall d currentY,
    images_drawn (Pdf.gallery_loop th l d currentY)
    = (images_drawn d ++ (Some <$> l))%list.
Proof.
  induction l as [|p l IH]; intros d currentY; [by rewrite app_nil_r|].
  cbn [Pdf.gallery_loop].
  destruct (_ >? _)%num.
  - destruct (Pdf.gallery_page_head th (Pdf.addPage d)) as [d1 y1] eqn:E.
    rewrite IH, images_drawn_draw.
    change d1 with (d1, y1).1. rewrite <- E, images_drawn_gallery_head,
      images_drawn_addPage. cbn. by rewrite <- app_assoc.
  - rewrite IH, images_drawn_draw. cbn. by rewrite <- app_assoc.
Qed.

(** X18: whatever the page breaks, the floor-plan and gallery sections
    draw every floor plan and then every gallery image exactly once and in
    the order of the request; without floor plans one placeholder is drawn
    in their place. *)
Theorem images_drawn_in_order (th : number) (ps : Pdf.op -> nat)
    (data : Pdf.report_data) (imgs : Pdf.images) :
  images_drawn (Pdf.generatePDF th ps data imgs)
  = (match default [] (Pdf.floor_plans imgs) with
     | [] => [None]
     | l => Some <$> l
     end ++ (Some <$> Pdf.galleryImages imgs))%list.
Proof.
  unfold Pdf.generatePDF, Pdf.createCityMapPage,
    Pdf.createOtherKeyInformationPage, Pdf.createKeyInformationPage,
    Pdf.createCoverPage, Pdf.createInvestmentPage.
  cbv zeta.
  rewrite images_drawn_template, images_drawn_addPage.
  assert (G : forall d,
             images_drawn (Pdf.gallery_section th imgs d)
             = (images_drawn d ++ (Some <$> Pdf.galleryImages imgs))%list).
  { intros d. unfold Pdf.gallery_section. cbv zeta.
    destruct (Pdf.galleryImages imgs) as [|p l] eqn:E;
      [by rewrite app_nil_r|].
    cbn [List.length Nat.ltb Nat.leb].
    destruct (Pdf.gallery_page_head th d) as [d1 y1] eqn:E1.
    rewrite images_drawn_gallery_loop.
    change d1 with (d1, y1).1. by rewrite <- E1, images_drawn_gallery_head. }
  rewrite G, images_drawn_addPage. f_equal.
  assert (F : forall d,
             images_drawn (Pdf.floor_plans_section imgs d)
             = (images_drawn d ++
                match default [] (Pdf.floor_plans imgs) with
                | [] => [None]
                | l => Some <$> l
                end)%list).
  { intros d. unfold Pdf.floor_plans_section. cbv zeta.
    destruct (default [] (Pdf.floor_plans imgs)) as [|p l].
    - apply images_drawn_floor_plan_page.
    - cbn [List.length Nat.ltb Nat.leb].
      apply images_drawn_floor_plans_loop. }
  rewrite F, images_drawn_addPage, images_drawn_template,
    images_drawn_addPage, images_drawn_template, images_drawn_addPage,
    images_drawn_investment, images_drawn_addPage, images_drawn_template.
  reflexivity.
Qed.

Lemma extends_length (d d' : Pdf.doc) :
  extends d d' ->
  (List.length (Pdf.finished d) <= List.length (Pdf.finished d'))%nat.
Proof. intros [more ->]. rewrite length_app. lia. Qed.

(** X19: every report has at least seven pages, and at least six more
    than the number of calculator sections. *)
Theorem at_least_seven_pages (th : number) (ps : Pdf.op -> nat)
    (data : Pdf.report_data) (imgs : Pdf.images) :
  (6 + Nat.max 1 (List.length (Pdf.selectedCalculators data))
   <= List.length (Pdf.pages (Pdf.generatePDF th ps data imgs)))%nat.
Proof.
  unfold Pdf.generatePDF. cbv zeta. rewrite pages_before_floor_plans.
  set (d0 := Pdf.mkDoc _ []).
  pose proof (extends_length _ _ (extends_floor_plans_section imgs d0)) as H1.
  set (d1 := Pdf.addPage (Pdf.floor_plans_section imgs d0)) in *.
  pose proof (extends_length _ _ (extends_gallery_section th imgs d1)) as H2.
  unfold Pdf.createCityMapPage. rewrite template_after_addPage.
  unfold Pdf.pages at 1. rewrite !length_app.
  subst d1. unfold Pdf.addPage in H2. cbn [Pdf.finished] in H2.
  rewrite length_app in H2. subst d0. cbn [Pdf.finished] in H1.
  rewrite !length_app in H1.
  pose proof (investment_pages_length ps (Pdf.selectedCalculators data)).
  unfold template_pages, flowing_pages, Pdf.addPage in *.
  cbn [List.length] in *. lia.
Qed.

(** ** The energy-rating bands *)

Lemma whole_scores_checked :
  forallb (fun i =>
             (List.length (bands_of (Num.of_Z (Z.of_nat i))) =? 1)%nat
             && ((i =? 100)%nat
                 || (grade_rank (Pdf.letterFor (Num.of_Z (Z.of_nat (S i))))
                     <=? grade_rank (Pdf.letterFor (Num.of_Z (Z.of_nat i))))%nat))
    (seq 1 100) = true.
Proof. vm_compute. reflexivity. Qed.

Lemma whole_score_checked (z : Z) :
  1 <= z <= 100 ->
  List.length (bands_of (Num.of_Z z)) = 1%nat
  /\ (z < 100 ->
      (grade_rank (Pdf.letterFor (Num.of_Z (z + 1)))
       <= grade_rank (Pdf.letterFor (Num.of_Z z)))%nat).
Proof.
  intros Hz. pose proof whole_scores_checked as H.
  rewrite forallb_forall in H.
  specialize (H (Z.to_nat z)).
  replace (Z.of_nat (S (Z.to_nat z))) with (z + 1) in H by lia.
  replace (Z.of_nat (Z.to_nat z)) with z in H by lia.
  assert (Hin : In (Z.to_nat z) (seq 1 100)) by (apply in_seq; lia).
  apply H in Hin. apply andb_prop in Hin as [H1 H2].
  split; [by apply Nat.eqb_eq|].
  intros Hlt. apply orb_prop in H2 as [H2|H2]; [|by apply Nat.leb_le].
  apply Nat.eqb_eq in H2. lia.
Qed.

(** X20: the seven bands partition the whole scores from 1 to 100: each
    such score lies in exactly one band; and a higher score never gets a
    later letter. *)
Theorem bands_partition_whole_scores (z z' : Z) :
  1 <= z <= z' -> z' <= 100 ->
  List.length (bands_of (Num.of_Z z)) = 1%nat
  /\ (grade_rank (Pdf.letterFor (Num.of_Z z'))
      <= grade_rank (Pdf.letterFor (Num.of_Z z)))%nat.
Proof.
  intros Hz Hz'. split; [apply whole_score_checked; lia|].
  assert (H : forall n : nat,
             z + Z.of_nat n <= 100 ->
             (grade_rank (Pdf.letterFor (Num.of_Z (z + Z.of_nat n)))
              <= grade_rank (Pdf.letterFor (Num.of_Z z)))%nat).
  { induction n as [|n IH]; intros Hn.
    - replace (z + Z.of_nat 0) with z by lia. lia.
    - etrans; [|apply IH; lia].
      replace (z + Z.of_nat (S n)) with (z + Z.of_nat n + 1) by lia.
      apply whole_score_checked; lia. }
  specialize (H (Z.to_nat (z' - z))).
  replace (z + Z.of_nat (Z.to_nat (z' - z))) with z' in H by lia.
  apply H. lia.
Qed.

Lemma bands_partition_whole_scores_witness :
  List.length (bands_of (Num.of_Z 68)) = 1%nat
  /\ (grade_rank (Pdf.letterFor (Num.of_Z 69))
      <= grade_rank (Pdf.letterFor (Num.of_Z 68)))%nat.
Proof. apply (bands_partition_whole_scores 68 69); lia. Defined.

(** ** How [generatePDF] settles *)

(** X21: given that the output file can be written, the promise resolves
    exactly when the output path is a string with a character that is not
    white space and [key_features] is falsy or a string; it is rejected
    before anything is drawn for any other path, and a truthy
    [key_features] that is not a string makes the drawing throw. *)
Theorem report_settles (th : number) (ps : Pdf.op -> nat)
    (data : Pdf.report_data) (imgs : Pdf.images) (outputPath : value) :
  let key_features := get (Pdf.fields data) "key_features" in
  (Report.generatePDF th ps data imgs outputPath
   = Report.Resolved (Pdf.generatePDF th ps data imgs)
   <-> (exists s, outputPath = VStr s /\ Pdf.trim s <> "")
       /\ (truthy key_features = false \/ exists s, key_features = VStr s))
  /\ (forall d, Report.generatePDF th ps data imgs outputPath = Report.Resolved d
                -> d = Pdf.generatePDF th ps data imgs)
  /\ (Report.generatePDF th ps data imgs outputPath = Report.Thrown
      -> (exists s, outputPath = VStr s /\ Pdf.trim s <> "")
         /\ truthy key_features = true
         /\ forall s, key_features <> VStr s).
Proof.
  cbv zeta. unfold Report.generatePDF, Report.keyFeatures.
  destruct outputPath as [| |b|x|s]; cbn [truthy negb].
  1-2: split; [split; [done|by intros [(s & Hs & _) _]]|done].
  - destruct b; cbn [negb];
      (split; [split; [done|by intros [(s & Hs & _) _]]|done]).
  - destruct (truthy_num x); cbn [negb];
      (split; [split; [done|by intros [(s & Hs & _) _]]|done]).
  - destruct (String.eqb_spec s "") as [->|Hs]; cbn [negb].
    { split; [split; [done|]|done]. intros [(s & Hs & Ht) _].
      injection Hs as <-. done. }
    destruct (String.eqb_spec (Pdf.trim s) "") as [Ht|Ht].
    { split; [split; [done|]|done]. intros [(s' & Hs' & Ht') _].
      injection Hs' as <-. done. }
    destruct (truthy (get (Pdf.fields data) "key_features")) eqn:Hk.
    + destruct (get (Pdf.fields data) "key_features") as [| |b|x|f];
        try discriminate Hk.
      * split; [split; [done|]|split; [done|]].
        -- intros [_ [?|(f & Hf)]]; done.
        -- intros _. split; [by exists s|]. split; [done|].
           intros f E. discriminate E.
      * split; [split; [done|]|split; [done|]].
        -- intros [_ [?|(f & Hf)]]; done.
        -- intros _. split; [by exists s|]. split; [done|].
           intros f E. discriminate E.
      * split; [split|split; [by intros d [= <-]|done]].
        -- intros _. split; [by exists s|right; by exists f].
        -- done.
    + split; [split|split; [by intros d [= <-]|done]].
      * intros _. split; [by exists s|by left].
      * done.
Qed.

Lemma report_settles_witness :
  truthy (get (Pdf.fields numeric_features) "key_features") = true.
Proof.
  pose proof (report_settles 30%num fits numeric_features no_images
                (VStr "/tmp/report.pdf")) as H.
  cbv zeta in H. destruct H as (_ & _ & H).
  assert (E : Report.generatePDF 30%num fits numeric_features no_images
                (VStr "/tmp/report.pdf") = Report.Thrown)
    by (vm_compute; reflexivity).
  exact (proj1 (proj2 (H E))).
Defined.

(** ** The HTTP handlers *)

Lemma usable_cons (e : Server.entry) (arr : list Server.entry) :
  usable (e :: arr)
  = match e with
    | Server.EStr s =>
        match drop_prefix "http" s with
        | Some _ => usable arr
        | None => s :: usable arr
        end
    | Server.EOther => usable arr
    end.
Proof.
  destruct e as [s|]; [|reflexivity].
  unfold usable. cbn [omap list_omap].
  by destruct (drop_prefix "http" s).
Qed.

Lemma write_section_written (filePath : nat -> string -> string -> string)
    (section : string) (arr : list Server.entry) :
  forall n,
    Server.write_section filePath section arr n
    = (written filePath n section arr, (n + List.length (usable arr))%nat).
Proof.
  unfold written.
  induction arr as [|e arr IH]; intros n.
  - cbn. f_equal. lia.
  - rewrite usable_cons.
    destruct e as [s|]; cbn [Server.write_section]; [|apply IH].
    destruct (drop_prefix "http" s); [apply IH|].
    rewrite IH. cbn [imap List.length]. unfold Server.writeBase64Image.
    f_equal; [|lia].
    f_equal; [f_equal; lia|].
    apply imap_ext. intros i x _. cbn. f_equal. lia.
Qed.

Lemma imagePaths_written (filePath : nat -> string -> string -> string)
    (images : gmap string (list Server.entry)) :
  Server.imagePaths filePath images = Pdf.mkImages
    (Some (written filePath 0 "cover" (section_of images "cover")))
    (Some (written filePath (List.length (usable (section_of images "cover")))
             "property" (section_of images "property")))
    (Some (written filePath
             (List.length (usable (section_of images "cover"))
              + List.length (usable (section_of images "property")))
             "floor_plans" (section_of images "floor_plans")))
    (Some (written filePath
             (List.length (usable (section_of images "cover"))
              + List.length (usable (section_of images "property"))
              + List.length (usable (section_of images "floor_plans")))
             "directions" (section_of images "directions")))
    (Some (written filePath
             (List.length (usable (section_of images "cover"))
              + List.length (usable (section_of images "property"))
              + List.length (usable (section_of images "floor_plans"))
              + List.length (usable (section_of images "directions")))
             "city" (section_of images "city"))).
Proof.
  unfold Server.imagePaths. cbv zeta.
  rewrite !write_section_written. reflexivity.
Qed.

(** X22: the handler hands [generatePDF] an array for each of the five
    image sections, whatever the request holds: one file per string entry
    that does not start with [http], in the order of the request, other
    entries being dropped.  The gallery of a report made through the
    handler is therefore always the property images, as many as the
    request has usable ones. *)
Theorem server_image_paths (filePath : nat -> string -> string -> string)
    (images : gmap string (list Server.entry)) :
  let count section := List.length (usable (section_of images section)) in
  let n1 := count "cover" in
  let n2 := (n1 + count "property")%nat in
  let n3 := (n2 + count "floor_plans")%nat in
  let n4 := (n3 + count "directions")%nat in
  let paths n section :=
    written filePath n section (section_of images section) in
  Server.imagePaths filePath images
  = Pdf.mkImages (Some (paths 0%nat "cover")) (Some (paths n1 "property"))
      (Some (paths n2 "floor_plans")) (Some (paths n3 "directions"))
      (Some (paths n4 "city"))
  /\ Pdf.galleryImages (Server.imagePaths filePath images)
     = paths n1 "property"
  /\ List.length (Pdf.galleryImages (Server.imagePaths filePath images))
     = count "property".
Proof.
  cbv zeta. split; [apply imagePaths_written|].
  rewrite imagePaths_written. unfold Pdf.galleryImages.
  cbn [Pdf.property]. split; [reflexivity|].
  unfold written. by rewrite length_imap.
Qed.

(** X23: a report made through the handler from a request without usable
    property images has no gallery page at all (no page carries the
    gallery title), even when the request has cover images: the cover
    images are never used for the gallery. *)
Theorem no_gallery_through_handler
    (filePath : nat -> string -> string -> string)
    (images : gmap string (list Server.entry)) (th : number)
    (ps : Pdf.op -> nat) (data : Pdf.report_data) :
  usable (section_of images "property") = [] ->
  Pdf.galleryImages (Server.imagePaths filePath images) = []
  /\ count_pages (is_title "Property Images")
       (Pdf.generatePDF th ps data (Server.imagePaths filePath images))
     = 0%nat.
Proof.
  intros H.
  assert (G : Pdf.galleryImages (Server.imagePaths filePath images) = []).
  { rewrite imagePaths_written. unfold Pdf.galleryImages.
    cbn [Pdf.property]. unfold written. by rewrite H. }
  split; [exact G|].
  by apply (pages_with_content th ps data
              (Server.imagePaths filePath images)).
Qed.

Lemma no_gallery_through_handler_witness :
  count_pages (is_title "Property Images")
    (Pdf.generatePDF 30%num fits empty_report
       (Server.imagePaths (fun n prefix ext => prefix ++ "." ++ ext)
          remote_gallery))
  = 0%nat.
Proof.
  apply (proj2 (no_gallery_through_handler
                  (fun n prefix ext => prefix ++ "." ++ ext) remote_gallery
                  30%num fits empty_report eq_refl)).
Defined.

Lemma take_while_all (f : ascii -> bool) (s : string) :
  all_chars f (Server.take_while f s) = true.
Proof.
  induction s as [|a s IH]; [done|]. cbn [Server.take_while].
  destruct (f a) eqn:E; [|done]. cbn [all_chars]. by rewrite E.
Qed.

Lemma all_chars_weaken (f g : ascii -> bool) (s : string) :
  (forall a, f a = true -> g a = true) ->
  all_chars f s = true -> all_chars g s = true.
Proof.
  intros H. induction s as [|a s IH]; [done|]. cbn [all_chars].
  intros [Ha Hs]%andb_prop. by rewrite (H a Ha), IH.
Qed.

Lemma split_slash_plain (s : string) :
  all_chars not_slash s = true -> Server.split_slash s = [s].
Proof.
  induction s as [|a s IH]; [done|]. cbn [all_chars Server.split_slash].
  intros [Ha Hs]%andb_prop. rewrite (IH Hs).
  unfold not_slash in Ha. by destruct (Ascii.eqb a "/").
Qed.

Lemma subtype_char_not_slash (a : ascii) :
  Server.is_subtype_char a = true -> not_slash a = true.
Proof.
  unfold not_slash.
  destruct (Ascii.eqb_spec a "/") as [->|]; [|done]. by vm_compute.
Qed.

Lemma all_chars_app (f : ascii -> bool) (s t : string) :
  all_chars f (s ++ t) = all_chars f s && all_chars f t.
Proof.
  induction s as [|a s IH]; [done|]. rewrite append_cons.
  cbn [all_chars]. by rewrite IH, andb_assoc.
Qed.

(** X24: the extension [writeBase64Image] gives a file is never empty and
    consists of letters, digits, dots, plus and minus signs only, so it
    holds no path separator; it is [png] whenever the text is not a data
    URL of an image. *)
Theorem image_ext_is_safe (base64 : string) :
  Server.image_ext base64 <> ""
  /\ all_chars Server.is_subtype_char (Server.image_ext base64) = true
  /\ (forall dir name, Server.image_ext base64 <> dir ++ "/" ++ name)
  /\ (Server.match_data_url base64 = None ->
      Server.image_ext base64 = "png").
Proof.
  assert (H : Server.image_ext base64 <> ""
              /\ all_chars Server.is_subtype_char (Server.image_ext base64)
                 = true).
  { unfold Server.image_ext, Server.match_data_url.
    destruct (drop_prefix "data:image/" base64) as [rest|]; [|done].
    pose proof (take_while_all Server.is_subtype_char rest) as Hall.
    destruct (String.eqb_spec (Server.take_while Server.is_subtype_char rest)
                "") as [E|E]; [done|].
    destruct (drop_prefix ";base64," _) as [payload|]; [|done].
    destruct (_ || _); [done|].
    change ("image/" ++ ?s) with
      (String "i" (String "m" (String "a" (String "g" (String "e"
        (String "/" s)))))).
    cbn [Server.split_slash Ascii.eqb Bool.eqb].
    rewrite split_slash_plain
      by (eapply all_chars_weaken; [apply subtype_char_not_slash|done]).
    cbn [lookup list_lookup].
    destruct (String.eqb_spec (Server.take_while Server.is_subtype_char rest)
                ""); done. }
  destruct H as [H1 H2]. repeat split; [done..| |].
  - intros dir name E. rewrite E, all_chars_app in H2.
    apply andb_prop in H2 as [_ H2]. discriminate H2.
  - unfold Server.image_ext. by intros ->.
Qed.

Lemma image_ext_is_safe_witness :
  Server.image_ext "data:image/../../etc;base64,AAAA" = "png".
Proof.
  apply (proj2 (proj2 (proj2 (image_ext_is_safe
                                "data:image/../../etc;base64,AAAA")))).
  vm_compute. reflexivity.
Defined.

Lemma keep_all (f : ascii -> bool) (s : string) :
  all_chars f (Server.keep f s) = true.
Proof.
  induction s as [|a s IH]; [done|]. cbn [Server.keep].
  destruct (f a) eqn:E; [|done]. cbn [all_chars]. by rewrite E.
Qed.

Lemma keep_fixed (f : ascii -> bool) (s : string) :
  all_chars f s = true -> Server.keep f s = s.
Proof.
  induction s as [|a s IH]; [done|]. cbn [all_chars Server.keep].
  intros [Ha Hs]%andb_prop. by rewrite Ha, IH.
Qed.

(** X25: the file name sent with the report holds only letters, digits,
    spaces, hyphens and underscores, so no quote, slash, dot or line break
    of the address reaches the response header, and sanitising it again
    changes nothing; a falsy address gives [Property Report]; a truthy
    address that is not a string makes the handler throw after the report
    was generated. *)
Theorem safe_file_name (address : value) :
  (forall name, Server.safeName address = Some name ->
                all_chars Server.is_name_char name = true
                /\ Server.keep Server.is_name_char name = name
                /\ forall pre post a,
                     name = pre ++ String a post ->
                     a <> Ascii.ascii_of_N 34 /\ a <> "/"%char
                     /\ a <> "."%char
                     /\ a <> Ascii.ascii_of_N 10 /\ a <> Ascii.ascii_of_N 13)
  /\ (truthy address = false ->
      Server.safeName address = Some "Property Report")
  /\ (Server.safeName address = None
      <-> truthy address = true /\ forall s, address <> VStr s).
Proof.
  split; [|split].
  - intros name H.
    assert (Hall : all_chars Server.is_name_char name = true).
    { unfold Server.safeName in H.
      destruct (or_val address _) as [| |b|x|s]; try discriminate H.
      injection H as <-. apply keep_all. }
    split; [exact Hall|]. split; [by apply keep_fixed|].
    intros pre post a ->. rewrite all_chars_app in Hall.
    apply andb_prop in Hall as [_ Hall]. cbn [all_chars] in Hall.
    apply andb_prop in Hall as [Ha _].
    repeat split; intros ->; by vm_compute in Ha.
  - intros H. unfold Server.safeName, or_val. by rewrite H.
  - unfold Server.safeName, or_val.
    destruct (truthy address) eqn:H.
    + destruct address as [| |b|x|s]; try discriminate H.
      * split; [|done]. intros _. split; [done|]. intros s' E. discriminate E.
      * split; [|done]. intros _. split; [done|]. intros s' E. discriminate E.
      * split; [intros E; discriminate E|].
        intros [_ Hs]. by destruct (Hs s).
    + split; [done|]. by intros [? _].
Qed.

Lemma safe_file_name_witness :
  all_chars Server.is_name_char "12 High St London" = true.
Proof.
  apply (proj1 (safe_file_name (VStr "12 High St., London"))
           "12 High St London").
  vm_compute. reflexivity.
Defined.

Lemma drop_prefix_app (w s : string) : drop_prefix w (w ++ s) = Some s.
Proof.
  induction w as [|a w IH]; [by destruct s|].
  rewrite append_cons. cbn [drop_prefix]. by rewrite Ascii.eqb_refl.
Qed.

Lemma drop_prefix_inv (w s r : string) :
  drop_prefix w s = Some r -> s = w ++ r.
Proof.
  revert s. induction w as [|a w IH]; intros s.
  - destruct s; simpl; intros H; injection H as H; by subst.
  - destruct s as [|b s]; [done|]. simpl.
    destruct (Ascii.eqb_spec a b) as [->|]; [|done].
    intros H%IH. by rewrite H.
Qed.

Lemma includes_app (w pre post : string) :
  Report.includes w (pre ++ w ++ post) = true.
Proof.
  induction pre as [|a pre IH].
  - change ("" ++ w ++ post) with (w ++ post).
    destruct (w ++ post) eqn:E;
      cbn [Report.includes]; rewrite <- E; by rewrite drop_prefix_app.
  - change (String a pre ++ w ++ post) with (String a (pre ++ w ++ post)).
    cbn [Report.includes]. rewrite IH.
    by destruct (drop_prefix _ _).
Qed.

Lemma includes_inv (w s : string) :
  Report.includes w s = true -> exists pre post, s = pre ++ w ++ post.
Proof.
  induction s as [|a s IH].
  - cbn [Report.includes]. destruct (drop_prefix w "") as [r|] eqn:E; [|done].
    intros _. exists "", r. exact (drop_prefix_inv _ _ _ E).
  - cbn [Report.includes].
    destruct (drop_prefix w (String a s)) as [r|] eqn:E.
    + intros _. exists "", r. exact (drop_prefix_inv _ _ _ E).
    + intros (pre & post & ->)%IH. by exists (String a pre), post.
Qed.

(** X26: the image proxy accepts a host name exactly when one of the six
    allowed domains occurs somewhere in it: the host need not be an
    allowed domain or a subdomain of one, so a host of another domain
    whose name merely contains an allowed one is accepted. *)
Theorem allowed_domain_anywhere (hostname : string) :
  (Server.domain_allowed hostname = true
   <-> exists domain pre post,
         domain ∈ Server.allowedDomains
         /\ hostname = pre ++ domain ++ post)
  /\ Server.domain_allowed "pexels.com.attacker.example" = true
  /\ Server.domain_allowed "notunsplash.com" = true.
Proof.
  split; [|split; reflexivity].
  unfold Server.domain_allowed. rewrite existsb_exists. split.
  - intros (d & Hd%list_elem_of_In & (pre & post & ->)%includes_inv).
    by exists d, pre, post.
  - intros (d & pre & post & Hd & ->). exists d.
    split; [by apply list_elem_of_In|apply includes_app].
Qed.



(** X28: only the host of the URL in the query is checked against the
    allowed domains: when the first response redirects, the proxy requests
    the new location whatever its host and sends back what it gets. *)
Theorem proxy_follows_any_redirect (hostname : string -> option string)
    (get : nat -> string -> Server.reply) (imageUrl host loc : string)
    (r : Server.response) :
  imageUrl <> "" -> hostname imageUrl = Some host ->
  Server.domain_allowed host = true ->
  redirect_to loc (get 0%nat imageUrl) ->
  get 1%nat loc = Server.Response r -> Server.statusCode r = 200 ->
  Server.proxyImage hostname get imageUrl
  = Some (Server.Piped loc, [imageUrl; loc]).
Proof.
  intros Hu Hh Ha (code & Hg & Hc & Hl) Hg1 Hr.
  unfold Server.proxyImage.
  destruct (String.eqb_spec imageUrl ""); [done|].
  rewrite Hh, Ha. cbn [negb Server.fetchImage Nat.ltb Nat.leb].
  rewrite Hg. cbn [Server.statusCode Server.location].
  destruct (Z.leb_spec 300 code); [|lia].
  destruct (Z.ltb_spec code 400); [|lia].
  destruct (String.eqb_spec loc ""); [done|].
  cbn [andb negb]. rewrite Hg1, Hr. reflexivity.
Qed.

Lemma proxy_follows_any_redirect_witness :
  Server.proxyImage internal_host redirecting
    "https://images.pexels.com/a.jpg"
  = Some (Server.Piped "https://intranet.example/x",
          ["https://images.pexels.com/a.jpg"; "https://intranet.example/x"])
  /\ option_map Server.domain_allowed
       (internal_host "https://intranet.example/x") = Some false.
Proof.
  split; [|reflexivity].
  apply (proxy_follows_any_redirect internal_host redirecting
           "https://images.pexels.com/a.jpg" "images.pexels.com"
           "https://intranet.example/x" (Server.mkResponse 200 ""));
    try reflexivity; try discriminate.
  exists 302. split; [reflexivity|]. split; [lia|discriminate].
Defined.
